(** * Cluster join and bootstrap: token codec, CA trust, driver selection

    A shallow embedding of [pkg/clientaccess] (join-token codec, CA trust
    establishment) and of [pkg/cluster] (managed-driver selection and the
    bootstrap orchestration), with the properties of the specification
    stated over it.

    Go strings are byte strings and are modelled by [string]; [[]byte] by
    [list byte].  Everything that lives outside the process (HTTP peers,
    the file system, the storage drivers) is reached through the
    operations of a [Platform], which act on an abstract world; every call
    that leaves the process is recorded in a trace. *)

From Stdlib Require Import List String Ascii ZArith Lia Bool Arith.
From Stdlib Require Import Strings.Byte.
Import ListNotations.
Local Open Scope string_scope.
Local Open Scope list_scope.

Set Implicit Arguments.

Definition bytes := list byte.

(* ------------------------------------------------------------------ *)
(** ** Go's [strings] package, as far as the sources use it *)

Module strings.

(** [s[n:]] *)
Fixpoint sliceFrom (n : nat) (s : string) : string :=
  match n, s with
  | 0, _ => s
  | S n', String _ s' => sliceFrom n' s'
  | S _, EmptyString => EmptyString
  end.

(** [s[:n]] *)
Fixpoint sliceTo (n : nat) (s : string) : string :=
  match n, s with
  | 0, _ => EmptyString
  | S n', String c s' => String c (sliceTo n' s')
  | S _, EmptyString => EmptyString
  end.

Definition HasPrefix (s pre : string) : bool := String.prefix pre s.

Fixpoint HasSuffix_rev (rs rsuf : list ascii) : bool :=
  match rsuf, rs with
  | [], _ => true
  | c :: rsuf', d :: rs' => Ascii.eqb c d && HasSuffix_rev rs' rsuf'
  | _ :: _, [] => false
  end.

Definition HasSuffix (s suf : string) : bool :=
  HasSuffix_rev (rev (list_ascii_of_string s)) (rev (list_ascii_of_string suf)).

(** [strings.Index]: position of the first occurrence of [sep] in [s];
    Go's [-1] is [None]. *)
Fixpoint Index (s sep : string) : option nat :=
  if String.prefix sep s then Some 0
  else match s with
       | EmptyString => None
       | String _ s' => option_map S (Index s' sep)
       end.

(** The loop of [genSplit]: at most [k] cuts, the rest in one piece. *)
Fixpoint genSplit (k : nat) (s sep : string) : list string :=
  match k with
  | 0 => [s]
  | S k' =>
      match Index s sep with
      | None => [s]
      | Some m => sliceTo m s :: genSplit k' (sliceFrom (m + String.length sep) s) sep
      end
  end.

(** [strings.SplitN(s, sep, n)] for [n >= 0] and a non-empty [sep] (the
    sources split on "::" and ":" only).  [n] is capped at [len(s)+1]
    as in the library. *)
Definition SplitN (s sep : string) (n : nat) : list string :=
  match n with
  | 0 => []
  | S k => genSplit (Nat.min k (String.length s)) s sep
  end.

End strings.

(* ------------------------------------------------------------------ *)
(** ** [encoding/hex] and [crypto/sha256] *)

Module hex.

Definition hextable : string := "0123456789abcdef".

Definition digit (n : N) : ascii :=
  match String.get (N.to_nat n) hextable with
  | Some c => c
  | None => "0"%char
  end.

Fixpoint EncodeToString (src : bytes) : string :=
  match src with
  | [] => EmptyString
  | b :: rest =>
      let v := Byte.to_N b in
      String (digit (N.shiftr v 4)) (String (digit (N.land v 15)) (EncodeToString rest))
  end.

End hex.

Module sha256.
Local Open Scope Z_scope.

Definition wrap (x : Z) : Z := x mod 2 ^ 32.
Definition add32 (x y : Z) : Z := wrap (x + y).
Definition rotr (n x : Z) : Z := Z.lor (Z.shiftr x n) (wrap (Z.shiftl x (32 - n))).
Definition not32 (x : Z) : Z := Z.lxor x (2 ^ 32 - 1).

Definition Ch (x y z : Z) : Z := Z.lxor (Z.land x y) (Z.land (not32 x) z).
Definition Maj (x y z : Z) : Z :=
  Z.lxor (Z.lxor (Z.land x y) (Z.land x z)) (Z.land y z).
Definition Sigma0 (x : Z) : Z := Z.lxor (Z.lxor (rotr 2 x) (rotr 13 x)) (rotr 22 x).
Definition Sigma1 (x : Z) : Z := Z.lxor (Z.lxor (rotr 6 x) (rotr 11 x)) (rotr 25 x).
Definition sigma0 (x : Z) : Z := Z.lxor (Z.lxor (rotr 7 x) (rotr 18 x)) (Z.shiftr x 3).
Definition sigma1 (x : Z) : Z := Z.lxor (Z.lxor (rotr 17 x) (rotr 19 x)) (Z.shiftr x 10).

(** The round constants and the initial state are the fractional parts
    of the cube and square roots of the first primes; they are computed
    rather than tabulated. *)
Definition is_prime (n : nat) : bool :=
  (1 <? n)%nat && forallb (fun d => negb (Nat.eqb (n mod d) 0)) (seq 2 (n - 2)).

Definition primes64 : list Z :=
  map Z.of_nat (firstn 64 (filter is_prime (seq 2 400))).

Fixpoint icbrt_bits (i : nat) (n r : Z) : Z :=
  let try := fun b => if (r + b) ^ 3 <=? n then r + b else r in
  match i with
  | O => try 1
  | S i' => icbrt_bits i' n (try (2 ^ Z.of_nat i))
  end.

(** Integer cube root of [n < 2^108]. *)
Definition icbrt (n : Z) : Z := icbrt_bits 36 n 0.

Definition K : list Z :=
  Eval vm_compute in map (fun p => wrap (icbrt (p * 2 ^ 96))) primes64.

Definition H0 : list Z :=
  Eval vm_compute in map (fun p => wrap (Z.sqrt (p * 2 ^ 64))) (firstn 8 primes64).

Definition be32 (b3 b2 b1 b0 : Z) : Z := ((b3 * 256 + b2) * 256 + b1) * 256 + b0.

Fixpoint words (bs : list Z) : list Z :=
  match bs with
  | b3 :: b2 :: b1 :: b0 :: rest => be32 b3 b2 b1 b0 :: words rest
  | _ => []
  end.

Definition unword (w : Z) : list Z :=
  [Z.shiftr w 24 mod 256; Z.shiftr w 16 mod 256; Z.shiftr w 8 mod 256; w mod 256].

Definition pad (msg : list Z) : list Z :=
  let len := Z.of_nat (List.length msg) in
  let zeros := Z.to_nat ((55 - len) mod 64) in
  let bits := len * 8 in
  msg ++ [128] ++ repeat 0 zeros
      ++ unword (Z.shiftr bits 32 mod 2 ^ 32) ++ unword (bits mod 2 ^ 32).

(** Message schedule, most recent word first. *)
Fixpoint extend (n : nat) (rw : list Z) : list Z :=
  match n with
  | O => rw
  | S n' =>
      let w := add32 (add32 (sigma1 (nth 1 rw 0)) (nth 6 rw 0))
                     (add32 (sigma0 (nth 14 rw 0)) (nth 15 rw 0)) in
      extend n' (w :: rw)
  end.

Definition schedule (block : list Z) : list Z := rev (extend 48 (rev (words block))).

Definition round (st : list Z) (kw : Z * Z) : list Z :=
  match st with
  | [a; b; c; d; e; f; g; h] =>
      let t1 := add32 (add32 (add32 h (Sigma1 e)) (add32 (Ch e f g) (fst kw))) (snd kw) in
      let t2 := add32 (Sigma0 a) (Maj a b c) in
      [add32 t1 t2; a; b; c; add32 d t1; e; f; g]
  | _ => st
  end.

Definition compress (st block : list Z) : list Z :=
  let st' := fold_left round (combine K (schedule block)) st in
  map (fun p => add32 (fst p) (snd p)) (combine st st').

Fixpoint blocks (n : nat) (st msg : list Z) : list Z :=
  match n with
  | O => st
  | S n' => blocks n' (compress st (firstn 64 msg)) (skipn 64 msg)
  end.

Definition byte_of_Z (z : Z) : byte :=
  match Byte.of_N (Z.to_N z) with
  | Some b => b
  | None => x00
  end.

(** [sha256.Sum256] *)
Definition Sum256 (data : bytes) : bytes :=
  let msg := pad (map (fun b => Z.of_N (Byte.to_N b)) data) in
  map byte_of_Z (flat_map unword (blocks (List.length msg / 64)%nat H0 msg)).

End sha256.

(* ------------------------------------------------------------------ *)
(** ** Go errors *)

(** An error value is the package variable [ErrServiceUnavailable], a
    value made by [fmt.Errorf]/[errors.New], or a wrapped error
    ([errors.Wrap], [errors.Wrapf]); errors raised by the platform are of
    the same three shapes. *)
Inductive error : Type :=
| ErrServiceUnavailable
| errorString (msg : string)
| withMessage (cause : error) (msg : string).

Inductive result (A : Type) : Type :=
| Ok (a : A)
| Err (e : error).
Arguments Ok {A} a.
Arguments Err {A} e.

Module errors.

(** [err.Error()] *)
Fixpoint Error (e : error) : string :=
  match e with
  | ErrServiceUnavailable => "service unavailable"
  | errorString msg => msg
  | withMessage cause msg => msg ++ ": " ++ Error cause
  end.

(** [err == target] on error values: the package variable is identical
    to itself; a value allocated by [Errorf] or [Wrap] is identical to
    no other value. *)
Definition same (err target : error) : bool :=
  match err, target with
  | ErrServiceUnavailable, ErrServiceUnavailable => true
  | _, _ => false
  end.

(** [errors.Is]: walks the chain of causes. *)
Fixpoint Is (err target : error) : bool :=
  same err target ||
  match err with
  | withMessage cause _ => Is cause target
  | _ => false
  end.

Definition Wrap (e : error) (msg : string) : error := withMessage e msg.

End errors.

(* ------------------------------------------------------------------ *)
(** ** State, panics and the trace of outside calls *)

Inductive Outcome (X : Type) : Type :=
| Done (x : X)
| Panicked (msg : string).
Arguments Done {X} x.
Arguments Panicked {X} msg.

(** A computation over a state [S]: it returns a value and a new state,
    or the process panics. Go's [error] results are ordinary values. *)
Definition M (S A : Type) : Type := S -> Outcome (A * S).

Definition ret {S A : Type} (a : A) : M S A := fun s => Done (a, s).

Definition bind {S A B : Type} (m : M S A) (k : A -> M S B) : M S B :=
  fun s => match m s with
           | Done (a, s') => k a s'
           | Panicked msg => Panicked msg
           end.

Definition panic {S A : Type} (msg : string) : M S A := fun _ => Panicked msg.

Declare Scope go_scope.
Delimit Scope go_scope with go.
Notation "x <- m ;; k" := (bind m (fun x => k))
  (at level 61, m at next level, right associativity) : go_scope.
Notation "m ;; k" := (bind m (fun _ => k))
  (at level 61, right associativity) : go_scope.
Local Open Scope go_scope.

Inductive Client : Type :=
| DefaultClient                 (* http.DefaultClient: the ambient trust roots *)
| insecureClient                (* InsecureSkipVerify *)
| CAClient (cacerts : bytes).   (* trusts only the given bundle *)

Record Request : Type := mkRequest {
  Method : string;
  reqURL : string;
  BasicAuth : option (string * string)
}.

Record Response : Type := mkResponse {
  StatusCode : Z;
  Status : string;
  Body : result bytes          (* what ioutil.ReadAll(resp.Body) yields *)
}.

Inductive Level : Type := InfoLevel | WarnLevel.

Inductive Event : Type :=
| EvRequest (client : Client) (req : Request)
| EvStat (path : string)
| EvMkdirAll (path : string)
| EvCreate (path : string)
| EvClose (path : string)
| EvIsInitialized (driver : string)
| EvBootstrapRead
| EvStorageBootstrap
| EvLog (level : Level) (msg : string).

(** [net/url]'s URL, with the fields the sources read or write. *)
Record URL : Type := mkURL {
  Scheme : string;
  Host : string;
  Path : string;
  RawQuery : string
}.

Definition URL_withPath (u : URL) (p : string) : URL :=
  mkURL (Scheme u) (Host u) p (RawQuery u).

(** The libraries and the operating system under the process.  The
    effectful ones take the world and return the next one. *)
Class Platform (World : Type) : Type := {
  url_Parse : string -> result URL;
  URL_String : URL -> string;
  (** the error of [http.NewRequest] on the given URL, if any *)
  http_NewRequest : string -> option error;
  Client_Do : Client -> Request -> World -> result Response * World;
  os_Stat : string -> World -> option error * World;
  os_MkdirAll : string -> World -> option error * World;
  os_Create : string -> World -> option error * World;
  File_Close : string -> World -> option error * World;
  filepath_Join : string -> string -> string;
  filepath_Dir : string -> string
}.

Record Sys (World : Type) : Type := mkSys {
  world : World;
  trace : list Event
}.
Arguments mkSys {World} world trace.

Section Effects.
Context {World : Type}.

(** Run an outside call on the world and record it. *)
Definition call {A : Type} (ev : Event) (f : World -> A * World) : M (Sys World) A :=
  fun s => let (a, w) := f (world s) in Done (a, mkSys w (trace s ++ [ev])).

Definition logrus (lvl : Level) (msg : string) : M (Sys World) unit :=
  fun s => Done (tt, mkSys (world s) (trace s ++ [EvLog lvl msg])).

End Effects.

(* ------------------------------------------------------------------ *)
(** ** Package [clientaccess] *)

Module clientaccess.

Definition tokenPrefix : string := "K10".

(** [fmt.Sprintf(tokenFormat, a, b, c, d)] with
    [tokenFormat = "%s%s::%s:%s"]. *)
Definition tokenFormat (a b c d : string) : string :=
  a ++ b ++ "::" ++ c ++ ":" ++ d.

Record Info : Type := mkInfo {
  CACerts : bytes;
  BaseURL : string;
  Username : string;
  Password : string;
  caHash : string
}.

Definition emptyInfo : Info := mkInfo [] "" "" "" "".

Definition with_Username (i : Info) (u : string) : Info :=
  mkInfo (CACerts i) (BaseURL i) u (Password i) (caHash i).
Definition with_Password (i : Info) (p : string) : Info :=
  mkInfo (CACerts i) (BaseURL i) (Username i) p (caHash i).
Definition with_caHash (i : Info) (h : string) : Info :=
  mkInfo (CACerts i) (BaseURL i) (Username i) (Password i) h.
Definition with_server (i : Info) (base : string) (ca : bytes) : Info :=
  mkInfo ca base (Username i) (Password i) (caHash i).

(** [hashCA]: the hex-encoded SHA256 digest of a byte array. *)
Definition hashCA (cacerts : bytes) : string :=
  hex.EncodeToString (sha256.Sum256 cacerts).

(** [Info.String] *)
Definition String (info : Info) : string :=
  tokenFormat tokenPrefix (hashCA (CACerts info)) (Username info) (Password info).

(** [validateCACerts] *)
Definition validateCACerts (cacerts : bytes) (hash : string) : bool * string :=
  if (List.length cacerts =? 0)%nat && (hash =? "")%string then (true, "")
  else
    let newHash := hashCA cacerts in
    ((hash =? newHash)%string, newHash).

(** [parseToken] *)
Definition parseToken (token : string) : result Info :=
  let info := emptyInfo in
  let token :=
    if negb (strings.HasPrefix token tokenPrefix)
    then tokenFormat tokenPrefix "" "" token
    else token in
  (* Strip off the prefix *)
  let token := strings.sliceFrom (String.length tokenPrefix) token in
  let parts := strings.SplitN token "::" 2 in
  let token := nth 0 parts "" in
  let '(info, token) :=
    if (1 <? List.length parts)%nat
    then (with_caHash info (nth 0 parts ""), nth 1 parts "")
    else (info, token) in
  let parts := strings.SplitN token ":" 2 in
  if negb (List.length parts =? 2)%nat
  then Err (errorString "invalid token format")
  else
    let info := with_Username info (nth 0 parts "") in
    let info := with_Password info (nth 1 parts "") in
    Ok info.

(** [ParseUsernamePassword] *)
Definition ParseUsernamePassword (token : string) : string * string * bool :=
  match parseToken token with
  | Err _ => ("", "", false)
  | Ok info => (Username info, Password info, true)
  end.

(** [Info.validateCAHash] *)
Definition validateCAHash (info : Info) : option error :=
  let '(ok, serverHash) := validateCACerts (CACerts info) (caHash info) in
  if negb ok
  then Some (errorString ("token CA hash does not match the server CA hash: "
                            ++ caHash info ++ " != " ++ serverHash))
  else None.

(** [GetHTTPClient] *)
Definition GetHTTPClient (cacerts : bytes) : Client :=
  if (List.length cacerts =? 0)%nat then DefaultClient else CAClient cacerts.

(** The loop of [setServer] that drops trailing slashes; [n] bounds the
    number of iterations and is the length of the path. *)
Fixpoint trimSlashes (n : nat) (p : string) : string :=
  match n with
  | 0 => p
  | S n' =>
      if strings.HasSuffix p "/"
      then trimSlashes n' (strings.sliceTo (String.length p - 1) p)
      else p
  end.

Section WithPlatform.
Context {World : Type} {P : Platform World}.

(** [get]: one request with the given client; 503 is the
    distinguished error, any other status than 200 a plain one. *)
Definition get (u : string) (client : Client) (username password : string)
  : M (Sys World) (result bytes) :=
  match http_NewRequest u with
  | Some err => ret (Err err)
  | None =>
      let req := mkRequest "GET" u
                   (if (username =? "")%string then None
                    else Some (username, password)) in
      r <- call (EvRequest client req) (Client_Do client req) ;;
      match r with
      | Err err => ret (Err err)
      | Ok resp =>
          if (StatusCode resp =? 503)%Z then ret (Err ErrServiceUnavailable)
          else if negb (StatusCode resp =? 200)%Z
               then ret (Err (errorString (u ++ ": " ++ Status resp)))
               else ret (Body resp)
      end
  end.

(** [getCACerts]: the three requests to [/cacerts]. *)
Definition getCACerts (u : URL) : M (Sys World) (result bytes) :=
  let u := URL_withPath u "/cacerts" in
  let url := URL_String u in
  r1 <- get url DefaultClient "" "" ;;
  match r1 with
  | Ok _ => ret (Ok [])
  | Err _ =>
      r2 <- get url insecureClient "" "" ;;
      match r2 with
      | Err err => ret (Err (errors.Wrap err "failed to get CA certs"))
      | Ok cacerts =>
          r3 <- get url (GetHTTPClient cacerts) "" "" ;;
          match r3 with
          | Err err => ret (Err (errors.Wrap err "CA cert validation failed"))
          | Ok _ => ret (Ok cacerts)
          end
      end
  end.

(** [Info.setServer]: the error, and the receiver as the call leaves it. *)
Definition setServer (info : Info) (server : string)
  : M (Sys World) (option error * Info) :=
  match url_Parse server with
  | Err err =>
      ret (Some (errors.Wrap err ("Invalid server url, failed to parse: " ++ server)),
           info)
  | Ok url =>
      if negb (Scheme url =? "https")%string
      then ret (Some (errorString
                        ("only https:// URLs are supported, invalid scheme: " ++ server)),
                info)
      else
        let url := URL_withPath url (trimSlashes (String.length (Path url)) (Path url)) in
        r <- getCACerts url ;;
        match r with
        | Err err => ret (Some err, info)
        | Ok cacerts => ret (None, with_server info (URL_String url) cacerts)
        end
  end.

(** [ParseAndValidateToken] *)
Definition ParseAndValidateToken (server token : string)
  : M (Sys World) (result Info) :=
  match parseToken token with
  | Err err => ret (Err err)
  | Ok info =>
      r <- setServer info server ;;
      let '(err, info) := r in
      match err with
      | Some err => ret (Err err)
      | None =>
          if negb (caHash info =? "")%string
          then match validateCAHash info with
               | Some err => ret (Err err)
               | None => ret (Ok info)
               end
          else ret (Ok info)
      end
  end.

(** [ParseAndValidateTokenForUser] *)
Definition ParseAndValidateTokenForUser (server token username : string)
  : M (Sys World) (result Info) :=
  match parseToken token with
  | Err err => ret (Err err)
  | Ok info =>
      let info := with_Username info username in
      r <- setServer info server ;;
      let '(err, info) := r in
      match err with
      | Some err => ret (Err err)
      | None =>
          if negb (caHash info =? "")%string
          then match validateCAHash info with
               | Some err => ret (Err err)
               | None => ret (Ok info)
               end
          else ret (Ok info)
      end
  end.

(** [Get]: a request to a subpath of the base URL; [info] is a
    pointer, and a nil one is dereferenced. *)
Definition Get (path : string) (info : option Info) : M (Sys World) (result bytes) :=
  match info with
  | None => panic "invalid memory address or nil pointer dereference"
  | Some info =>
      match url_Parse (BaseURL info) with
      | Err err => ret (Err err)
      | Ok u =>
          let u := URL_withPath u path in
          get (URL_String u) (GetHTTPClient (CACerts info)) (Username info) (Password info)
      end
  end.

End WithPlatform.

End clientaccess.

(* ------------------------------------------------------------------ *)
(** ** Package [cluster] *)

(** The sources hold two revisions of [Bootstrap] and
    [shouldBootstrapLoad]; the later one, which knows the quorum-loss
    bypass, is the one embedded here.  The listener set-up, the readiness
    poll and the start of the database take no part in the decision and
    are left out. *)

Module cluster.

(** The fields of [config.Control] that the orchestration reads. *)
Record Config : Type := mkConfig {
  JoinURL : string;
  Token : string;
  DataDir : string;
  DatastoreEndpoint : string;      (* config.Datastore.Endpoint *)
  ClusterInit : bool
}.

(** [managed.Driver], with the two methods the orchestration calls. *)
Record Driver (World : Type) : Type := mkDriver {
  EndpointName : string;
  IsInitialized : Config -> World -> result bool * World
}.
Arguments mkDriver {World} EndpointName IsInitialized.
Arguments EndpointName {World} d.
Arguments IsInitialized {World} d cfg w.

(** The packages of the repository that the orchestration calls and
    that are given by their interface only: the driver registry
    ([managed.Registered], [managed.Default]), [version], [keyHash],
    the decoding of fetched bootstrap data ([bootstrap.Read]) and the
    load from the datastore ([Cluster.storageBootstrap]). *)
Class Collaborators (World : Type) : Type := {
  managed_Registered : list (Driver World);
  managed_Default : string;
  version_Program : string;
  (** holds no formatting verb *)
  version_ProgramUpper : string;
  keyHash : string -> string;
  bootstrap_Read : bytes -> World -> option error * World;
  storageBootstrap : Config -> World -> option error * World
}.

Record Cluster (World : Type) : Type := mkCluster {
  config : Config;
  HTTPBootstrap : bool;            (* runtime.HTTPBootstrap *)
  managedDB : option (Driver World);
  shouldBootstrap : bool;
  joining : bool;
  clientAccessInfo : option clientaccess.Info
}.
Arguments mkCluster {World} config HTTPBootstrap managedDB shouldBootstrap joining
  clientAccessInfo.
Arguments config {World} c.
Arguments HTTPBootstrap {World} c.
Arguments managedDB {World} c.
Arguments shouldBootstrap {World} c.
Arguments joining {World} c.
Arguments clientAccessInfo {World} c.

Section Orchestration.
Context {World : Type} {P : Platform World} {Co : Collaborators World}.

Definition Proc : Type := (Cluster World * Sys World)%type.

Definition set_HTTPBootstrap (b : bool) (c : Cluster World) : Cluster World :=
  mkCluster (config c) b (managedDB c) (shouldBootstrap c) (joining c)
    (clientAccessInfo c).
Definition set_managedDB (d : option (Driver World)) (c : Cluster World)
  : Cluster World :=
  mkCluster (config c) (HTTPBootstrap c) d (shouldBootstrap c) (joining c)
    (clientAccessInfo c).
Definition set_shouldBootstrap (b : bool) (c : Cluster World) : Cluster World :=
  mkCluster (config c) (HTTPBootstrap c) (managedDB c) b (joining c)
    (clientAccessInfo c).
Definition set_joining (b : bool) (c : Cluster World) : Cluster World :=
  mkCluster (config c) (HTTPBootstrap c) (managedDB c) (shouldBootstrap c) b
    (clientAccessInfo c).
Definition set_clientAccessInfo (i : option clientaccess.Info) (c : Cluster World)
  : Cluster World :=
  mkCluster (config c) (HTTPBootstrap c) (managedDB c) (shouldBootstrap c)
    (joining c) i.

(** The receiver [c]. *)
Definition this : M Proc (Cluster World) := fun s => Done (fst s, s).

Definition update (f : Cluster World -> Cluster World) : M Proc unit :=
  fun s => Done (tt, (f (fst s), snd s)).

(** A computation of the platform, run inside a method of [c]. *)
Definition sys {A : Type} (m : M (Sys World) A) : M Proc A :=
  fun s => match m (snd s) with
           | Done (a, y) => Done (a, (fst s, y))
           | Panicked msg => Panicked msg
           end.

Definition isInitialized (d : Driver World) (cfg : Config) : M Proc (result bool) :=
  sys (call (EvIsInitialized (EndpointName d)) (IsInitialized d cfg)).

(** The first loop of [assignManagedDriver]: the first driver that
    reports an initialized database, or the first error met before. *)
Fixpoint firstInitialized (cfg : Config) (drivers : list (Driver World))
  : M Proc (result (option (Driver World))) :=
  match drivers with
  | [] => ret (Ok None)
  | driver :: rest =>
      r <- isInitialized driver cfg ;;
      match r with
      | Err err => ret (Err err)
      | Ok true => ret (Ok (Some driver))
      | Ok false => firstInitialized cfg rest
      end
  end.

(** [assignManagedDriver] *)
Definition assignManagedDriver : M Proc (option error) :=
  c <- this ;;
  r <- firstInitialized (config c) managed_Registered ;;
  match r with
  | Err err => ret (Some err)
  | Ok (Some driver) => update (set_managedDB (Some driver)) ;; ret None
  | Ok None =>
      match strings.SplitN (DatastoreEndpoint (config c)) ":" 2 with
      | [] => panic "index out of range [0] with length 0"
      | endpointType :: _ =>
          match find (fun driver => (endpointType =? EndpointName driver)%string)
                     managed_Registered with
          | Some driver => update (set_managedDB (Some driver)) ;; ret None
          | None =>
              if (DatastoreEndpoint (config c) =? "")%string
                 && (ClusterInit (config c)
                     || (negb (Token (config c) =? "")%string
                         && negb (JoinURL (config c) =? "")%string))
              then
                match find (fun driver =>
                              (EndpointName driver =? managed_Default)%string)
                           managed_Registered with
                | Some driver => update (set_managedDB (Some driver)) ;; ret None
                | None => ret None
                end
              else ret None
          end
      end
  end.

(** [bootstrapStamp]: named after the token exactly as configured. *)
Definition bootstrapStamp (c : Cluster World) : string :=
  filepath_Join (DataDir (config c)) ("db/joined-" ++ keyHash (Token (config c))).

Definition missingToken : error :=
  errorString (version_ProgramUpper ++ "_TOKEN is required to join a cluster").

(** [shouldBootstrapLoad], from the stamp check on. *)
Definition checkStamp : M Proc (bool * option error) :=
  c <- this ;;
  let stamp := bootstrapStamp c in
  err <- sys (call (EvStat stamp) (os_Stat stamp)) ;;
  match err with
  | None =>
      sys (logrus InfoLevel "Cluster bootstrap already complete") ;;
      ret (false, None)
  | Some _ =>
      match managedDB c with
      | Some _ =>
          if (Token (config c) =? "")%string
          then ret (false, Some missingToken)
          else ret (true, None)
      | None => ret (true, None)
      end
  end.

(** [shouldBootstrapLoad] *)
Definition shouldBootstrapLoad : M Proc (bool * option error) :=
  c <- this ;;
  match managedDB c with
  | None => checkStamp
  | Some db =>
      update (set_HTTPBootstrap true) ;;
      if (JoinURL (config c) =? "")%string then ret (false, None)
      else
        r <- sys (clientaccess.ParseAndValidateTokenForUser
                    (JoinURL (config c)) (Token (config c)) "server") ;;
        match r with
        | Err err =>
            if errors.Is err ErrServiceUnavailable
            then
              r2 <- isInitialized db (config c) ;;
              match r2 with
              | Err err2 =>
                  sys (logrus WarnLevel
                         ("Failed to check managed database initialization: "
                            ++ errors.Error err2)) ;;
                  ret (false, Some err)
              | Ok true =>
                  sys (logrus WarnLevel
                         ("Ignoring bootstrap token validation error on initialized member due to cluster quorum loss: "
                            ++ errors.Error err)) ;;
                  ret (false, None)
              | Ok false => ret (false, Some err)
              end
            else ret (false, Some err)
        | Ok info =>
            update (set_clientAccessInfo (Some info)) ;;
            checkStamp
        end
  end.

(** [bootstrapped] touches the stamp. *)
Definition bootstrapped : M Proc (option error) :=
  c <- this ;;
  let stamp := bootstrapStamp c in
  err <- sys (call (EvMkdirAll (filepath_Dir stamp)) (os_MkdirAll (filepath_Dir stamp))) ;;
  match err with
  | Some err => ret (Some err)
  | None =>
      err <- sys (call (EvStat stamp) (os_Stat stamp)) ;;
      match err with
      | None => ret None
      | Some _ =>
          err <- sys (call (EvCreate stamp) (os_Create stamp)) ;;
          match err with
          | Some err => ret (Some err)
          | None => sys (call (EvClose stamp) (File_Close stamp))
          end
      end
  end.

Definition bootstrapPath : string := "/v1-" ++ version_Program ++ "/server-bootstrap".

(** [httpBootstrap] *)
Definition httpBootstrap : M Proc (option error) :=
  c <- this ;;
  r <- sys (clientaccess.Get bootstrapPath (clientAccessInfo c)) ;;
  match r with
  | Err err => ret (Some err)
  | Ok content => sys (call EvBootstrapRead (bootstrap_Read content))
  end.

(** [bootstrap] *)
Definition bootstrap : M Proc (option error) :=
  update (set_joining true) ;;
  c <- this ;;
  if HTTPBootstrap c then httpBootstrap
  else
    err <- sys (call EvStorageBootstrap (storageBootstrap (config c))) ;;
    match err with
    | Some err => ret (Some err)
    | None => ret None
    end.

(** [Bootstrap] *)
Definition Bootstrap : M Proc (option error) :=
  err <- assignManagedDriver ;;
  match err with
  | Some err => ret (Some err)
  | None =>
      r <- shouldBootstrapLoad ;;
      let '(should, err) := r in
      match err with
      | Some err => ret (Some err)
      | None =>
          update (set_shouldBootstrap should) ;;
          if should
          then
            err <- bootstrap ;;
            match err with
            | Some err => ret (Some err)
            | None => ret None
            end
          else ret None
      end
  end.

End Orchestration.

End cluster.

(* ------------------------------------------------------------------ *)
(** ** A scripted world, to run the model on concrete scenarios *)

Module sim.
Import cluster.
Local Open Scope string_scope.

(** The world of a scenario: the files that exist, how the peer
    answers a request, what the successive driver checks will find (an
    uninitialized database once the list is used up), and how the load
    from the datastore ends. *)
Record World : Type := mkWorld {
  files : list string;
  peer : Client -> Request -> result Response;
  checks : list (result bool);
  datastore : option error
}.

Definition touch (p : string) (w : World) : World :=
  mkWorld (p :: files w) (peer w) (checks w) (datastore w).

Definition check (w : World) : result bool * World :=
  match checks w with
  | [] => (Ok false, w)
  | r :: rest => (r, mkWorld (files w) (peer w) rest (datastore w))
  end.

Definition exists_ (p : string) (w : World) : bool :=
  existsb (String.eqb p) (files w).

(** [scheme://host/path], without escaping, user info or query. *)
Definition parse (raw : string) : result URL :=
  match strings.Index raw "://" with
  | None => Err (errorString ("parse " ++ raw ++ ": missing protocol scheme"))
  | Some m =>
      let rest := strings.sliceFrom (m + 3) raw in
      match strings.Index rest "/" with
      | None => Ok (mkURL (strings.sliceTo m raw) rest "" "")
      | Some k =>
          Ok (mkURL (strings.sliceTo m raw) (strings.sliceTo k rest)
                (strings.sliceFrom k rest) "")
      end
  end.

Definition render (u : URL) : string := Scheme u ++ "://" ++ Host u ++ Path u.

Fixpoint dropLast (s : string) : string :=
  match s with
  | EmptyString => EmptyString
  | String c s' =>
      match strings.Index s' "/" with
      | None => EmptyString
      | Some _ => String c (dropLast s')
      end
  end.

#[export] Instance platform : Platform World := {
  url_Parse := parse;
  URL_String := render;
  http_NewRequest := fun _ => None;
  Client_Do := fun client req w => (peer w client req, w);
  os_Stat := fun p w =>
    (if exists_ p w then None
     else Some (errorString ("stat " ++ p ++ ": no such file or directory")), w);
  os_MkdirAll := fun p w => (None, touch p w);
  os_Create := fun p w => (None, touch p w);
  File_Close := fun _ w => (None, w);
  filepath_Join := fun a b => a ++ "/" ++ b;
  filepath_Dir := dropLast
}.

Definition driver (name : string) : Driver World :=
  mkDriver name (fun _ w => check w).

(** The registry holds the named drivers; the stamp is named after the
    first twelve hex digits of the token's digest. *)
Definition collaborators (registered : list string) (default : string)
  : Collaborators World := {|
  managed_Registered := map driver registered;
  managed_Default := default;
  version_Program := "k3s";
  version_ProgramUpper := "K3S";
  keyHash := fun token =>
    strings.sliceTo 12 (clientaccess.hashCA (list_byte_of_string token));
  bootstrap_Read := fun _ w => (None, w);
  storageBootstrap := fun _ w => (datastore w, w)
|}.

(** A cluster as the process builds it before [Bootstrap] runs. *)
Definition newCluster (cfg : Config) : Cluster World :=
  mkCluster cfg false None false false None.

Definition start (c : Cluster World) (w : World) : Proc :=
  (c, mkSys w []).

Definition reply (code : Z) (status : string) (body : string) : result Response :=
  Ok (mkResponse code status (Ok (list_byte_of_string body))).

(** A peer that has lost quorum answers 503 to everything. *)
Definition unavailable : Client -> Request -> result Response :=
  fun _ _ => reply 503 "503 Service Unavailable" "".

(** A peer with a self-signed certificate: unknown to the ambient trust
    roots, it serves its bundle and bootstrap data to the other clients. *)
Definition selfSigned (ca data : string) : Client -> Request -> result Response :=
  fun client req =>
    match client with
    | DefaultClient =>
        Err (errorString "x509: certificate signed by unknown authority")
    | _ =>
        match BasicAuth req with
        | None => reply 200 "200 OK" ca
        | Some _ => reply 200 "200 OK" data
        end
    end.

(** A peer that fails on every request. *)
Definition failing : Client -> Request -> result Response :=
  fun _ _ => reply 500 "500 Internal Server Error" "".

(** A self-signed peer whose bootstrap-data endpoint is broken. *)
Definition brokenBootstrap (ca : string) : Client -> Request -> result Response :=
  fun client req =>
    match client with
    | DefaultClient =>
        Err (errorString "x509: certificate signed by unknown authority")
    | _ =>
        match BasicAuth req with
        | None => reply 200 "200 OK" ca
        | Some _ => reply 500 "500 Internal Server Error" ""
        end
    end.

Definition isRequest (ev : Event) : bool :=
  match ev with
  | EvRequest _ _ => true
  | _ => false
  end.

(** A node with the embedded etcd driver registered as the default. *)
Definition etcd : Collaborators World := collaborators ["etcd"] "etcd".

(** A node without any managed driver. *)
Definition unmanaged : Collaborators World := collaborators [] "".

(** [Bootstrap] on a new cluster with the given configuration. *)
Definition run (Co : Collaborators World) (cfg : Config) (w : World)
  : Outcome (option error * Proc) :=
  @Bootstrap World platform Co (start (newCluster cfg) w).

(** What a run returned, and the URLs it requested, in order. *)
Definition returned (o : Outcome (option error * @Proc World)) : option (option error) :=
  match o with
  | Done (err, _) => Some err
  | Panicked _ => None
  end.

Definition requested (o : Outcome (option error * @Proc World)) : list string :=
  match o with
  | Done (_, (_, s)) =>
      flat_map (fun ev => match ev with
                          | EvRequest _ req => [reqURL req]
                          | _ => []
                          end) (trace s)
  | Panicked _ => []
  end.

End sim.

(* ------------------------------------------------------------------ *)
(** ** Package [cluster]: the managed database is registered *)

(** [initClusterDB] hands the listener and the handler to the driver's
    [Register]; both are opaque here, and [Register] is given by its
    interface only. *)

Module cluster_managed.
Import cluster.

Section InitClusterDB.
Context {World Listener Handler : Type}.

(** [managed.Driver.Register] *)
Variable Register :
  Driver World -> Config -> Listener -> Handler -> World ->
  (Listener * Handler * option error) * World.

(** [c.config.Datastore = endpoint.Config{Endpoint: e}] *)
Definition set_Datastore (e : string) (c : Cluster World) : Cluster World :=
  mkCluster
    (mkConfig (JoinURL (config c)) (Token (config c)) (DataDir (config c)) e
       (ClusterInit (config c)))
    (HTTPBootstrap c) (managedDB c) (shouldBootstrap c) (joining c)
    (clientAccessInfo c).

(** [initClusterDB] *)
Definition initClusterDB (l : Listener) (handler : Handler)
  : M (@Proc World) (Listener * Handler * option error) :=
  c <- this ;;
  match managedDB c with
  | None => ret (l, handler, None)
  | Some db =>
      (if negb (strings.HasPrefix (DatastoreEndpoint (config c))
                  (EndpointName db ++ "://"))
       then update (set_Datastore (EndpointName db))
       else ret tt) ;;
      c <- this ;;
      sys (fun s =>
             let '(r, w) := Register db (config c) l handler (world s) in
             Done (r, mkSys w (trace s)))
  end.

End InitClusterDB.

End cluster_managed.

(* ------------------------------------------------------------------ *)
(** * The vocabulary of the properties *)

Unset Implicit Arguments.

(** ** Strings and tokens *)

Module spec.
Local Open Scope string_scope.

(** [sep] occurs in [s]. *)
Definition occurs (sep s : string) : Prop :=
  exists a b, s = a ++ sep ++ b.

(** [s] is cut at the first occurrence of [sep] into [a] and [b]. *)
Definition first_cut (sep s a b : string) : Prop :=
  s = a ++ sep ++ b /\
  forall a' b', s = a' ++ sep ++ b' -> String.length a <= String.length a'.

Definition invalidToken : error := errorString "invalid token format".

(** The words of the specification for a malformed tagged token: the
    tag is there and, once the tag and the hash segment up to the first
    "::" (when there is one) are gone, no ":" is left. *)
Definition hash_stripped (t rest : string) : Prop :=
  (~ occurs "::" t /\ rest = t) \/ (exists h, first_cut "::" t h rest).

Definition malformed_tagged (raw : string) : Prop :=
  exists t rest,
    raw = clientaccess.tokenPrefix ++ t /\ hash_stripped t rest /\ ~ occurs ":" rest.

End spec.

(** ** Traces, kinds of events, driver selection *)

Section Vocabulary.
Context {World : Type} {P : Platform World} {Co : cluster.Collaborators World}.
Import cluster.

(** From [s] to [s'] the trace grew by events that all satisfy [P]. *)
Definition grows (P : Event -> Prop) (s s' : Sys World) : Prop :=
  exists evs, trace s' = trace s ++ evs /\ Forall P evs.

(** Every run of [m] that returns adds only [P]-events. *)
Definition emits {A : Type} (P : Event -> Prop) (m : M (Sys World) A) : Prop :=
  forall s a s', m s = Done (a, s') -> grows P s s'.

(** The same for the methods of the cluster. *)
Definition emitsP {A : Type} (Q : Event -> Prop) (m : M (@cluster.Proc World) A) : Prop :=
  forall c s a c' s', m (c, s) = Done (a, (c', s')) -> grows Q s s'.

(** A request to the peer. *)
Definition networkEvent (ev : Event) : Prop :=
  exists client req, ev = EvRequest client req.

(** One of the requests of CA trust establishment: a GET of [/cacerts]
    that carries no credentials. *)
Definition cacertsRequest (ev : Event) : Prop :=
  exists client u,
    ev = EvRequest client (mkRequest "GET" (URL_String (URL_withPath u "/cacerts")) None).

(** A fetch of bootstrap data: the authenticated GET of the
    bootstrap-data endpoint, the decoding of its answer, or the load from
    the datastore. *)
Definition fetchEvent (ev : Event) : Prop :=
  (exists client u cred,
      ev = EvRequest client
             (mkRequest "GET" (URL_String (URL_withPath u cluster.bootstrapPath))
                (Some cred)))
  \/ ev = EvBootstrapRead
  \/ ev = EvStorageBootstrap.

(** What the orchestration does before it decides: driver checks, the
    requests of trust establishment, the look at the stamp, log lines. *)
Definition decisionEvent (ev : Event) : Prop :=
  match ev with
  | EvIsInitialized _ | EvStat _ | EvLog _ _ => True
  | EvRequest _ _ => cacertsRequest ev
  | _ => False
  end.

(** Driver checks, the look at the stamp and log lines stay on the node. *)
Definition localEvent (ev : Event) : Prop :=
  match ev with
  | EvIsInitialized _ | EvStat _ | EvLog _ _ => True
  | _ => False
  end.

(** Writing the stamp: creating its directory, the file, closing it. *)
Definition stampWrite (ev : Event) : Prop :=
  match ev with
  | EvMkdirAll _ | EvCreate _ | EvClose _ => True
  | _ => False
  end.

Definition hashMismatch (declared computed : string) : error :=
  errorString ("token CA hash does not match the server CA hash: "
                 ++ declared ++ " != " ++ computed).

(** The drivers of [ds], asked in order from world [w], all report an
    uninitialized database and leave the world at [w']. *)
Inductive uninitialized (cfg : Config) : list (Driver World) -> World -> World -> Prop :=
| uninitialized_nil (w : World) : uninitialized cfg [] w w
| uninitialized_cons (d : Driver World) (ds : list (Driver World)) (w w1 w2 : World) :
    IsInitialized d cfg w = (Ok false, w1) ->
    uninitialized cfg ds w1 w2 ->
    uninitialized cfg (d :: ds) w w2.

(** [d] is the first registered driver with the given name. *)
Definition firstNamed (name : string) (reg : list (Driver World)) (d : Driver World) : Prop :=
  exists pre post,
    reg = pre ++ d :: post
    /\ EndpointName d = name
    /\ Forall (fun d' => EndpointName d' <> name) pre.

Definition noneNamed (name : string) (reg : list (Driver World)) : Prop :=
  Forall (fun d' => EndpointName d' <> name) reg.

(** The scheme prefix of an endpoint: what precedes its first ":", or
    the whole endpoint when it holds none. *)
Definition schemeOf (endpoint sch : string) : Prop :=
  (exists rest, spec.first_cut ":" endpoint sch rest)
  \/ (~ spec.occurs ":" endpoint /\ sch = endpoint).

(** The cluster-init flag is set, or both a token and a join URL are. *)
Definition joinOrInit (cfg : Config) : Prop :=
  ClusterInit cfg = true \/ (Token cfg <> ""%string /\ JoinURL cfg <> ""%string).

(** The selection policy in the words of the specification: three steps
    in strict priority, the first match wins, no match selects nothing. *)
Inductive selects (cfg : Config) (w : World) : option (Driver World) -> World -> Prop :=
| select_initialized (pre post : list (Driver World)) (d : Driver World) (w1 w2 : World) :
    managed_Registered = pre ++ d :: post ->
    uninitialized cfg pre w w1 ->
    IsInitialized d cfg w1 = (Ok true, w2) ->
    selects cfg w (Some d) w2
| select_endpoint (sch : string) (d : Driver World) (w1 : World) :
    uninitialized cfg managed_Registered w w1 ->
    schemeOf (DatastoreEndpoint cfg) sch ->
    firstNamed sch managed_Registered d ->
    selects cfg w (Some d) w1
| select_default (sch : string) (d : Driver World) (w1 : World) :
    uninitialized cfg managed_Registered w w1 ->
    schemeOf (DatastoreEndpoint cfg) sch ->
    noneNamed sch managed_Registered ->
    DatastoreEndpoint cfg = ""%string ->
    joinOrInit cfg ->
    firstNamed managed_Default managed_Registered d ->
    selects cfg w (Some d) w1
| select_none (sch : string) (w1 : World) :
    uninitialized cfg managed_Registered w w1 ->
    schemeOf (DatastoreEndpoint cfg) sch ->
    noneNamed sch managed_Registered ->
    ~ (DatastoreEndpoint cfg = ""%string /\ joinOrInit cfg
       /\ exists d, In d managed_Registered /\ EndpointName d = managed_Default) ->
    selects cfg w None w1.

End Vocabulary.

(** ** Paths, credentials *)

(** [k] slashes. *)
Fixpoint slashes (k : nat) : string :=
  match k with
  | 0 => EmptyString
  | S k' => String "/" (slashes k')
  end.

(** A request that carries credentials does not go through the client
    that skips certificate verification. *)
Definition credentialsProtected (ev : Event) : Prop :=
  match ev with
  | EvRequest insecureClient req => BasicAuth req = None
  | _ => True
  end.

(** ** The state of the cluster *)

Section StateVocabulary.
Context {World : Type} {Co : cluster.Collaborators World}.
Import cluster.

(** A check of a driver's database. *)
Definition driverCheck (ev : Event) : Prop :=
  exists name, ev = EvIsInitialized name.

(** What a run may do to the cluster: the configuration stays; a driver
    that is assigned was assigned before or is a registered one, and an
    assigned driver is never taken away; the HTTP and joining flags are
    never taken down; an access info that is there was there before or
    is for the user "server". *)
Definition evolves (c c' : Cluster World) : Prop :=
  config c' = config c
  /\ (forall d, managedDB c' = Some d -> managedDB c = Some d \/ In d managed_Registered)
  /\ (managedDB c <> None -> managedDB c' <> None)
  /\ (HTTPBootstrap c = true -> HTTPBootstrap c' = true)
  /\ (joining c = true -> joining c' = true)
  /\ (forall i, clientAccessInfo c' = Some i ->
                clientAccessInfo c = Some i \/ clientaccess.Username i = "server"%string).

End StateVocabulary.

(* ------------------------------------------------------------------ *)
(** * Properties *)

(** ** The model on known values *)

Example sha256_empty :
  hex.EncodeToString (sha256.Sum256 []) =
  "e3b0c44298fc1c149afbf4c8996fb92427ae41e4649b934ca495991b7852b855".
Proof. vm_compute. reflexivity. Qed.

Example sha256_abc :
  hex.EncodeToString (sha256.Sum256 (list_byte_of_string "abc")) =
  "ba7816bf8f01cfea414140de5dae2223b00361a396177a9cb410ff61f20015ad".
Proof. vm_compute. reflexivity. Qed.

Example decode_greedy_password :
  clientaccess.parseToken "K10::bob:p@ss:word"
  = Ok (clientaccess.mkInfo [] "" "bob" "p@ss:word" "").
Proof. reflexivity. Qed.

Example decode_hash_segment :
  clientaccess.parseToken "K10deadbeef::alice:s3cret"
  = Ok (clientaccess.mkInfo [] "" "alice" "s3cret" "deadbeef").
Proof. reflexivity. Qed.

Example decode_untagged :
  clientaccess.parseToken "my::secret:token"
  = Ok (clientaccess.mkInfo [] "" "" "my::secret:token" "").
Proof. reflexivity. Qed.

Example setServer_trims_slashes :
  clientaccess.trimSlashes (String.length "/join//") "/join//" = "/join"
  /\ clientaccess.trimSlashes (String.length "///") "///" = "".
Proof. split; reflexivity. Qed.

Example SplitN_examples :
  strings.SplitN "a::b::c" "::" 2 = ["a"; "b::c"]
  /\ strings.SplitN "abc" "::" 2 = ["abc"]
  /\ strings.SplitN "" ":" 2 = [""]
  /\ strings.SplitN "etcd://host:2379" ":" 2 = ["etcd"; "//host:2379"].
Proof. repeat split; reflexivity. Qed.

Example errors_Is_unwraps :
  errors.Is (errors.Wrap ErrServiceUnavailable "failed to get CA certs")
    ErrServiceUnavailable = true
  /\ errors.Is (errorString "service unavailable") ErrServiceUnavailable = false
  /\ errors.Error (errors.Wrap ErrServiceUnavailable "failed to get CA certs")
     = "failed to get CA certs: service unavailable".
Proof. repeat split; reflexivity. Qed.

Example decode_no_delimiter :
  clientaccess.parseToken "K10::nodelimiter" = Err (errorString "invalid token format").
Proof. reflexivity. Qed.

(** ** Facts about the string functions *)

Module strings_facts.
Import strings spec.
Local Open Scope string_scope.

Lemma app_assoc (a b c : string) : (a ++ b) ++ c = a ++ b ++ c.
Proof. induction a; simpl; congruence. Qed.

Lemma app_empty_r (a : string) : a ++ "" = a.
Proof. induction a; simpl; congruence. Qed.

Lemma prefix_app (p s : string) : String.prefix p (p ++ s) = true.
Proof.
  induction p as [|c p IH]; simpl.
  - destruct s; reflexivity.
  - destruct (ascii_dec c c); [exact IH | congruence].
Qed.

Lemma prefix_inv (p s : string) :
  String.prefix p s = true -> exists t, s = p ++ t.
Proof.
  revert s; induction p as [|c p IH]; intros s H.
  - exists s; reflexivity.
  - destruct s as [|d s]; simpl in H; [discriminate|].
    destruct (ascii_dec c d) as [->|]; [|discriminate].
    destruct (IH _ H) as [t ->]. exists t; reflexivity.
Qed.

Lemma HasPrefix_iff (s p : string) :
  HasPrefix s p = true <-> exists t, s = p ++ t.
Proof.
  unfold HasPrefix; split.
  - apply prefix_inv.
  - intros [t ->]; apply prefix_app.
Qed.

Lemma sliceTo_app (a b : string) : sliceTo (String.length a) (a ++ b) = a.
Proof. induction a; simpl; [destruct b; reflexivity | congruence]. Qed.

Lemma sliceFrom_app (a b : string) (n : nat) :
  sliceFrom (String.length a + n) (a ++ b) = sliceFrom n b.
Proof. induction a; simpl; auto. Qed.

Lemma sliceFrom_0 (s : string) : sliceFrom 0 s = s.
Proof. destruct s; reflexivity. Qed.

Lemma sliceFrom_length_app (a b : string) : sliceFrom (String.length a) (a ++ b) = b.
Proof.
  rewrite <- (Nat.add_0_r (String.length a)), sliceFrom_app. apply sliceFrom_0.
Qed.

Lemma Index_nil (sep : string) :
  Index "" sep = if String.prefix sep "" then Some 0 else None.
Proof. reflexivity. Qed.

Lemma Index_cons (c : ascii) (s sep : string) :
  Index (String c s) sep =
  if String.prefix sep (String c s) then Some 0 else option_map S (Index s sep).
Proof. reflexivity. Qed.

(** What a successful [Index] says: the cut is there, and it is the first. *)
Lemma Index_Some (s sep : string) (m : nat) :
  Index s sep = Some m ->
  first_cut sep s (sliceTo m s) (sliceFrom (m + String.length sep) s)
  /\ String.length (sliceTo m s) = m.
Proof.
  revert m; induction s as [|c s IH]; intros m H.
  - rewrite Index_nil in H. destruct sep; simpl in H; [|discriminate].
    injection H as <-. repeat split. intros; apply Nat.le_0_l.
  - rewrite Index_cons in H.
    destruct (String.prefix sep (String c s)) eqn:E.
    + injection H as <-. destruct (prefix_inv _ _ E) as [t Ht].
      split; [split|reflexivity].
      * change (sliceTo 0 (String c s)) with "".
        rewrite Nat.add_0_l. rewrite Ht at 2.
        rewrite sliceFrom_length_app. exact Ht.
      * intros; apply Nat.le_0_l.
    + destruct (Index s sep) as [k|] eqn:Ek; [|discriminate].
      injection H as <-. destruct (IH k eq_refl) as [[Hcut Hmin] Hlen].
      split; [split|simpl; congruence].
      * simpl. congruence.
      * intros a' b' Heq. destruct a' as [|d a']; simpl in Heq.
        -- rewrite Heq, prefix_app in E. discriminate.
        -- injection Heq as _ Heq. simpl.
           apply le_n_S. rewrite Hlen in Hmin. rewrite Hlen.
           exact (Hmin _ _ Heq).
Qed.

Lemma Index_None (s sep : string) : Index s sep = None -> ~ occurs sep s.
Proof.
  induction s as [|c s IH]; intros H [a [b Heq]].
  - rewrite Index_nil in H. destruct sep; simpl in H; [discriminate|].
    destruct a; discriminate.
  - rewrite Index_cons in H.
    destruct (String.prefix sep (String c s)) eqn:E; [discriminate|].
    destruct (Index s sep) eqn:Ek; [discriminate|].
    destruct a as [|d a]; simpl in Heq.
    + rewrite Heq, prefix_app in E. discriminate.
    + injection Heq as _ Heq. apply IH; [reflexivity | exists a, b; exact Heq].
Qed.

Lemma Index_occurs (s sep : string) : occurs sep s -> exists m, Index s sep = Some m.
Proof.
  intros Ho. destruct (Index s sep) eqn:E; [eauto|].
  exfalso. exact (Index_None _ _ E Ho).
Qed.

(** Two first cuts of one string agree. *)
Lemma first_cut_unique (sep s a b a' b' : string) :
  first_cut sep s a b -> first_cut sep s a' b' -> a = a' /\ b = b'.
Proof.
  intros [H1 M1] [H2 M2].
  assert (L : String.length a = String.length a').
  { apply Nat.le_antisymm; [exact (M1 _ _ H2) | exact (M2 _ _ H1)]. }
  assert (Ha : a = a').
  { rewrite <- (sliceTo_app a (sep ++ b)), <- H1, H2, L. apply sliceTo_app. }
  split; [exact Ha|].
  subst a'. rewrite H1 in H2. clear - H2.
  induction a; simpl in H2.
  - induction sep; simpl in H2; [assumption | injection H2; auto].
  - injection H2; auto.
Qed.

(** A separator is found right after a stretch that avoids its first
    character. *)
Lemma Index_skip (a b sep' : string) (c : ascii) :
  ~ In c (list_ascii_of_string a) ->
  Index (a ++ String c sep' ++ b) (String c sep') = Some (String.length a).
Proof.
  induction a as [|x a IH]; intros Hn.
  - change ("" ++ String c sep' ++ b) with (String c (sep' ++ b)).
    rewrite Index_cons.
    change (String c (sep' ++ b)) with (String c sep' ++ b).
    rewrite prefix_app. reflexivity.
  - simpl in Hn.
    change (String x a ++ String c sep' ++ b) with (String x (a ++ String c sep' ++ b)).
    rewrite Index_cons. simpl String.prefix.
    destruct (ascii_dec c x) as [->|Hne]; [tauto|].
    rewrite IH by tauto. reflexivity.
Qed.

Lemma SplitN_2 (s : string) (c : ascii) (sep' : string) :
  SplitN s (String c sep') 2 =
  match Index s (String c sep') with
  | Some m => [sliceTo m s; sliceFrom (m + String.length (String c sep')) s]
  | None => [s]
  end.
Proof.
  unfold SplitN. destruct s as [|d s].
  - reflexivity.
  - change (Nat.min 1 (String.length (String d s))) with 1.
    unfold genSplit. destruct (Index (String d s) (String c sep')); reflexivity.
Qed.

Lemma SplitN_2_nonempty (s : string) (c : ascii) (sep' : string) :
  SplitN s (String c sep') 2 <> [].
Proof. rewrite SplitN_2. destruct (Index s (String c sep')); discriminate. Qed.

Lemma hex_digit_not_colon (n : N) : hex.digit n <> ":"%char.
Proof.
  unfold hex.digit.
  destruct (N.to_nat n) as [|[|[|[|[|[|[|[|[|[|[|[|[|[|[|[|k]]]]]]]]]]]]]]]];
    simpl; discriminate.
Qed.

Lemma hex_no_colon (bs : bytes) :
  ~ In ":"%char (list_ascii_of_string (hex.EncodeToString bs)).
Proof.
  induction bs as [|b bs IH]; simpl; [tauto|].
  intros [H|[H|H]]; [| |exact (IH H)]; exact (hex_digit_not_colon _ H).
Qed.

End strings_facts.

(* ------------------------------------------------------------------ *)
(** ** The join-token codec *)

Module codec.
Import strings spec strings_facts clientaccess.
Local Open Scope string_scope.

(** [parseToken] on a token that carries the tag: the hash is what
    precedes the first "::" (if any), user and password are cut at the
    first ":" of what follows. *)
Lemma parseToken_tagged (t : string) :
  parseToken (tokenPrefix ++ t) =
  let '(h, rest) :=
    match Index t "::" with
    | Some m => (sliceTo m t, sliceFrom (m + 2) t)
    | None => ("", t)
    end in
  match Index rest ":" with
  | Some k => Ok (mkInfo [] "" (sliceTo k rest) (sliceFrom (k + 1) rest) h)
  | None => Err invalidToken
  end.
Proof.
  unfold parseToken.
  replace (strings.HasPrefix (tokenPrefix ++ t) tokenPrefix) with true
    by (symmetry; apply prefix_app).
  cbv [negb].
  change (sliceFrom (String.length tokenPrefix) (tokenPrefix ++ t)) with (sliceFrom 0 t).
  rewrite sliceFrom_0, SplitN_2.
  destruct (Index t "::") as [m|]; cbn [List.length Nat.ltb Nat.leb nth];
    rewrite SplitN_2.
  - change (String.length "::") with 2.
    destruct (Index (sliceFrom (m + 2) t) ":") as [k|]; reflexivity.
  - destruct (Index t ":") as [k|]; reflexivity.
Qed.

(** A token without the tag is read as if it were ["K10:::" ++ token]. *)
Lemma parseToken_untagged (s : string) :
  HasPrefix s tokenPrefix = false ->
  parseToken s = Ok (mkInfo [] "" "" s "").
Proof.
  intros Hp. unfold parseToken. rewrite Hp. cbv [negb].
  change (sliceFrom (String.length tokenPrefix) (tokenFormat tokenPrefix "" "" s))
    with (":::" ++ s).
  rewrite SplitN_2.
  change (Index (":::" ++ s) "::") with (Some 0).
  cbn [List.length Nat.ltb Nat.leb nth].
  change (sliceFrom (0 + String.length "::") (":::" ++ s)) with (":" ++ s).
  rewrite SplitN_2.
  replace (Index (":" ++ s) ":") with (Some 0)
    by (symmetry; apply (Index_skip "" s "" ":"%char); simpl; tauto).
  cbn [List.length Nat.eqb negb nth sliceTo].
  change (sliceFrom (0 + String.length ":") (":" ++ s)) with (sliceFrom 0 s).
  rewrite sliceFrom_0. reflexivity.
Qed.

End codec.

(** C4. A string that does not start with the tag "K10" always decodes,
    whatever separators it holds: the CA hash and the user name are empty
    and the password is the whole string. *)
Theorem parseToken_untagged_opaque (s : string) :
  ~ (exists t, s = clientaccess.tokenPrefix ++ t)%string ->
  clientaccess.parseToken s = Ok (clientaccess.mkInfo [] "" "" s "").
Proof.
  intros Hn. apply codec.parseToken_untagged.
  destruct (strings.HasPrefix s clientaccess.tokenPrefix) eqn:E; [|reflexivity].
  exfalso. apply Hn. apply strings_facts.HasPrefix_iff. exact E.
Qed.

(** An untagged secret that is full of separators. *)
Lemma parseToken_untagged_opaque_witness :
  clientaccess.parseToken "my::shared:secret"
  = Ok (clientaccess.mkInfo [] "" "" "my::shared:secret" "").
Proof.
  apply (parseToken_untagged_opaque "my::shared:secret").
  intros [t H]. discriminate H.
Defined.

(** C5. Decoding is total, and it fails exactly on the malformed tagged
    tokens: the tag is present and what follows the tag and the hash
    segment holds no ":".  The failure is the token-format error, as for
    "K10::nodelimiter". *)
Theorem parseToken_error_iff_malformed_tagged :
  (forall raw, (exists info, clientaccess.parseToken raw = Ok info)
               \/ clientaccess.parseToken raw = Err spec.invalidToken)
  /\ (forall raw, clientaccess.parseToken raw = Err spec.invalidToken
                  <-> spec.malformed_tagged raw)
  /\ clientaccess.parseToken "K10::nodelimiter" = Err spec.invalidToken.
Proof.
  assert (Hcases : forall raw,
             (strings.HasPrefix raw clientaccess.tokenPrefix = false
              /\ clientaccess.parseToken raw = Ok (clientaccess.mkInfo [] "" "" raw ""))
             \/ exists t, raw = (clientaccess.tokenPrefix ++ t)%string).
  { intros raw. destruct (strings.HasPrefix raw clientaccess.tokenPrefix) eqn:E.
    - right. apply strings_facts.HasPrefix_iff. exact E.
    - left. split; [reflexivity | apply codec.parseToken_untagged; exact E]. }
  split; [|split].
  - intros raw. destruct (Hcases raw) as [[_ H]|[t ->]]; [left; eauto|].
    rewrite codec.parseToken_tagged.
    destruct (strings.Index t "::"); cbv zeta iota beta;
      match goal with |- context [strings.Index ?r ":"] =>
        destruct (strings.Index r ":") end; eauto.
  - intros raw. split.
    + intros Herr. destruct (Hcases raw) as [[_ H]|[t ->]]; [congruence|].
      rewrite codec.parseToken_tagged in Herr.
      destruct (strings.Index t "::") as [m|] eqn:Em; cbv zeta iota beta in Herr.
      * destruct (strings.Index (strings.sliceFrom (m + 2) t) ":") eqn:Ek;
          [discriminate|].
        exists t, (strings.sliceFrom (m + 2) t). split; [reflexivity|]. split.
        -- right. exists (strings.sliceTo m t).
           exact (proj1 (strings_facts.Index_Some _ _ _ Em)).
        -- exact (strings_facts.Index_None _ _ Ek).
      * destruct (strings.Index t ":") eqn:Ek; [discriminate|].
        exists t, t. split; [reflexivity|]. split.
        -- left. split; [exact (strings_facts.Index_None _ _ Em) | reflexivity].
        -- exact (strings_facts.Index_None _ _ Ek).
    + intros [t [rest [-> [Hs Hno]]]].
      rewrite codec.parseToken_tagged.
      assert (Hrest : match strings.Index t "::" with
                      | Some m => strings.sliceFrom (m + 2) t
                      | None => t
                      end = rest).
      { destruct (strings.Index t "::") as [m|] eqn:Em.
        - destruct (strings_facts.Index_Some _ _ _ Em) as [Hcut _].
          destruct Hs as [[Hn _]|[h Hh]].
          + exfalso. apply Hn. destruct Hcut as [Hc _]. eexists _, _. exact Hc.
          + exact (proj2 (strings_facts.first_cut_unique _ _ _ _ _ _ Hcut Hh)).
        - destruct Hs as [[_ ->]|[h [Hh _]]]; [reflexivity|].
          exfalso. apply (strings_facts.Index_None _ _ Em). eexists _, _. exact Hh. }
      destruct (strings.Index t "::") as [m|]; cbv zeta iota beta; rewrite Hrest;
        (destruct (strings.Index rest ":") as [k|] eqn:Ek; [|reflexivity]);
        exfalso; apply Hno;
        destruct (strings_facts.Index_Some _ _ _ Ek) as [[Hc _] _];
        eexists _, _; exact Hc.
  - reflexivity.
Qed.

(** The claim of C3 as the specification words it fails for a user name
    that holds a ":": the user name is not empty, the password does not
    begin with a separator, and yet decoding the encoded token cuts the
    user name short and lengthens the password. *)
Lemma roundtrip_breaks_on_colon_in_username :
  let info := clientaccess.mkInfo [] "" "a:b" "p" "" in
  clientaccess.Username info <> ""
  /\ strings.HasPrefix (clientaccess.Password info) ":" = false
  /\ clientaccess.parseToken (clientaccess.String info)
     = Ok (clientaccess.mkInfo [] "" "a" "b:p"
             "e3b0c44298fc1c149afbf4c8996fb92427ae41e4649b934ca495991b7852b855")
  /\ ~ (exists decoded,
          clientaccess.parseToken (clientaccess.String info) = Ok decoded
          /\ clientaccess.Username decoded = clientaccess.Username info
          /\ clientaccess.Password decoded = clientaccess.Password info).
Proof.
  assert (E : clientaccess.parseToken
                (clientaccess.String (clientaccess.mkInfo [] "" "a:b" "p" ""))
              = Ok (clientaccess.mkInfo [] "" "a" "b:p"
                      "e3b0c44298fc1c149afbf4c8996fb92427ae41e4649b934ca495991b7852b855"))
    by (vm_compute; reflexivity).
  cbv zeta. split; [discriminate|]. split; [reflexivity|]. split; [exact E|].
  intros [decoded [Hd [Hu _]]]. rewrite E in Hd. injection Hd as <-.
  discriminate Hu.
Qed.

(** C3 (amended). For every Info whose user name holds no ":", decoding
    the encoded token succeeds and gives back the user name, the password
    (whatever separators it holds) and, as CA hash, the hash segment that
    the encoding emitted for the CA bundle. *)
Theorem parseToken_String_roundtrip (info : clientaccess.Info) :
  ~ In ":"%char (list_ascii_of_string (clientaccess.Username info)) ->
  clientaccess.parseToken (clientaccess.String info)
  = Ok (clientaccess.mkInfo [] "" (clientaccess.Username info)
          (clientaccess.Password info)
          (clientaccess.hashCA (clientaccess.CACerts info))).
Proof.
  intros Hu. destruct info as [ca base user pw h]. simpl in Hu.
  unfold clientaccess.String, clientaccess.tokenFormat.
  cbn [clientaccess.CACerts clientaccess.Username clientaccess.Password].
  rewrite codec.parseToken_tagged.
  set (hash := clientaccess.hashCA ca).
  assert (Hh : strings.Index (hash ++ "::" ++ user ++ ":" ++ pw)%string "::"
               = Some (String.length hash)).
  { apply (strings_facts.Index_skip hash (user ++ ":" ++ pw)%string ":" ":"%char).
    apply strings_facts.hex_no_colon. }
  rewrite Hh. cbv zeta iota beta.
  rewrite (strings_facts.sliceFrom_app hash ("::" ++ user ++ ":" ++ pw)%string 2).
  change (strings.sliceFrom 2 ("::" ++ user ++ ":" ++ pw)%string)
    with (strings.sliceFrom 0 (user ++ ":" ++ pw)%string).
  rewrite strings_facts.sliceFrom_0.
  rewrite (strings_facts.Index_skip user pw "" ":"%char Hu).
  rewrite strings_facts.sliceTo_app.
  rewrite (strings_facts.sliceFrom_app user (":" ++ pw)%string 1).
  change (strings.sliceFrom 1 (":" ++ pw)%string) with (strings.sliceFrom 0 pw).
  rewrite strings_facts.sliceFrom_0.
  rewrite strings_facts.sliceTo_app. reflexivity.
Qed.

(** A password that begins and ends with separators comes back whole. *)
Lemma parseToken_String_roundtrip_witness :
  let info := clientaccess.mkInfo (list_byte_of_string "abc")
                "https://10.0.0.1:6443" "node" ":p:w::" "" in
  ~ In ":"%char (list_ascii_of_string (clientaccess.Username info))
  /\ clientaccess.parseToken (clientaccess.String info)
     = Ok (clientaccess.mkInfo [] "" "node" ":p:w::"
             (clientaccess.hashCA (list_byte_of_string "abc"))).
Proof.
  cbv zeta.
  assert (H : ~ In ":"%char (list_ascii_of_string "node"))
    by (simpl; intros [H|[H|[H|[H|[]]]]]; discriminate H).
  split; [exact H|].
  exact (parseToken_String_roundtrip
           (clientaccess.mkInfo (list_byte_of_string "abc")
              "https://10.0.0.1:6443" "node" ":p:w::" "") H).
Defined.

(* ------------------------------------------------------------------ *)
(** ** What a computation adds to the trace *)

Section Traces.
Context {World : Type}.

Lemma grows_refl (P : Event -> Prop) (s : Sys World) : grows P s s.
Proof. exists []. split; [symmetry; apply app_nil_r | constructor]. Qed.

Lemma grows_trans (P : Event -> Prop) (s1 s2 s3 : Sys World) :
  grows P s1 s2 -> grows P s2 s3 -> grows P s1 s3.
Proof.
  intros [e1 [H1 F1]] [e2 [H2 F2]]. exists (e1 ++ e2). split.
  - rewrite H2, H1. symmetry. apply app_assoc.
  - apply Forall_app. split; assumption.
Qed.

Lemma grows_weaken (P Q : Event -> Prop) (s s' : Sys World) :
  (forall ev, P ev -> Q ev) -> grows P s s' -> grows Q s s'.
Proof.
  intros HPQ [evs [H F]]. exists evs. split; [exact H|].
  eapply Forall_impl; [exact HPQ | exact F].
Qed.

Lemma emits_ret {A : Type} (P : Event -> Prop) (a : A) :
  @emits World A P (ret a).
Proof. intros s a' s' H. injection H as _ <-. apply grows_refl. Qed.

Lemma emits_bind {A B : Type} (P : Event -> Prop)
      (m : M (Sys World) A) (k : A -> M (Sys World) B) :
  emits P m -> (forall a, emits P (k a)) -> emits P (bind m k).
Proof.
  intros Hm Hk s b s' H. unfold bind in H.
  destruct (m s) as [[a s1]|] eqn:E; [|discriminate].
  eapply grows_trans; [exact (Hm _ _ _ E) | exact (Hk _ _ _ _ H)].
Qed.

Lemma emits_call {A : Type} (P : Event -> Prop) (ev : Event) (f : World -> A * World) :
  P ev -> emits P (call ev f).
Proof.
  intros HP s a s' H. unfold call in H. destruct (f (world s)) as [a0 w].
  injection H as _ <-. exists [ev]. split; [reflexivity | repeat constructor; exact HP].
Qed.

Lemma emits_logrus (P : Event -> Prop) (lvl : Level) (msg : string) :
  P (EvLog lvl msg) -> @emits World unit P (logrus lvl msg).
Proof.
  intros HP s a s' H. injection H as _ <-.
  exists [EvLog lvl msg]. split; [reflexivity | repeat constructor; exact HP].
Qed.

Lemma emits_panic {A : Type} (P : Event -> Prop) (msg : string) :
  emits P (@panic (Sys World) A msg).
Proof. intros s a s' H. discriminate H. Qed.

Lemma emits_weaken {A : Type} (P Q : Event -> Prop) (m : M (Sys World) A) :
  (forall ev, P ev -> Q ev) -> emits P m -> emits Q m.
Proof. intros HPQ Hm s a s' H. eapply grows_weaken; [exact HPQ | eauto]. Qed.

End Traces.

(* ------------------------------------------------------------------ *)
(** ** Kinds of events *)

Section Events.
Context {World : Type} {P : Platform World} {Co : cluster.Collaborators World}.

Lemma cacertsRequest_decision (ev : Event) : cacertsRequest ev -> decisionEvent ev.
Proof. intros H. destruct H as [client [u ->]]. exists client, u. reflexivity. Qed.

Lemma localEvent_decision (ev : Event) : localEvent ev -> decisionEvent ev.
Proof. destruct ev; simpl; tauto. Qed.

Lemma localEvent_not_network (ev : Event) : localEvent ev -> ~ networkEvent ev.
Proof. intros H [client [req ->]]. exact H. Qed.

Lemma decisionEvent_not_fetch (ev : Event) : decisionEvent ev -> ~ fetchEvent ev.
Proof.
  intros Hd [[client [u [cred ->]]]|[->| ->]]; simpl in Hd; try exact Hd.
  destruct Hd as [client' [u' H]]. discriminate H.
Qed.

End Events.

(* ------------------------------------------------------------------ *)
(** ** Traces of trust establishment and of the decision *)

Section Runs.
Context {World : Type} {P : Platform World} {Co : cluster.Collaborators World}.

Lemma emitsP_ret {A : Type} (Q : Event -> Prop) (a : A) :
  @emitsP World A Q (ret a).
Proof. intros c s a' c' s' H. injection H; intros; subst. apply grows_refl. Qed.

Lemma emitsP_bind {A B : Type} (Q : Event -> Prop) (m : M (@cluster.Proc World) A) (k : A -> M (@cluster.Proc World) B) :
  emitsP Q m -> (forall a, emitsP Q (k a)) -> emitsP Q (bind m k).
Proof.
  intros Hm Hk c s b c' s' H. unfold bind in H.
  destruct (m (c, s)) as [[a [c1 s1]]|] eqn:E; [|discriminate].
  eapply grows_trans; [exact (Hm _ _ _ _ _ E) | exact (Hk _ _ _ _ _ _ H)].
Qed.

Lemma emitsP_sys {A : Type} (Q : Event -> Prop) (m : M (Sys World) A) :
  emits Q m -> emitsP Q (cluster.sys m).
Proof.
  intros Hm c s a c' s' H. unfold cluster.sys in H. simpl in H.
  destruct (m s) as [[a0 y]|] eqn:E; [|discriminate].
  injection H; intros; subst. exact (Hm _ _ _ E).
Qed.

Lemma emitsP_this (Q : Event -> Prop) : @emitsP World _ Q cluster.this.
Proof. intros c s a c' s' H. injection H; intros; subst. apply grows_refl. Qed.

Lemma emitsP_update (Q : Event -> Prop) (f : cluster.Cluster World -> cluster.Cluster World) :
  emitsP Q (cluster.update f).
Proof. intros c s a c' s' H. injection H; intros; subst. apply grows_refl. Qed.

Lemma emitsP_weaken {A : Type} (Q R : Event -> Prop) (m : M (@cluster.Proc World) A) :
  (forall ev, Q ev -> R ev) -> emitsP Q m -> emitsP R m.
Proof. intros HQR Hm c s a c' s' H. eapply grows_weaken; [exact HQR | eauto]. Qed.

Lemma emitsP_panic {A : Type} (Q : Event -> Prop) (msg : string) :
  emitsP Q (@panic (@cluster.Proc World) A msg).
Proof. intros c s a c' s' H. discriminate H. Qed.

End Runs.

Ltac trace_step :=
  first
    [ apply emitsP_panic | apply emits_panic | apply emits_ret | apply emitsP_ret
    | apply emitsP_this | apply emitsP_update
    | apply emits_bind; [|intros ?] | apply emitsP_bind; [|intros ?]
    | apply emitsP_sys
    | apply emits_call | apply emits_logrus
    | match goal with
      | |- emits _ (match ?x with _ => _ end) => destruct x
      | |- emitsP _ (match ?x with _ => _ end) => destruct x
      | |- emits _ (if ?b then _ else _) => destruct b
      | |- emitsP _ (if ?b then _ else _) => destruct b
      end ].

Section Requests.
Context {World : Type} {P : Platform World} {Co : cluster.Collaborators World}.

(** The one request of [get], if the URL is accepted. *)
Lemma get_emits (u : string) (client : Client) (user pw : string) :
  emits (fun ev => ev = EvRequest client
                          (mkRequest "GET" u
                             (if (user =? "")%string then None else Some (user, pw))))
        (clientaccess.get u client user pw).
Proof. unfold clientaccess.get. repeat trace_step; reflexivity. Qed.

Lemma get_total (u : string) (client : Client) (user pw : string) (s : Sys World) :
  exists r s', clientaccess.get u client user pw s = Done (r, s').
Proof.
  unfold clientaccess.get. destruct (http_NewRequest u); [eexists _, _; reflexivity|].
  unfold bind, call. destruct (Client_Do _ _ (world s)) as [[resp|e] w];
    [|eexists _, _; reflexivity].
  destruct (StatusCode resp =? 503)%Z; [eexists _, _; reflexivity|].
  destruct (negb (StatusCode resp =? 200)%Z); eexists _, _; reflexivity.
Qed.

Lemma getCACerts_emits (u : URL) : emits cacertsRequest (clientaccess.getCACerts u).
Proof.
  unfold clientaccess.getCACerts.
  assert (G : forall client,
             emits cacertsRequest
               (clientaccess.get (URL_String (URL_withPath u "/cacerts")) client "" "")).
  { intros client. eapply emits_weaken; [|apply get_emits].
    intros ev ->. exists client, u. reflexivity. }
  repeat (first [apply G | trace_step]).
Qed.

Lemma setServer_emits (info : clientaccess.Info) (server : string) :
  emits cacertsRequest (clientaccess.setServer info server).
Proof.
  unfold clientaccess.setServer.
  repeat (first [apply getCACerts_emits | trace_step]).
Qed.

Lemma ParseAndValidateTokenForUser_emits (server token user : string) :
  emits cacertsRequest (clientaccess.ParseAndValidateTokenForUser server token user).
Proof.
  unfold clientaccess.ParseAndValidateTokenForUser.
  repeat (first [apply setServer_emits | trace_step]).
Qed.

Lemma isInitialized_emits (d : cluster.Driver World) (cfg : cluster.Config) :
  emitsP localEvent (cluster.isInitialized d cfg).
Proof. unfold cluster.isInitialized. repeat trace_step. exact I. Qed.

Lemma firstInitialized_emits (cfg : cluster.Config) (ds : list (cluster.Driver World)) :
  emitsP localEvent (cluster.firstInitialized cfg ds).
Proof.
  induction ds as [|d ds IH]; simpl.
  - apply emitsP_ret.
  - repeat (first [apply isInitialized_emits | exact IH | trace_step]).
Qed.

Lemma assignManagedDriver_emits : emitsP localEvent cluster.assignManagedDriver.
Proof.
  unfold cluster.assignManagedDriver.
  repeat (first [apply firstInitialized_emits | trace_step]).
Qed.

Lemma checkStamp_emits : emitsP localEvent cluster.checkStamp.
Proof. unfold cluster.checkStamp. repeat trace_step; exact I. Qed.

Lemma shouldBootstrapLoad_emits : emitsP decisionEvent cluster.shouldBootstrapLoad.
Proof.
  unfold cluster.shouldBootstrapLoad.
  repeat (first
            [ apply (emitsP_weaken _ _ _ localEvent_decision), checkStamp_emits
            | apply (emitsP_weaken _ _ _ localEvent_decision), isInitialized_emits
            | apply (emits_weaken _ _ _ cacertsRequest_decision),
                ParseAndValidateTokenForUser_emits
            | trace_step ]); exact I.
Qed.

End Requests.

(* ------------------------------------------------------------------ *)
(** ** The bootstrap orchestration *)

Section OrchestrationFacts.
Context {World : Type} {P : Platform World} {Co : cluster.Collaborators World}.
Import cluster.

Lemma eqb_empty_false (x : string) : x <> ""%string -> (x =? "")%string = false.
Proof. intros H. apply String.eqb_neq. exact H. Qed.

(** [Bootstrap] once the driver is assigned and the decision is made. *)
Lemma Bootstrap_fails (c c1 c2 : Cluster World) (s s1 s2 : Sys World)
      (should : bool) (err : error) :
  assignManagedDriver (c, s) = Done (None, (c1, s1)) ->
  shouldBootstrapLoad (c1, s1) = Done ((should, Some err), (c2, s2)) ->
  Bootstrap (c, s) = Done (Some err, (c2, s2)).
Proof. intros H1 H2. unfold Bootstrap, bind. rewrite H1, H2. reflexivity. Qed.

Lemma Bootstrap_skips (c c1 c2 : Cluster World) (s s1 s2 : Sys World) :
  assignManagedDriver (c, s) = Done (None, (c1, s1)) ->
  shouldBootstrapLoad (c1, s1) = Done ((false, None), (c2, s2)) ->
  Bootstrap (c, s) = Done (None, (set_shouldBootstrap false c2, s2))
  /\ grows decisionEvent s s2.
Proof.
  intros H1 H2. split.
  - unfold Bootstrap, bind. rewrite H1, H2. reflexivity.
  - eapply grows_trans.
    + eapply grows_weaken; [exact localEvent_decision|].
      exact (assignManagedDriver_emits _ _ _ _ _ H1).
    + exact (shouldBootstrapLoad_emits _ _ _ _ _ H2).
Qed.

Lemma Bootstrap_fetches (c c1 c2 : Cluster World) (s s1 s2 : Sys World) :
  assignManagedDriver (c, s) = Done (None, (c1, s1)) ->
  shouldBootstrapLoad (c1, s1) = Done ((true, None), (c2, s2)) ->
  Bootstrap (c, s) =
  match bootstrap (set_shouldBootstrap true c2, s2) with
  | Done (err, st) => Done (err, st)
  | Panicked msg => Panicked msg
  end.
Proof.
  intros H1 H2. unfold Bootstrap, bind. rewrite H1, H2. unfold update. simpl.
  destruct (bootstrap (set_shouldBootstrap true c2, s2)) as [[[e|] st]|]; reflexivity.
Qed.

(** [shouldBootstrapLoad] with a managed driver and a join URL, up to
    the answer of token validation. *)
Lemma shouldBootstrapLoad_validates (c : Cluster World) (s s2 : Sys World)
      (db : Driver World) (r : result clientaccess.Info) :
  managedDB c = Some db ->
  JoinURL (config c) <> ""%string ->
  clientaccess.ParseAndValidateTokenForUser
    (JoinURL (config c)) (Token (config c)) "server" s = Done (r, s2) ->
  shouldBootstrapLoad (c, s) =
  match r with
  | Err err =>
      if errors.Is err ErrServiceUnavailable
      then
        (r2 <- isInitialized db (config c) ;;
         match r2 with
         | Err err2 =>
             sys (logrus WarnLevel
                    ("Failed to check managed database initialization: "
                       ++ errors.Error err2)) ;;
             ret (false, Some err)
         | Ok true =>
             sys (logrus WarnLevel
                    ("Ignoring bootstrap token validation error on initialized member due to cluster quorum loss: "
                       ++ errors.Error err)) ;;
             ret (false, None)
         | Ok false => ret (false, Some err)
         end)%go (set_HTTPBootstrap true c, s2)
      else Done ((false, Some err), (set_HTTPBootstrap true c, s2))
  | Ok info =>
      checkStamp (set_clientAccessInfo (Some info) (set_HTTPBootstrap true c), s2)
  end.
Proof.
  intros Hdb Hurl Hv. unfold shouldBootstrapLoad.
  unfold bind at 1. unfold this at 1. cbn [fst]. rewrite Hdb.
  unfold bind at 1. unfold update at 1. cbn [fst snd].
  change (config (set_HTTPBootstrap true c)) with (config c).
  rewrite (eqb_empty_false _ Hurl).
  unfold bind at 1. unfold sys at 1. cbn [fst snd]. rewrite Hv.
  destruct r as [info|err]; [reflexivity|].
  destruct (errors.Is err ErrServiceUnavailable); reflexivity.
Qed.

(** C10. When token validation fails with the service-unavailable
    condition and the check of the assigned driver itself fails, the
    bypass is not taken: the failure of the check is logged as a warning
    and nothing more, and [shouldBootstrapLoad], hence [Bootstrap],
    returns the error of token validation. *)
Theorem bypass_not_taken_when_check_fails
        (c c1 : Cluster World) (s s1 s2 : Sys World) (db : Driver World)
        (err err2 : error) (w3 : World) :
  assignManagedDriver (c, s) = Done (None, (c1, s1)) ->
  managedDB c1 = Some db ->
  JoinURL (config c1) <> ""%string ->
  clientaccess.ParseAndValidateTokenForUser
    (JoinURL (config c1)) (Token (config c1)) "server" s1 = Done (Err err, s2) ->
  errors.Is err ErrServiceUnavailable = true ->
  IsInitialized db (config c1) (world s2) = (Err err2, w3) ->
  let s3 := mkSys w3
              ((trace s2 ++ [EvIsInitialized (EndpointName db)])
                 ++ [EvLog WarnLevel
                       ("Failed to check managed database initialization: "
                          ++ errors.Error err2)]) in
  shouldBootstrapLoad (c1, s1) = Done ((false, Some err), (set_HTTPBootstrap true c1, s3))
  /\ Bootstrap (c, s) = Done (Some err, (set_HTTPBootstrap true c1, s3)).
Proof.
  intros H1 Hdb Hurl Hv His Hinit s3.
  assert (Hs : shouldBootstrapLoad (c1, s1)
               = Done ((false, Some err), (set_HTTPBootstrap true c1, s3))).
  { rewrite (shouldBootstrapLoad_validates c1 s1 s2 db (Err err) Hdb Hurl Hv), His.
    unfold bind, isInitialized, sys, call. cbn [fst snd].
    change (config (set_HTTPBootstrap true c1)) with (config c1).
    rewrite Hinit. reflexivity. }
  split; [exact Hs|]. exact (Bootstrap_fails _ _ _ _ _ _ _ _ H1 Hs).
Qed.

(** C1. Quorum-loss bypass: when a managed driver is assigned, a join URL
    is configured, token validation fails with the service-unavailable
    condition and the assigned driver reports an initialized database,
    [Bootstrap] returns no error and no fetch of bootstrap data runs:
    neither the HTTP fetch nor the load from the datastore; all that
    the run does outside the process is to ask the drivers, to send the
    [/cacerts] requests of trust establishment and to log. *)
Theorem quorum_loss_bypass
        (c c1 : Cluster World) (s s1 s2 : Sys World) (db : Driver World)
        (err : error) (w3 : World) :
  assignManagedDriver (c, s) = Done (None, (c1, s1)) ->
  managedDB c1 = Some db ->
  JoinURL (config c1) <> ""%string ->
  clientaccess.ParseAndValidateTokenForUser
    (JoinURL (config c1)) (Token (config c1)) "server" s1 = Done (Err err, s2) ->
  errors.Is err ErrServiceUnavailable = true ->
  IsInitialized db (config c1) (world s2) = (Ok true, w3) ->
  let s3 := mkSys w3
              ((trace s2 ++ [EvIsInitialized (EndpointName db)])
                 ++ [EvLog WarnLevel
                       ("Ignoring bootstrap token validation error on initialized member due to cluster quorum loss: "
                          ++ errors.Error err)]) in
  Bootstrap (c, s)
  = Done (None, (set_shouldBootstrap false (set_HTTPBootstrap true c1), s3))
  /\ grows decisionEvent s s3
  /\ grows (fun ev => ~ fetchEvent ev) s s3.
Proof.
  intros H1 Hdb Hurl Hv His Hinit s3.
  assert (Hs : shouldBootstrapLoad (c1, s1)
               = Done ((false, None), (set_HTTPBootstrap true c1, s3))).
  { rewrite (shouldBootstrapLoad_validates c1 s1 s2 db (Err err) Hdb Hurl Hv), His.
    unfold bind, isInitialized, sys, call. cbn [fst snd].
    change (config (set_HTTPBootstrap true c1)) with (config c1).
    rewrite Hinit. reflexivity. }
  destruct (Bootstrap_skips _ _ _ _ _ _ H1 Hs) as [Hb Hg].
  split; [exact Hb|]. split; [exact Hg|].
  eapply grows_weaken; [exact decisionEvent_not_fetch | exact Hg].
Qed.

(** The stamp check, by what [os.Stat] answers. *)
Lemma checkStamp_present (c : Cluster World) (s : Sys World) (w : World) :
  os_Stat (bootstrapStamp c) (world s) = (None, w) ->
  checkStamp (c, s)
  = Done ((false, None),
          (c, mkSys w ((trace s ++ [EvStat (bootstrapStamp c)])
                         ++ [EvLog InfoLevel "Cluster bootstrap already complete"]))).
Proof.
  intros H. unfold checkStamp, bind, this, sys, call, logrus. cbn [fst snd].
  rewrite H. reflexivity.
Qed.

Lemma checkStamp_absent (c : Cluster World) (s : Sys World) (w : World) (e : error) :
  os_Stat (bootstrapStamp c) (world s) = (Some e, w) ->
  checkStamp (c, s)
  = Done (match managedDB c with
          | Some _ =>
              if (Token (config c) =? "")%string then (false, Some missingToken)
              else (true, None)
          | None => (true, None)
          end,
          (c, mkSys w (trace s ++ [EvStat (bootstrapStamp c)]))).
Proof.
  intros H. unfold checkStamp, bind, this, sys, call. cbn [fst snd].
  rewrite H. destruct (managedDB c); [|reflexivity].
  destruct (Token (config c) =? "")%string; reflexivity.
Qed.

Lemma shouldBootstrapLoad_unmanaged (c : Cluster World) (s : Sys World) :
  managedDB c = None -> shouldBootstrapLoad (c, s) = checkStamp (c, s).
Proof.
  intros H. unfold shouldBootstrapLoad. unfold bind at 1. unfold this at 1.
  cbn [fst]. rewrite H. reflexivity.
Qed.

(** ** CA hash *)

Lemma validateCAHash_mismatch (info : clientaccess.Info) :
  clientaccess.caHash info <> ""%string ->
  clientaccess.hashCA (clientaccess.CACerts info) <> clientaccess.caHash info ->
  clientaccess.validateCAHash info
  = Some (hashMismatch (clientaccess.caHash info)
            (clientaccess.hashCA (clientaccess.CACerts info))).
Proof.
  intros Hne Hdiff. unfold clientaccess.validateCAHash, clientaccess.validateCACerts.
  rewrite (eqb_empty_false _ Hne), andb_false_r.
  replace (clientaccess.caHash info
           =? clientaccess.hashCA (clientaccess.CACerts info))%string with false.
  - reflexivity.
  - symmetry. apply String.eqb_neq. congruence.
Qed.

Lemma setServer_keeps_token (info info' : clientaccess.Info) (server : string)
      (s s' : Sys World) (e : option error) :
  clientaccess.setServer info server s = Done ((e, info'), s') ->
  clientaccess.caHash info' = clientaccess.caHash info
  /\ clientaccess.Username info' = clientaccess.Username info
  /\ clientaccess.Password info' = clientaccess.Password info.
Proof.
  unfold clientaccess.setServer. intros H.
  destruct (url_Parse server) as [url|err].
  - destruct (negb (Scheme url =? "https")%string).
    + injection H; intros; subst. auto.
    + unfold bind in H.
      destruct (clientaccess.getCACerts _ s) as [[[ca|err] s1]|]; try discriminate;
        injection H; intros; subst; auto.
  - injection H; intros; subst. auto.
Qed.

(** C6. A token that declares a CA hash is refused when the bundle that
    the server hands out hashes to something else: token validation
    fails, and so does [Bootstrap] when it validates the token; the
    message of the error holds both the declared hash and the hash of
    the bundle. *)
Theorem ca_hash_mismatch_is_fatal
        (c c1 : Cluster World) (s s1 s2 : Sys World) (db : Driver World)
        (info info' : clientaccess.Info) :
  assignManagedDriver (c, s) = Done (None, (c1, s1)) ->
  managedDB c1 = Some db ->
  JoinURL (config c1) <> ""%string ->
  clientaccess.parseToken (Token (config c1)) = Ok info ->
  clientaccess.caHash info <> ""%string ->
  clientaccess.setServer (clientaccess.with_Username info "server")
    (JoinURL (config c1)) s1 = Done ((None, info'), s2) ->
  clientaccess.hashCA (clientaccess.CACerts info') <> clientaccess.caHash info ->
  let declared := clientaccess.caHash info in
  let computed := clientaccess.hashCA (clientaccess.CACerts info') in
  clientaccess.validateCAHash info' = Some (hashMismatch declared computed)
  /\ clientaccess.ParseAndValidateTokenForUser
       (JoinURL (config c1)) (Token (config c1)) "server" s1
     = Done (Err (hashMismatch declared computed), s2)
  /\ Bootstrap (c, s)
     = Done (Some (hashMismatch declared computed), (set_HTTPBootstrap true c1, s2))
  /\ errors.Error (hashMismatch declared computed)
     = ("token CA hash does not match the server CA hash: "
          ++ declared ++ " != " ++ computed)%string
  /\ spec.occurs declared (errors.Error (hashMismatch declared computed))
  /\ spec.occurs computed (errors.Error (hashMismatch declared computed)).
Proof.
  intros H1 Hdb Hurl Hparse Hne Hset Hdiff declared computed.
  destruct (setServer_keeps_token _ _ _ _ _ _ Hset) as [Hh _].
  change (clientaccess.caHash (clientaccess.with_Username info "server"))
    with (clientaccess.caHash info) in Hh.
  assert (Hv : clientaccess.ParseAndValidateTokenForUser
                 (JoinURL (config c1)) (Token (config c1)) "server" s1
               = Done (Err (hashMismatch declared computed), s2)).
  { unfold clientaccess.ParseAndValidateTokenForUser. rewrite Hparse.
    unfold bind. rewrite Hset. cbv iota beta zeta.
    rewrite Hh, (eqb_empty_false _ Hne). cbn [negb].
    rewrite validateCAHash_mismatch by congruence.
    rewrite Hh. reflexivity. }
  split.
  { rewrite validateCAHash_mismatch by congruence. rewrite Hh. reflexivity. }
  split; [exact Hv|]. split; [|split; [reflexivity|split]].
  - apply (Bootstrap_fails c c1 _ s s1 _ false _ H1).
    rewrite (shouldBootstrapLoad_validates c1 s1 s2 db _ Hdb Hurl Hv). reflexivity.
  - exists "token CA hash does not match the server CA hash: "%string,
      (" != " ++ computed)%string. reflexivity.
  - exists ("token CA hash does not match the server CA hash: " ++ declared ++ " != ")%string,
      ""%string.
    simpl errors.Error. rewrite strings_facts.app_empty_r.
    rewrite !strings_facts.app_assoc. reflexivity.
Qed.

(** ** The stamp *)

(** C2 (amended). With the stamp of the configured token present, and the
    driver assigned without error: when no managed driver is assigned,
    [Bootstrap] returns no error and sends nothing to the peer; when a
    managed driver is assigned and a join URL is configured, the token is
    validated first, which sends the [/cacerts] requests, and once that
    has succeeded [Bootstrap] returns no error without any fetch of
    bootstrap data. *)
Theorem stamp_present_skips_fetch
        (c c1 : Cluster World) (s s1 : Sys World) :
  assignManagedDriver (c, s) = Done (None, (c1, s1)) ->
  (managedDB c1 = None ->
   forall w2, os_Stat (bootstrapStamp c1) (world s1) = (None, w2) ->
   exists c' s',
     Bootstrap (c, s) = Done (None, (c', s'))
     /\ grows (fun ev => ~ networkEvent ev) s s')
  /\ (forall db info s2 w3,
        managedDB c1 = Some db ->
        JoinURL (config c1) <> ""%string ->
        clientaccess.ParseAndValidateTokenForUser
          (JoinURL (config c1)) (Token (config c1)) "server" s1 = Done (Ok info, s2) ->
        os_Stat (bootstrapStamp c1) (world s2) = (None, w3) ->
        exists c' s',
          Bootstrap (c, s) = Done (None, (c', s'))
          /\ grows cacertsRequest s1 s2
          /\ grows decisionEvent s s'
          /\ grows (fun ev => ~ fetchEvent ev) s s').
Proof.
  intros H1. split.
  - intros Hdb w2 Hstat.
    assert (Hs : shouldBootstrapLoad (c1, s1)
                 = Done ((false, None),
                         (c1, mkSys w2
                                ((trace s1 ++ [EvStat (bootstrapStamp c1)])
                                   ++ [EvLog InfoLevel
                                         "Cluster bootstrap already complete"]))))
      by (rewrite shouldBootstrapLoad_unmanaged by exact Hdb;
          apply checkStamp_present; exact Hstat).
    eexists _, _. split.
    + unfold Bootstrap, bind. rewrite H1, Hs. reflexivity.
    + eapply grows_weaken; [exact localEvent_not_network|].
      eapply grows_trans; [exact (assignManagedDriver_emits _ _ _ _ _ H1)|].
      rewrite shouldBootstrapLoad_unmanaged in Hs by exact Hdb.
      exact (checkStamp_emits _ _ _ _ _ Hs).
  - intros db info s2 w3 Hdb Hurl Hv Hstat.
    pose (c2 := set_clientAccessInfo (Some info) (set_HTTPBootstrap true c1)).
    assert (Hs : shouldBootstrapLoad (c1, s1)
                 = Done ((false, None),
                         (c2, mkSys w3
                                ((trace s2 ++ [EvStat (bootstrapStamp c1)])
                                   ++ [EvLog InfoLevel
                                         "Cluster bootstrap already complete"]))))
      by (rewrite (shouldBootstrapLoad_validates c1 s1 s2 db _ Hdb Hurl Hv);
          apply (checkStamp_present c2 s2 w3); exact Hstat).
    destruct (Bootstrap_skips _ _ _ _ _ _ H1 Hs) as [Hb Hg].
    eexists _, _. split; [exact Hb|]. split; [|split].
    + exact (ParseAndValidateTokenForUser_emits _ _ _ _ _ _ Hv).
    + exact Hg.
    + eapply grows_weaken; [exact decisionEvent_not_fetch | exact Hg].
Qed.

(** C8 (amended). The missing-token error belongs to the managed-driver
    case: with a managed driver assigned, a join URL configured, the
    token validated, the stamp absent and no token configured,
    [Bootstrap] fails with it.  With no managed driver assigned an absent
    token is no error: the stamp being absent, the decision is to load,
    and [Bootstrap] returns what the load from the datastore returns. *)
Theorem missing_token_is_fatal_with_managed_driver
        (c c1 : Cluster World) (s s1 : Sys World) :
  assignManagedDriver (c, s) = Done (None, (c1, s1)) ->
  (forall db info s2 e w3,
      managedDB c1 = Some db ->
      JoinURL (config c1) <> ""%string ->
      clientaccess.ParseAndValidateTokenForUser
        (JoinURL (config c1)) (Token (config c1)) "server" s1 = Done (Ok info, s2) ->
      os_Stat (bootstrapStamp c1) (world s2) = (Some e, w3) ->
      Token (config c1) = ""%string ->
      Bootstrap (c, s)
      = Done (Some missingToken,
              (set_clientAccessInfo (Some info) (set_HTTPBootstrap true c1),
               mkSys w3 (trace s2 ++ [EvStat (bootstrapStamp c1)])))
      /\ errors.Error missingToken
         = (version_ProgramUpper ++ "_TOKEN is required to join a cluster")%string)
  /\ (forall e w2 r w3,
        managedDB c1 = None ->
        HTTPBootstrap c1 = false ->
        os_Stat (bootstrapStamp c1) (world s1) = (Some e, w2) ->
        storageBootstrap (config c1) w2 = (r, w3) ->
        shouldBootstrapLoad (c1, s1)
        = Done ((true, None), (c1, mkSys w2 (trace s1 ++ [EvStat (bootstrapStamp c1)])))
        /\ Bootstrap (c, s)
           = Done (r, (set_joining true (set_shouldBootstrap true c1),
                       mkSys w3 ((trace s1 ++ [EvStat (bootstrapStamp c1)])
                                   ++ [EvStorageBootstrap])))).
Proof.
  intros H1. split.
  - intros db info s2 e w3 Hdb Hurl Hv Hstat Htok. split; [|reflexivity].
    apply (Bootstrap_fails c c1 _ s s1 _ false _ H1).
    rewrite (shouldBootstrapLoad_validates c1 s1 s2 db _ Hdb Hurl Hv).
    rewrite (checkStamp_absent _ _ w3 e) by exact Hstat.
    cbn [managedDB set_clientAccessInfo set_HTTPBootstrap config].
    rewrite Hdb, Htok. reflexivity.
  - intros e w2 r w3 Hdb Hhttp Hstat Hload.
    assert (Hs : shouldBootstrapLoad (c1, s1)
                 = Done ((true, None),
                         (c1, mkSys w2 (trace s1 ++ [EvStat (bootstrapStamp c1)])))).
    { rewrite shouldBootstrapLoad_unmanaged by exact Hdb.
      rewrite (checkStamp_absent _ _ w2 e) by exact Hstat.
      rewrite Hdb. reflexivity. }
    split; [exact Hs|].
    rewrite (Bootstrap_fetches _ _ _ _ _ _ H1 Hs).
    unfold bootstrap, bind, update, this, sys, call. cbn [fst snd].
    cbn [HTTPBootstrap set_joining set_shouldBootstrap config world trace].
    rewrite Hhttp. cbn [fst snd world trace]. rewrite Hload. destruct r; reflexivity.
Qed.

(** ** After the decision: the fetch, the flag and the stamp *)

Lemma decisionEvent_not_write (ev : Event) : decisionEvent ev -> ~ stampWrite ev.
Proof. destruct ev; simpl; tauto. Qed.

Lemma bootstrap_emits : emitsP (fun ev => ~ stampWrite ev) bootstrap.
Proof.
  unfold bootstrap, httpBootstrap, clientaccess.Get.
  repeat (first
            [ eapply emits_weaken; [|apply get_emits]; intros ev ->; simpl; tauto
            | trace_step ]); simpl; tauto.
Qed.

(** [bootstrap] sets the flag before it fetches: the flag is up however
    the fetch ends.  It panics only when the HTTP path is taken without
    an access info. *)
Lemma bootstrap_sets_joining (c : Cluster World) (s : Sys World) :
  match bootstrap (c, s) with
  | Done (_, (c', _)) => joining c' = true
  | Panicked _ => HTTPBootstrap c = true /\ clientAccessInfo c = None
  end.
Proof.
  unfold bootstrap, bind, update, this. cbn [fst snd].
  change (HTTPBootstrap (set_joining true c)) with (HTTPBootstrap c).
  destruct (HTTPBootstrap c) eqn:Eh.
  - unfold httpBootstrap, bind, this, sys. cbn [fst snd].
    change (clientAccessInfo (set_joining true c)) with (clientAccessInfo c).
    destruct (clientAccessInfo c) as [info|]; [|split; reflexivity].
    unfold clientaccess.Get. destruct (url_Parse _) as [u|e]; [|reflexivity].
    destruct (get_total (URL_String (URL_withPath u bootstrapPath))
                (clientaccess.GetHTTPClient (clientaccess.CACerts info))
                (clientaccess.Username info) (clientaccess.Password info) s)
      as [r [s' E]].
    rewrite E. destruct r as [content|e]; [|reflexivity].
    unfold call. cbn [fst snd]. destruct (bootstrap_Read content (world s')).
    reflexivity.
  - unfold sys, call. cbn [fst snd].
    destruct (storageBootstrap _ _) as [[e|] w]; reflexivity.
Qed.

(** C9 (amended). When a fetch path is taken, the joining flag is set
    before the fetch is tried and is up afterwards whether the fetch
    succeeds or fails: it records the attempt.  [Bootstrap] itself never
    writes the stamp; the stamp is written by [bootstrapped], through an
    idempotent create: the directory is created first, then a stamp that
    exists is left alone and reported as success, and one that does not
    is created and closed. *)
Theorem joining_records_the_attempt :
  (forall (c c1 c2 : Cluster World) (s s1 s2 : Sys World),
      assignManagedDriver (c, s) = Done (None, (c1, s1)) ->
      shouldBootstrapLoad (c1, s1) = Done ((true, None), (c2, s2)) ->
      match Bootstrap (c, s) with
      | Done (_, (c', _)) => joining c' = true
      | Panicked _ => HTTPBootstrap c2 = true /\ clientAccessInfo c2 = None
      end)
  /\ emitsP (fun ev => ~ stampWrite ev) Bootstrap
  /\ (forall (c : Cluster World) (s : Sys World) (w1 w2 : World),
        let stamp := bootstrapStamp c in
        os_MkdirAll (filepath_Dir stamp) (world s) = (None, w1) ->
        os_Stat stamp w1 = (None, w2) ->
        bootstrapped (c, s)
        = Done (None, (c, mkSys w2 ((trace s ++ [EvMkdirAll (filepath_Dir stamp)])
                                      ++ [EvStat stamp]))))
  /\ (forall (c : Cluster World) (s : Sys World) (w1 w2 w3 w4 : World)
             (e : error) (r : option error),
        let stamp := bootstrapStamp c in
        os_MkdirAll (filepath_Dir stamp) (world s) = (None, w1) ->
        os_Stat stamp w1 = (Some e, w2) ->
        os_Create stamp w2 = (None, w3) ->
        File_Close stamp w3 = (r, w4) ->
        bootstrapped (c, s)
        = Done (r, (c, mkSys w4 ((((trace s ++ [EvMkdirAll (filepath_Dir stamp)])
                                     ++ [EvStat stamp])
                                    ++ [EvCreate stamp])
                                   ++ [EvClose stamp])))).
Proof.
  split; [|split; [|split]].
  - intros c c1 c2 s s1 s2 H1 H2.
    rewrite (Bootstrap_fetches _ _ _ _ _ _ H1 H2).
    pose proof (bootstrap_sets_joining (set_shouldBootstrap true c2) s2) as Hj.
    destruct (bootstrap (set_shouldBootstrap true c2, s2)) as [[e [c' s']]|];
      exact Hj.
  - unfold Bootstrap.
    repeat (first
              [ apply (emitsP_weaken _ _ _ decisionEvent_not_write),
                  (emitsP_weaken _ _ _ localEvent_decision), assignManagedDriver_emits
              | apply (emitsP_weaken _ _ _ decisionEvent_not_write),
                  shouldBootstrapLoad_emits
              | apply bootstrap_emits
              | trace_step ]).
  - intros c s w1 w2 stamp Hm Hs.
    unfold bootstrapped, bind, this, sys, call. cbn [fst snd].
    fold stamp. rewrite Hm. cbv beta iota. cbn [world trace fst snd].
    rewrite Hs. reflexivity.
  - intros c s w1 w2 w3 w4 e r stamp Hm Hs Hc Hcl.
    unfold bootstrapped, bind, this, sys, call. cbn [fst snd].
    fold stamp. rewrite Hm. cbv beta iota. cbn [world trace fst snd].
    rewrite Hs. cbv beta iota. cbn [world trace fst snd].
    rewrite Hc. cbv beta iota. cbn [world trace fst snd]. rewrite Hcl. reflexivity.
Qed.

(** ** Driver selection *)

Lemma isInitialized_run (d : Driver World) (c : Cluster World) (s : Sys World)
      (r : result bool) (w : World) :
  IsInitialized d (config c) (world s) = (r, w) ->
  isInitialized d (config c) (c, s)
  = Done (r, (c, mkSys w (trace s ++ [EvIsInitialized (EndpointName d)]))).
Proof.
  intros H. unfold isInitialized, sys, call. cbn [fst snd]. rewrite H. reflexivity.
Qed.

Lemma firstInitialized_none (c : Cluster World) (ds : list (Driver World))
      (w w' : World) :
  uninitialized (config c) ds w w' ->
  forall s, world s = w ->
  exists s', firstInitialized (config c) ds (c, s) = Done (Ok None, (c, s'))
             /\ world s' = w'.
Proof.
  induction 1 as [w|d ds w w1 w2 Hd _ IH]; intros s Hw.
  - exists s. split; [reflexivity | exact Hw].
  - subst w. cbn [firstInitialized]. unfold bind.
    rewrite (isInitialized_run d c s _ _ Hd).
    apply IH. reflexivity.
Qed.

Lemma firstInitialized_stops (c : Cluster World) (pre post : list (Driver World))
      (d : Driver World) (w w1 w2 : World) (r : result bool) :
  uninitialized (config c) pre w w1 ->
  IsInitialized d (config c) w1 = (r, w2) ->
  r <> Ok false ->
  forall s, world s = w ->
  exists s', firstInitialized (config c) (pre ++ d :: post) (c, s)
             = Done (match r with
                     | Err e => Err e
                     | Ok _ => Ok (Some d)
                     end, (c, s'))
             /\ world s' = w2.
Proof.
  intros Hpre Hd Hr. induction Hpre as [w|d0 ds w wa wb Hd0 _ IH]; intros s Hw.
  - subst w. cbn [app firstInitialized]. unfold bind.
    rewrite (isInitialized_run d c s _ _ Hd).
    destruct r as [[|]|e]; [| congruence |];
      eexists; (split; [reflexivity|reflexivity]).
  - subst w. cbn [app firstInitialized]. unfold bind.
    rewrite (isInitialized_run d0 c s _ _ Hd0).
    apply IH; [exact Hd | reflexivity].
Qed.

Lemma find_first {A : Type} (f : A -> bool) (pre post : list A) (x : A) :
  Forall (fun y => f y = false) pre -> f x = true -> find f (pre ++ x :: post) = Some x.
Proof.
  induction 1 as [|y pre Hy _ IH]; intros Hx; cbn [app find].
  - rewrite Hx. reflexivity.
  - rewrite Hy. exact (IH Hx).
Qed.

Lemma find_nothing {A : Type} (f : A -> bool) (l : list A) :
  Forall (fun y => f y = false) l -> find f l = None.
Proof. induction 1 as [|y l Hy _ IH]; cbn [find]; [reflexivity | rewrite Hy; exact IH]. Qed.

Lemma find_firstNamed (name : string) (reg : list (Driver World)) (d : Driver World)
      (f : Driver World -> bool) :
  (forall d', f d' = true <-> EndpointName d' = name) ->
  firstNamed name reg d -> find f reg = Some d.
Proof.
  intros Hf [pre [post [-> [Hn Hpre]]]]. apply find_first.
  - eapply Forall_impl; [|exact Hpre]. intros d' Hd'. cbv beta in Hd'.
    destruct (f d') eqn:E; [|reflexivity]. exfalso. apply Hd'. apply Hf. exact E.
  - apply Hf. exact Hn.
Qed.

Lemma find_noneNamed (name : string) (reg : list (Driver World))
      (f : Driver World -> bool) :
  (forall d', f d' = true <-> EndpointName d' = name) ->
  noneNamed name reg -> find f reg = None.
Proof.
  intros Hf Hnone. apply find_nothing.
  eapply Forall_impl; [|exact Hnone]. intros d' Hd'. cbv beta in Hd'.
  destruct (f d') eqn:E; [|reflexivity]. exfalso. apply Hd'. apply Hf. exact E.
Qed.

Lemma SplitN_scheme (endpoint sch : string) :
  schemeOf endpoint sch -> exists tl, strings.SplitN endpoint ":" 2 = sch :: tl.
Proof.
  intros Hs. rewrite strings_facts.SplitN_2.
  destruct (strings.Index endpoint ":") as [m|] eqn:E.
  - destruct (strings_facts.Index_Some _ _ _ E) as [Hcut _].
    destruct Hs as [[rest Hr]|[Hn _]].
    + destruct (strings_facts.first_cut_unique _ _ _ _ _ _ Hcut Hr) as [<- _].
      eexists. reflexivity.
    + exfalso. apply Hn. destruct Hcut as [Hc _]. eexists _, _. exact Hc.
  - destruct Hs as [[rest [Hr _]]|[_ ->]].
    + exfalso. apply (strings_facts.Index_None _ _ E). eexists _, _. exact Hr.
    + eexists. reflexivity.
Qed.

Lemma firstInitialized_inv (cfg : Config) (ds : list (Driver World))
      (c c' : Cluster World) (s s' : Sys World) (r : result (option (Driver World))) :
  firstInitialized cfg ds (c, s) = Done (r, (c', s')) ->
  c' = c
  /\ match r with
     | Ok None => uninitialized cfg ds (world s) (world s')
     | Ok (Some d) =>
         exists pre post w1,
           ds = pre ++ d :: post
           /\ uninitialized cfg pre (world s) w1
           /\ IsInitialized d cfg w1 = (Ok true, world s')
     | Err _ => True
     end.
Proof.
  revert s. induction ds as [|d0 ds IH]; intros s H.
  - injection H as <- <- <-. split; [reflexivity | constructor].
  - cbn [firstInitialized] in H. unfold bind, isInitialized, sys, call in H.
    cbn [fst snd] in H.
    destruct (IsInitialized d0 cfg (world s)) as [[[|]|e] w] eqn:E.
    + injection H as <- <- <-. split; [reflexivity|].
      exists [], ds, (world s). repeat split; [constructor | exact E].
    + destruct (IH _ H) as [-> Hr]. split; [reflexivity|].
      destruct r as [[d|]|e]; [| |exact I].
      * destruct Hr as [pre [post [w1 [-> [Hun Hd]]]]].
        exists (d0 :: pre), post, w1. repeat split; [|exact Hd].
        econstructor; [exact E | exact Hun].
      * econstructor; [exact E | exact Hr].
    + injection H as <- <- <-. split; [reflexivity | exact I].
Qed.

Lemma find_inv {A : Type} (f : A -> bool) (l : list A) (x : A) :
  find f l = Some x ->
  exists pre post, l = pre ++ x :: post /\ f x = true
                   /\ Forall (fun y => f y = false) pre.
Proof.
  induction l as [|y l IH]; cbn [find]; [discriminate|].
  destruct (f y) eqn:E.
  - intros H. injection H as ->. exists [], l. repeat split; [exact E | constructor].
  - intros H. destruct (IH H) as [pre [post [-> [Hx Hpre]]]].
    exists (y :: pre), post. repeat split; [exact Hx | constructor; assumption].
Qed.

Lemma find_nothing_inv {A : Type} (f : A -> bool) (l : list A) :
  find f l = None -> Forall (fun y => f y = false) l.
Proof.
  induction l as [|y l IH]; cbn [find]; [constructor|].
  destruct (f y) eqn:E; [discriminate|]. intros H. constructor; [exact E | exact (IH H)].
Qed.

Lemma firstNamed_of_find (name : string) (reg : list (Driver World)) (d : Driver World)
      (f : Driver World -> bool) :
  (forall d', f d' = true <-> EndpointName d' = name) ->
  find f reg = Some d -> firstNamed name reg d.
Proof.
  intros Hf H. destruct (find_inv f reg d H) as [pre [post [-> [Hd Hpre]]]].
  exists pre, post. repeat split; [apply Hf; exact Hd|].
  eapply Forall_impl; [|exact Hpre]. intros d' Hd' Hn. cbv beta in Hd'.
  apply Hf in Hn. congruence.
Qed.

Lemma noneNamed_of_find (name : string) (reg : list (Driver World))
      (f : Driver World -> bool) :
  (forall d', f d' = true <-> EndpointName d' = name) ->
  find f reg = None -> noneNamed name reg.
Proof.
  intros Hf H. eapply Forall_impl; [|exact (find_nothing_inv f reg H)].
  intros d' Hd' Hn. cbv beta in Hd'. apply Hf in Hn. congruence.
Qed.

Lemma schemeOf_SplitN (endpoint sch : string) (tl : list string) :
  strings.SplitN endpoint ":" 2 = sch :: tl -> schemeOf endpoint sch.
Proof.
  rewrite strings_facts.SplitN_2.
  destruct (strings.Index endpoint ":") as [m|] eqn:E; intros H; injection H as <- _.
  - left. eexists. exact (proj1 (strings_facts.Index_Some _ _ _ E)).
  - right. split; [exact (strings_facts.Index_None _ _ E) | reflexivity].
Qed.

Lemma joinOrInit_bool (cfg : Config) :
  ClusterInit cfg || (negb (Token cfg =? "")%string && negb (JoinURL cfg =? "")%string)
  = true <-> joinOrInit cfg.
Proof.
  unfold joinOrInit. rewrite orb_true_iff, andb_true_iff, !negb_true_iff.
  rewrite !String.eqb_neq. reflexivity.
Qed.

(** [assignManagedDriver] once no driver reports an initialized database. *)
Lemma assignManagedDriver_uninitialized (c : Cluster World) (s : Sys World)
      (w' : World) (sch : string) :
  uninitialized (config c) managed_Registered (world s) w' ->
  schemeOf (DatastoreEndpoint (config c)) sch ->
  exists s',
    world s' = w'
    /\ assignManagedDriver (c, s)
       = match find (fun driver => (sch =? EndpointName driver)%string)
                    managed_Registered with
         | Some d => Done (None, (set_managedDB (Some d) c, s'))
         | None =>
             if (DatastoreEndpoint (config c) =? "")%string
                && (ClusterInit (config c)
                    || (negb (Token (config c) =? "")%string
                        && negb (JoinURL (config c) =? "")%string))
             then match find (fun driver =>
                                (EndpointName driver =? managed_Default)%string)
                             managed_Registered with
                  | Some d => Done (None, (set_managedDB (Some d) c, s'))
                  | None => Done (None, (c, s'))
                  end
             else Done (None, (c, s'))
         end.
Proof.
  intros Hun Hsch.
  destruct (firstInitialized_none c _ _ _ Hun s eq_refl) as [s' [Hf Hw]].
  destruct (SplitN_scheme _ _ Hsch) as [tl Htl].
  exists s'. split; [exact Hw|].
  unfold assignManagedDriver. unfold bind at 1. unfold this at 1. cbn [fst].
  unfold bind at 1. rewrite Hf. rewrite Htl.
  destruct (find _ managed_Registered) as [d|]; [reflexivity|].
  destruct (_ && _); [|reflexivity].
  destruct (find _ managed_Registered) as [d|]; reflexivity.
Qed.

(** C7. Driver selection follows the three steps in strict priority, the
    first match winning: a registered driver that reports an initialized
    database; otherwise a registered driver named as the scheme prefix of
    the datastore endpoint; otherwise, with an empty endpoint and either
    the cluster-init flag or both token and join URL set, the default
    driver; with no match no managed driver is selected.  In particular,
    with no driver initialized, an empty endpoint and the cluster-init
    flag set, the registered default driver is selected.  Conversely,
    whatever [assignManagedDriver] assigns without error is what the
    policy selects.  (A check that fails before any driver reported an
    initialized database ends the selection with that error and selects
    nothing.) *)
Theorem driver_selection_priority (c : Cluster World) (s : Sys World) :
  (forall sel w',
      selects (config c) (world s) sel w' ->
      exists s',
        assignManagedDriver (c, s)
        = Done (None, (match sel with
                       | Some d => set_managedDB (Some d) c
                       | None => c
                       end, s'))
        /\ world s' = w')
  /\ (forall d w',
        uninitialized (config c) managed_Registered (world s) w' ->
        DatastoreEndpoint (config c) = ""%string ->
        ClusterInit (config c) = true ->
        noneNamed "" managed_Registered ->
        firstNamed managed_Default managed_Registered d ->
        exists s',
          assignManagedDriver (c, s) = Done (None, (set_managedDB (Some d) c, s'))
          /\ world s' = w')
  /\ (forall c' s',
        assignManagedDriver (c, s) = Done (None, (c', s')) ->
        exists sel,
          selects (config c) (world s) sel (world s')
          /\ c' = match sel with
                  | Some d => set_managedDB (Some d) c
                  | None => c
                  end)
  /\ (forall pre post d w1 w2 e,
        managed_Registered = pre ++ d :: post ->
        uninitialized (config c) pre (world s) w1 ->
        IsInitialized d (config c) w1 = (Err e, w2) ->
        exists s',
          assignManagedDriver (c, s) = Done (Some e, (c, s')) /\ world s' = w2).
Proof.
  assert (Hname : forall name (d' : Driver World),
             (name =? EndpointName d')%string = true <-> EndpointName d' = name).
  { intros name d'. rewrite String.eqb_eq. split; congruence. }
  assert (Hdef : forall d' : Driver World,
             (EndpointName d' =? managed_Default)%string = true
             <-> EndpointName d' = managed_Default).
  { intros d'. apply String.eqb_eq. }
  assert (Hgen : forall sel w',
             selects (config c) (world s) sel w' ->
             exists s',
               assignManagedDriver (c, s)
               = Done (None, (match sel with
                              | Some d => set_managedDB (Some d) c
                              | None => c
                              end, s'))
               /\ world s' = w').
  { intros sel w' Hsel. destruct Hsel as
        [pre post d w1 w2 Hreg Hpre Hd
        |sch d w1 Hun Hsch Hfirst
        |sch d w1 Hun Hsch Hnone Hempty Hjoin Hfirst
        |sch w1 Hun Hsch Hnone Hno].
    - destruct (firstInitialized_stops c pre post d _ _ _ _ Hpre Hd
                  ltac:(discriminate) s eq_refl) as [s' [Hf Hw]].
      exists s'. split; [|exact Hw].
      unfold assignManagedDriver. unfold bind at 1. unfold this at 1. cbn [fst].
      unfold bind at 1. rewrite Hreg, Hf. reflexivity.
    - destruct (assignManagedDriver_uninitialized c s w1 sch Hun Hsch)
        as [s' [Hw ->]].
      rewrite (find_firstNamed sch _ d _ (Hname sch) Hfirst).
      exists s'. split; [reflexivity | exact Hw].
    - destruct (assignManagedDriver_uninitialized c s w1 sch Hun Hsch)
        as [s' [Hw ->]].
      rewrite (find_noneNamed sch _ _ (Hname sch) Hnone).
      rewrite Hempty. cbn [String.eqb andb].
      rewrite (proj2 (joinOrInit_bool (config c)) Hjoin).
      rewrite (find_firstNamed _ _ d _ Hdef Hfirst).
      exists s'. split; [reflexivity | exact Hw].
    - destruct (assignManagedDriver_uninitialized c s w1 sch Hun Hsch)
        as [s' [Hw ->]].
      rewrite (find_noneNamed sch _ _ (Hname sch) Hnone).
      exists s'. split; [|exact Hw].
      destruct (DatastoreEndpoint (config c) =? "")%string eqn:Ee; [|reflexivity].
      destruct (ClusterInit (config c) || _) eqn:Ej; [|reflexivity].
      cbn [andb].
      destruct (find _ managed_Registered) as [d|] eqn:Ef; [|reflexivity].
      exfalso. apply Hno. split; [apply String.eqb_eq; exact Ee|].
      split; [apply joinOrInit_bool; exact Ej|].
      destruct (find_some _ _ Ef) as [Hin Hd]. exists d. split; [exact Hin|].
      apply Hdef. exact Hd. }
  split; [exact Hgen|]. split; [|split].
  - intros d w' Hun Hempty Hinit Hnone Hfirst.
    apply (Hgen (Some d) w').
    apply (select_default (config c) (world s) "" d w' Hun); auto.
    + right. rewrite Hempty. split; [|reflexivity].
      intros [a [b H]]. destruct a; discriminate H.
    + left. exact Hinit.
  - intros c' s' H. revert H.
    unfold assignManagedDriver. unfold bind at 1. unfold this at 1. cbn [fst].
    unfold bind at 1.
    destruct (firstInitialized (config c) managed_Registered (c, s))
      as [[r [c1 s1]]|] eqn:Ef; [|discriminate].
    destruct (firstInitialized_inv _ _ _ _ _ _ _ Ef) as [-> Hr].
    destruct r as [[d|]|e]; [| |discriminate].
    + intros H. injection H as <- <-.
      destruct Hr as [pre [post [w1 [Hreg [Hun Hd]]]]].
      exists (Some d). split; [|reflexivity].
      exact (select_initialized _ _ pre post d w1 _ Hreg Hun Hd).
    + destruct (strings.SplitN (DatastoreEndpoint (config c)) ":" 2) as [|sch tl] eqn:Es;
        [discriminate|].
      pose proof (schemeOf_SplitN _ _ _ Es) as Hsch.
      destruct (find _ managed_Registered) as [d|] eqn:E2.
      * intros H. injection H as <- <-. exists (Some d). split; [|reflexivity].
        apply (select_endpoint _ _ sch d _ Hr Hsch).
        exact (firstNamed_of_find sch _ d _ (Hname sch) E2).
      * pose proof (noneNamed_of_find sch _ _ (Hname sch) E2) as Hnone.
        destruct (DatastoreEndpoint (config c) =? "")%string eqn:Ee.
        -- destruct (ClusterInit (config c) || _) eqn:Ej; cbn [andb].
           ++ destruct (find (fun driver =>
                                (EndpointName driver =? managed_Default)%string)
                             managed_Registered) as [d|] eqn:E3.
              ** intros H. injection H as <- <-. exists (Some d). split; [|reflexivity].
                 apply (select_default _ _ sch d _ Hr Hsch Hnone).
                 --- apply String.eqb_eq. exact Ee.
                 --- apply joinOrInit_bool. exact Ej.
                 --- exact (firstNamed_of_find _ _ d _ Hdef E3).
              ** intros H. injection H as <- <-. exists None. split; [|reflexivity].
                 apply (select_none _ _ sch _ Hr Hsch Hnone).
                 intros [_ [_ [d [Hin Hd]]]].
                 pose proof (find_none _ _ E3 d Hin) as Hf. cbv beta in Hf.
                 apply Hdef in Hd. congruence.
           ++ intros H. injection H as <- <-. exists None. split; [|reflexivity].
              apply (select_none _ _ sch _ Hr Hsch Hnone).
              intros [_ [Hj _]]. apply joinOrInit_bool in Hj. congruence.
        -- cbn [andb]. intros H. injection H as <- <-. exists None.
           split; [|reflexivity].
           apply (select_none _ _ sch _ Hr Hsch Hnone).
           intros [He _]. apply String.eqb_neq in Ee. exact (Ee He).
  - intros pre post d w1 w2 e Hreg Hpre Hd.
    destruct (firstInitialized_stops c pre post d _ _ _ _ Hpre Hd
                ltac:(discriminate) s eq_refl) as [s' [Hf Hw]].
    exists s'. split; [|exact Hw].
    unfold assignManagedDriver. unfold bind at 1. unfold this at 1. cbn [fst].
    unfold bind at 1. rewrite Hreg, Hf. reflexivity.
Qed.

(** ** The fetch paths *)

(** The request of the HTTP fetch carries the credentials of the access
    info, so it is a [fetchEvent]; so are the decoding of the answer and
    the load from the datastore. *)
Lemma Get_bootstrap_emits (info : clientaccess.Info) :
  clientaccess.Username info <> ""%string ->
  emits fetchEvent (clientaccess.Get bootstrapPath (Some info)).
Proof.
  intros Hu. unfold clientaccess.Get.
  destruct (url_Parse (clientaccess.BaseURL info)) as [u|e]; [|apply emits_ret].
  eapply emits_weaken; [|apply get_emits].
  intros ev ->. left. rewrite (eqb_empty_false _ Hu).
  eexists _, u, _. reflexivity.
Qed.

Lemma bootstrap_fetches_only (c : Cluster World) :
  (HTTPBootstrap c = false
   \/ exists info, clientAccessInfo c = Some info
                   /\ clientaccess.Username info <> ""%string) ->
  forall s r c' s', bootstrap (c, s) = Done (r, (c', s')) -> grows fetchEvent s s'.
Proof.
  intros Hc s r c' s' H. unfold bootstrap in H.
  unfold bind at 1 in H. unfold update at 1 in H. cbn [fst snd] in H.
  unfold bind at 1 in H. unfold this at 1 in H. cbn [fst snd] in H.
  change (HTTPBootstrap (set_joining true c)) with (HTTPBootstrap c) in H.
  destruct (HTTPBootstrap c) eqn:Eh.
  - destruct Hc as [Hc|[info [Hi Hu]]]; [discriminate|].
    revert H. unfold httpBootstrap.
    unfold bind at 1. unfold this at 1. cbn [fst snd].
    change (clientAccessInfo (set_joining true c)) with (clientAccessInfo c).
    rewrite Hi. intros H.
    refine (@emitsP_bind World _ _ fetchEvent _ _ _ _ _ _ _ _ _ H).
    + apply emitsP_sys. apply Get_bootstrap_emits. exact Hu.
    + intros [content|e]; repeat trace_step. right. left. reflexivity.
  - refine (@emitsP_bind World _ _ fetchEvent _ _ _ _ _ _ _ _ _ H).
    + repeat trace_step. right. right. reflexivity.
    + intros [e|]; apply emitsP_ret.
Qed.

(** The access info that validation hands to the HTTP fetch carries the
    user name it was asked for. *)
Lemma ParseAndValidateTokenForUser_username
      (server token user : string) (s s' : Sys World) (info : clientaccess.Info) :
  clientaccess.ParseAndValidateTokenForUser server token user s = Done (Ok info, s') ->
  clientaccess.Username info = user.
Proof.
  unfold clientaccess.ParseAndValidateTokenForUser.
  destruct (clientaccess.parseToken token) as [i0|e]; [|discriminate].
  unfold bind.
  destruct (clientaccess.setServer _ server s) as [[[e i1] s1]|] eqn:E; [|discriminate].
  destruct (setServer_keeps_token _ _ _ _ _ _ E) as [_ [Hu _]].
  destruct e as [e|]; [discriminate|].
  destruct (negb _); [destruct (clientaccess.validateCAHash i1)|];
    intros H; try discriminate; injection H as <- _; exact Hu.
Qed.

(** ** [Bootstrap] returns *)

Lemma getCACerts_total (u : URL) (s : Sys World) :
  exists r s', clientaccess.getCACerts u s = Done (r, s').
Proof.
  unfold clientaccess.getCACerts, bind.
  destruct (get_total (URL_String (URL_withPath u "/cacerts")) DefaultClient "" "" s)
    as [r1 [s1 ->]].
  destruct r1 as [b|e]; [eexists _, _; reflexivity|].
  destruct (get_total (URL_String (URL_withPath u "/cacerts")) insecureClient "" "" s1)
    as [r2 [s2 ->]].
  destruct r2 as [ca|e2]; [|eexists _, _; reflexivity].
  destruct (get_total (URL_String (URL_withPath u "/cacerts"))
              (clientaccess.GetHTTPClient ca) "" "" s2) as [r3 [s3 ->]].
  destruct r3; eexists _, _; reflexivity.
Qed.

Lemma ParseAndValidateTokenForUser_total (server token user : string) (s : Sys World) :
  exists r s', clientaccess.ParseAndValidateTokenForUser server token user s = Done (r, s').
Proof.
  unfold clientaccess.ParseAndValidateTokenForUser.
  destruct (clientaccess.parseToken token) as [i0|e]; [|eexists _, _; reflexivity].
  unfold bind, clientaccess.setServer.
  destruct (url_Parse server) as [u|e]; [|eexists _, _; reflexivity].
  destruct (negb (Scheme u =? "https")%string); [eexists _, _; reflexivity|].
  unfold bind.
  destruct (getCACerts_total
              (URL_withPath u (clientaccess.trimSlashes (String.length (Path u)) (Path u)))
              s) as [r [s1 ->]].
  destruct r as [ca|e]; [|eexists _, _; reflexivity].
  unfold ret. cbv beta iota.
  destruct (negb (clientaccess.caHash _ =? "")%string);
    [destruct (clientaccess.validateCAHash _)|];
    eexists _, _; reflexivity.
Qed.

Lemma firstInitialized_total (cfg : Config) (ds : list (Driver World))
      (c : Cluster World) (s : Sys World) :
  exists r s', firstInitialized cfg ds (c, s) = Done (r, (c, s')).
Proof.
  revert s. induction ds as [|d ds IH]; intros s.
  - eexists _, _. reflexivity.
  - cbn [firstInitialized]. unfold bind, isInitialized, sys, call. cbn [fst snd].
    destruct (IsInitialized d cfg (world s)) as [[[|]|e] w];
      [eexists _, _; reflexivity | apply IH | eexists _, _; reflexivity].
Qed.

(** [assignManagedDriver] returns, and touches nothing but [managedDB]. *)
Lemma assignManagedDriver_total (c : Cluster World) (s : Sys World) :
  exists r c' s',
    assignManagedDriver (c, s) = Done (r, (c', s'))
    /\ exists d, c' = set_managedDB d c.
Proof.
  assert (Hsame : c = set_managedDB (managedDB c) c) by (destruct c; reflexivity).
  unfold assignManagedDriver. unfold bind at 1. unfold this at 1. cbn [fst].
  unfold bind at 1.
  destruct (firstInitialized_total (config c) managed_Registered c s) as [r [s1 ->]].
  destruct r as [[d|]|e].
  - eexists _, _, _. split; [reflexivity|]. eexists. reflexivity.
  - destruct (strings.SplitN (DatastoreEndpoint (config c)) ":" 2) as [|ty tl] eqn:E;
      [exfalso; exact (strings_facts.SplitN_2_nonempty _ _ _ E)|].
    destruct (find _ managed_Registered) as [d|].
    + eexists _, _, _. split; [reflexivity|]. eexists. reflexivity.
    + destruct (_ && _).
      * destruct (find _ managed_Registered) as [d|];
          eexists _, _, _; (split; [reflexivity|]);
          [eexists; reflexivity | exists (managedDB c); exact Hsame].
      * eexists _, _, _. split; [reflexivity|]. exists (managedDB c). exact Hsame.
  - eexists _, _, _. split; [reflexivity|]. exists (managedDB c). exact Hsame.
Qed.

Lemma checkStamp_total (c : Cluster World) (s : Sys World) :
  exists r s', checkStamp (c, s) = Done (r, (c, s')).
Proof.
  destruct (os_Stat (bootstrapStamp c) (world s)) as [[e|] w] eqn:E.
  - rewrite (checkStamp_absent _ _ _ _ E). eexists _, _. reflexivity.
  - rewrite (checkStamp_present _ _ _ E). eexists _, _. reflexivity.
Qed.

(** [shouldBootstrapLoad] returns; when it decides to fetch over HTTP,
    the access info is there. *)
Lemma shouldBootstrapLoad_total (c : Cluster World) (s : Sys World) :
  exists r c' s',
    shouldBootstrapLoad (c, s) = Done (r, (c', s'))
    /\ (HTTPBootstrap c' = true ->
        HTTPBootstrap c = true \/ fst r = false \/ clientAccessInfo c' <> None).
Proof.
  destruct (managedDB c) as [db|] eqn:Edb.
  - destruct (JoinURL (config c) =? "")%string eqn:Eu.
    + unfold shouldBootstrapLoad. unfold bind at 1. unfold this at 1. cbn [fst].
      rewrite Edb. unfold bind, update. cbn [fst snd].
      change (config (set_HTTPBootstrap true c)) with (config c). rewrite Eu.
      eexists _, _, _. split; [reflexivity|]. intros _. right. left. reflexivity.
    + apply String.eqb_neq in Eu.
      destruct (ParseAndValidateTokenForUser_total
                  (JoinURL (config c)) (Token (config c)) "server" s) as [r [s2 Hv]].
      rewrite (shouldBootstrapLoad_validates c s s2 db r Edb Eu Hv).
      destruct r as [info|err].
      * destruct (checkStamp_total
                    (set_clientAccessInfo (Some info) (set_HTTPBootstrap true c)) s2)
          as [r [s3 ->]].
        eexists _, _, _. split; [reflexivity|]. intros _. right. right. discriminate.
      * destruct (errors.Is err ErrServiceUnavailable).
        -- unfold bind, isInitialized, sys, call, logrus. cbn [fst snd].
           destruct (IsInitialized db _ (world s2)) as [[[|]|e] w];
             eexists _, _, _; (split; [reflexivity|]); intros _; right; left;
             reflexivity.
        -- eexists _, _, _. split; [reflexivity|]. intros _. right. left. reflexivity.
  - rewrite (shouldBootstrapLoad_unmanaged c s Edb).
    destruct (checkStamp_total c s) as [r [s' ->]].
    eexists _, _, _. split; [reflexivity|]. intros H. left. exact H.
Qed.

(** On a cluster whose HTTP flag is not yet set, as the process builds
    it, [Bootstrap] always returns: it does not panic. *)
Lemma Bootstrap_returns (c : Cluster World) (s : Sys World) :
  HTTPBootstrap c = false ->
  exists r st, Bootstrap (c, s) = Done (r, st).
Proof.
  intros Hh.
  destruct (assignManagedDriver_total c s) as [r [c1 [s1 [H1 [d Hd]]]]].
  destruct r as [e|].
  - unfold Bootstrap, bind. rewrite H1. eexists _, _. reflexivity.
  - destruct (shouldBootstrapLoad_total c1 s1) as [[b e] [c2 [s2 [H2 Hinfo]]]].
    destruct e as [e|].
    + rewrite (Bootstrap_fails _ _ _ _ _ _ _ _ H1 H2). eexists _, _. reflexivity.
    + destruct b.
      * rewrite (Bootstrap_fetches _ _ _ _ _ _ H1 H2).
        pose proof (bootstrap_sets_joining (set_shouldBootstrap true c2) s2) as Hj.
        destruct (bootstrap (set_shouldBootstrap true c2, s2)) as [[e st]|].
        -- eexists _, _. reflexivity.
        -- exfalso. destruct Hj as [Ht Hn].
           change (HTTPBootstrap (set_shouldBootstrap true c2))
             with (HTTPBootstrap c2) in Ht.
           change (clientAccessInfo (set_shouldBootstrap true c2))
             with (clientAccessInfo c2) in Hn.
           destruct (Hinfo Ht) as [Hc|[Hc|Hc]].
           ++ subst c1. cbn in Hc. congruence.
           ++ discriminate Hc.
           ++ exact (Hc Hn).
      * destruct (Bootstrap_skips _ _ _ _ _ _ H1 H2) as [-> _].
        eexists _, _. reflexivity.
Qed.

End OrchestrationFacts.

(* ------------------------------------------------------------------ *)
(** ** Concrete runs *)

(** A member of a cluster that has lost quorum: the peer answers 503,
    the local etcd database is initialized. *)
Lemma quorum_loss_bypass_witness :
  let cfg := cluster.mkConfig "https://peer:6443/" "K10abc::server:pw"
               "/var/lib/k3s" "" false in
  let w := sim.mkWorld [] sim.unavailable [Ok true; Ok true] None in
  exists c' s',
    sim.run sim.etcd cfg w = Done (None, (c', s'))
    /\ grows (@decisionEvent sim.World sim.platform) (mkSys w []) s'
    /\ grows (fun ev => ~ @fetchEvent sim.World sim.platform sim.etcd ev)
         (mkSys w []) s'.
Proof.
  cbv zeta. eexists _, _.
  eapply (@quorum_loss_bypass sim.World sim.platform sim.etcd).
  - vm_compute. reflexivity.
  - vm_compute. reflexivity.
  - vm_compute. discriminate.
  - vm_compute. reflexivity.
  - vm_compute. reflexivity.
  - vm_compute. reflexivity.
Defined.

(** The same member, but the check of the local database fails: the
    error of token validation comes back. *)
Lemma bypass_not_taken_when_check_fails_witness :
  let cfg := cluster.mkConfig "https://peer:6443/" "K10abc::server:pw"
               "/var/lib/k3s" "" false in
  let w := sim.mkWorld [] sim.unavailable
             [Ok true;
              Err (errorString "open /var/lib/k3s/server/db/etcd: permission denied")]
             None in
  exists st,
    sim.run sim.etcd cfg w
    = Done (Some (errors.Wrap ErrServiceUnavailable "failed to get CA certs"), st).
Proof.
  cbv zeta. eexists. eapply proj2.
  eapply (@bypass_not_taken_when_check_fails sim.World sim.platform sim.etcd).
  - vm_compute. reflexivity.
  - vm_compute. reflexivity.
  - vm_compute. discriminate.
  - vm_compute. reflexivity.
  - vm_compute. reflexivity.
  - vm_compute. reflexivity.
Defined.

(** A token that pins the hash "abc123" against a peer whose bundle
    hashes to something else. *)
Lemma ca_hash_mismatch_is_fatal_witness :
  let cfg := cluster.mkConfig "https://peer:6443" "K10abc123::server:pw"
               "/var/lib/k3s" "" false in
  let w := sim.mkWorld [] (sim.selfSigned "CA" "data") [] None in
  exists st declared computed,
    sim.run sim.etcd cfg w = Done (Some (hashMismatch declared computed), st)
    /\ declared = "abc123"%string
    /\ computed
       = "4b650e5c4785025dee7bd65e3c5c527356717d7a1c0bfef5b4ada8ca1e9cbe17"%string
    /\ errors.Error (hashMismatch declared computed)
       = "token CA hash does not match the server CA hash: abc123 != 4b650e5c4785025dee7bd65e3c5c527356717d7a1c0bfef5b4ada8ca1e9cbe17"%string.
Proof.
  cbv zeta. eexists _, _, _. split.
  - eapply proj1, proj2, proj2.
    eapply (@ca_hash_mismatch_is_fatal sim.World sim.platform sim.etcd).
    + vm_compute. reflexivity.
    + vm_compute. reflexivity.
    + vm_compute. discriminate.
    + vm_compute. reflexivity.
    + vm_compute. discriminate.
    + vm_compute. reflexivity.
    + vm_compute. discriminate.
  - repeat split; vm_compute; reflexivity.
Defined.

(** C2 as the specification words it fails when a managed driver is
    assigned and a join URL is configured: the stamp of the token is on
    disk, yet the token is validated first.  Against a failing peer
    [Bootstrap] returns the error of trust establishment after two
    [/cacerts] requests; against a healthy peer it returns no error, but
    only after three of them. *)
Lemma stamp_present_yet_cacerts_requested :
  let cfg := cluster.mkConfig "https://peer:6443" "secret" "/var/lib/k3s" "" false in
  let stamp := "/var/lib/k3s/db/joined-2bb80d537b1d"%string in
  let down := sim.mkWorld [stamp] sim.failing [] None in
  let up := sim.mkWorld [stamp] (sim.selfSigned "CA" "data") [] None in
  @cluster.bootstrapStamp sim.World sim.platform sim.etcd (sim.newCluster cfg) = stamp
  /\ @os_Stat sim.World sim.platform stamp down = (None, down)
  /\ sim.returned (sim.run sim.etcd cfg down)
     = Some (Some (errors.Wrap
                     (errorString "https://peer:6443/cacerts: 500 Internal Server Error")
                     "failed to get CA certs"))
  /\ sim.requested (sim.run sim.etcd cfg down)
     = ["https://peer:6443/cacerts"; "https://peer:6443/cacerts"]%string
  /\ @os_Stat sim.World sim.platform stamp up = (None, up)
  /\ sim.returned (sim.run sim.etcd cfg up) = Some None
  /\ sim.requested (sim.run sim.etcd cfg up)
     = ["https://peer:6443/cacerts"; "https://peer:6443/cacerts";
        "https://peer:6443/cacerts"]%string.
Proof. cbv zeta. repeat split; vm_compute; reflexivity. Qed.

(** The stamp is on disk: a node without managed driver is silent, and a
    node with one validates the token and fetches nothing. *)
Lemma stamp_present_skips_fetch_witness :
  let stamp := "/var/lib/k3s/db/joined-2bb80d537b1d"%string in
  let external := cluster.mkConfig "" "secret" "/var/lib/k3s"
                    "mysql://k3s@tcp(db:3306)/k3s" false in
  let joiner := cluster.mkConfig "https://peer:6443" "secret" "/var/lib/k3s" "" false in
  let w := sim.mkWorld [stamp] (sim.selfSigned "CA" "data") [] None in
  (exists c' s',
      sim.run sim.unmanaged external w = Done (None, (c', s'))
      /\ grows (fun ev => ~ networkEvent ev) (mkSys w []) s')
  /\ (exists c' s',
        sim.run sim.etcd joiner w = Done (None, (c', s'))
        /\ grows (fun ev => ~ @fetchEvent sim.World sim.platform sim.etcd ev)
             (mkSys w []) s').
Proof.
  intros stamp external joiner w. split.
  - eassert (H1 : @cluster.assignManagedDriver sim.World sim.unmanaged
                    (sim.newCluster external, mkSys w []) = Done (None, (_, _))).
    2: eapply (proj1 (@stamp_present_skips_fetch sim.World sim.platform sim.unmanaged
                        _ _ _ _ H1)).
    + vm_compute. reflexivity.
    + vm_compute. reflexivity.
    + vm_compute. reflexivity.
  - eassert (H1 : @cluster.assignManagedDriver sim.World sim.etcd
                    (sim.newCluster joiner, mkSys w []) = Done (None, (_, _))).
    2: edestruct (proj2 (@stamp_present_skips_fetch sim.World sim.platform sim.etcd
                           _ _ _ _ H1)) as [c' [s' [Hb [_ [_ Hg]]]]].
    + vm_compute. reflexivity.
    + vm_compute. reflexivity.
    + vm_compute. discriminate.
    + vm_compute. reflexivity.
    + vm_compute. reflexivity.
    + exists c', s'. split; [exact Hb | exact Hg].
Defined.

(** C8 as the specification words it fails: no managed driver is
    assigned, an external datastore endpoint is configured, no token is
    configured, and [Bootstrap] returns no error; it looks for the stamp
    and loads from the datastore. *)
Lemma missing_token_not_fatal_without_driver :
  let cfg := cluster.mkConfig "" "" "/var/lib/k3s" "mysql://k3s@tcp(db:3306)/k3s" false in
  let w := sim.mkWorld [] sim.failing [] None in
  exists c' s',
    sim.run sim.unmanaged cfg w = Done (None, (c', s'))
    /\ cluster.managedDB c' = None
    /\ cluster.Token (cluster.config c') = ""%string
    /\ trace s' = [EvStat "/var/lib/k3s/db/joined-e3b0c44298fc"; EvStorageBootstrap].
Proof. cbv zeta. eexists _, _. repeat split; vm_compute; reflexivity. Qed.

(** A founder-to-be with a join URL and no token: the default driver is
    assigned, the (empty) token validates against the peer, no stamp is
    found, and the missing token is fatal. *)
Lemma missing_token_is_fatal_with_managed_driver_witness :
  let cfg := cluster.mkConfig "https://peer:6443" "" "/var/lib/k3s" "" true in
  let w := sim.mkWorld [] (sim.selfSigned "CA" "data") [] None in
  exists st,
    sim.run sim.etcd cfg w
    = Done (Some (@cluster.missingToken sim.World sim.etcd), st)
    /\ errors.Error (@cluster.missingToken sim.World sim.etcd)
       = "K3S_TOKEN is required to join a cluster"%string.
Proof.
  intros cfg w.
  eassert (H1 : @cluster.assignManagedDriver sim.World sim.etcd
                  (sim.newCluster cfg, mkSys w []) = Done (None, (_, _))).
  2: edestruct (proj1 (@missing_token_is_fatal_with_managed_driver
                         sim.World sim.platform sim.etcd _ _ _ _ H1))
       as [Hb Hmsg].
  - vm_compute. reflexivity.
  - vm_compute. reflexivity.
  - vm_compute. discriminate.
  - vm_compute. reflexivity.
  - vm_compute. reflexivity.
  - vm_compute. reflexivity.
  - eexists. split; [exact Hb | vm_compute; reflexivity].
Defined.

(** C9 as the specification words it fails: the HTTP fetch is tried and
    fails, [Bootstrap] returns its error, and yet the joining flag is up;
    no stamp was written. *)
Lemma joining_set_though_fetch_failed :
  let cfg := cluster.mkConfig "https://peer:6443" "secret" "/var/lib/k3s" "" false in
  let w := sim.mkWorld [] (sim.brokenBootstrap "CA") [] None in
  exists c' s',
    sim.run sim.etcd cfg w
    = Done (Some (errorString
                    "https://peer:6443/v1-k3s/server-bootstrap: 500 Internal Server Error"),
            (c', s'))
    /\ cluster.joining c' = true
    /\ sim.files (world s') = [].
Proof.
  cbv zeta. eexists _, _.
  split; [vm_compute; reflexivity|].
  split; [vm_compute; reflexivity|].
  vm_compute; reflexivity.
Qed.

(** The flag after a failed fetch, and the stamp touched twice in a row:
    the first call creates it, the second finds it and creates nothing. *)
Lemma joining_records_the_attempt_witness :
  let cfg := cluster.mkConfig "https://peer:6443" "secret" "/var/lib/k3s" "" false in
  let w := sim.mkWorld [] (sim.brokenBootstrap "CA") [] None in
  let c := sim.newCluster cfg in
  let stamp := "/var/lib/k3s/db/joined-2bb80d537b1d"%string in
  match sim.run sim.etcd cfg w with
  | Done (_, (c', _)) => cluster.joining c' = true
  | Panicked _ => False
  end
  /\ exists s1 s2,
      @cluster.bootstrapped sim.World sim.platform sim.etcd (c, mkSys w [])
      = Done (None, (c, s1))
      /\ @cluster.bootstrapped sim.World sim.platform sim.etcd (c, s1)
         = Done (None, (c, s2))
      /\ trace s2 = [EvMkdirAll "/var/lib/k3s/db"; EvStat stamp; EvCreate stamp;
                     EvClose stamp; EvMkdirAll "/var/lib/k3s/db"; EvStat stamp].
Proof.
  intros cfg w c stamp.
  pose proof (@joining_records_the_attempt sim.World sim.platform sim.etcd)
    as [Hflag [_ [Hkeep Hcreate]]].
  split.
  - eassert (H1 : @cluster.assignManagedDriver sim.World sim.etcd
                    (c, mkSys w []) = Done (None, (_, _)))
      by (vm_compute; reflexivity).
    match type of H1 with
    | _ = Done (None, ?st) =>
        eassert (H2 : @cluster.shouldBootstrapLoad sim.World sim.platform sim.etcd st
                      = Done ((true, None), (_, _)))
          by (vm_compute; reflexivity)
    end.
    pose proof (Hflag _ _ _ _ _ _ H1 H2) as Hj.
    change (sim.run sim.etcd cfg w)
      with (@cluster.Bootstrap sim.World sim.platform sim.etcd (c, mkSys w [])).
    destruct (@cluster.Bootstrap sim.World sim.platform sim.etcd (c, mkSys w []))
      as [[e [c' s']]|];
      [exact Hj | destruct Hj as [_ Hc]; vm_compute in Hc; discriminate Hc].
  - eexists _, _. split; [|split].
    + eapply Hcreate.
      * vm_compute. reflexivity.
      * vm_compute. reflexivity.
      * vm_compute. reflexivity.
      * vm_compute. reflexivity.
    + eapply Hkeep.
      * vm_compute. reflexivity.
      * vm_compute. reflexivity.
    + vm_compute. reflexivity.
Defined.

(** A new server with the cluster-init flag and no datastore endpoint
    gets the default driver; a server pointed at an [etcd://] endpoint
    gets the driver of that name. *)
Lemma driver_selection_priority_witness :
  let init := cluster.mkConfig "" "" "/var/lib/k3s" "" true in
  let named := cluster.mkConfig "" "" "/var/lib/k3s" "etcd://10.0.0.1:2379" false in
  let w := sim.mkWorld [] sim.failing [] None in
  (exists s',
      @cluster.assignManagedDriver sim.World sim.etcd (sim.newCluster init, mkSys w [])
      = Done (None, (cluster.set_managedDB (Some (sim.driver "etcd"))
                       (sim.newCluster init), s')))
  /\ (exists s',
        @cluster.assignManagedDriver sim.World sim.etcd (sim.newCluster named, mkSys w [])
        = Done (None, (cluster.set_managedDB (Some (sim.driver "etcd"))
                         (sim.newCluster named), s'))).
Proof.
  intros init named w.
  assert (Hun : forall cfg,
             @uninitialized sim.World cfg
               (@cluster.managed_Registered sim.World sim.etcd) w w).
  { intros cfg. eapply uninitialized_cons; [reflexivity | apply uninitialized_nil]. }
  assert (Hfirst : @firstNamed sim.World "etcd"
                     (@cluster.managed_Registered sim.World sim.etcd)
                     (sim.driver "etcd")).
  { exists [], []. repeat split. constructor. }
  split.
  - destruct (proj1 (proj2 (@driver_selection_priority sim.World sim.etcd
                              (sim.newCluster init) (mkSys w [])))
                (sim.driver "etcd") w (Hun init) eq_refl eq_refl) as [s' [H _]].
    + repeat constructor. discriminate.
    + exact Hfirst.
    + exists s'. exact H.
  - destruct (proj1 (@driver_selection_priority sim.World sim.etcd
                       (sim.newCluster named) (mkSys w []))
                (Some (sim.driver "etcd")) w) as [s' [H _]].
    + apply (select_endpoint named w "etcd" (sim.driver "etcd") w (Hun named)).
      * left. exists "//10.0.0.1:2379"%string. split; [reflexivity|].
        intros a' b' H. destruct a' as [|x0 [|x1 [|x2 [|x3 a']]]]; simpl;
          try lia; discriminate H.
      * exact Hfirst.
    + exists s'. exact H.
Defined.

(* ------------------------------------------------------------------ *)
(** * Further properties of the token codec *)

Section CodecMore.
Import strings spec strings_facts.
Local Open Scope string_scope.

(** What precedes a first cut at a one-character separator holds no
    such character. *)
Lemma first_cut_avoids (c : ascii) (a s b : string) :
  first_cut (String c "") s a b -> ~ In c (list_ascii_of_string a).
Proof.
  revert s. induction a as [|x a IH]; intros s [Hs Hmin]; [simpl; tauto|].
  simpl. intros [Hx|Hin].
  - subst x. specialize (Hmin "" (a ++ String c "" ++ b) Hs). simpl in Hmin. lia.
  - destruct s as [|y s]; [discriminate|]. injection Hs as _ Hs.
    apply (IH s); [|exact Hin]. split; [exact Hs|].
    intros a' b' H'. assert (Hc : String y s = String y a' ++ String c "" ++ b').
    { change (String y s = String y (a' ++ String c "" ++ b')). f_equal. exact H'. }
    specialize (Hmin _ _ Hc). simpl in Hmin. lia.
Qed.

(** A token with the tag that decodes, taken apart. *)
Lemma parseToken_tagged_inv (t : string) (d : clientaccess.Info) :
  clientaccess.parseToken (clientaccess.tokenPrefix ++ t) = Ok d ->
  clientaccess.CACerts d = [] /\ clientaccess.BaseURL d = ""
  /\ ~ In ":"%char (list_ascii_of_string (clientaccess.Username d))
  /\ ((first_cut "::" t (clientaccess.caHash d)
         (clientaccess.Username d ++ ":" ++ clientaccess.Password d))
      \/ (~ occurs "::" t /\ clientaccess.caHash d = ""
          /\ t = clientaccess.Username d ++ ":" ++ clientaccess.Password d)).
Proof.
  rewrite codec.parseToken_tagged.
  destruct (Index t "::") as [m|] eqn:Em; cbv zeta iota beta.
  - destruct (Index (sliceFrom (m + 2) t) ":") as [k|] eqn:Ek; [|discriminate].
    intros H. injection H as <-. cbn [clientaccess.CACerts clientaccess.BaseURL
      clientaccess.Username clientaccess.Password clientaccess.caHash].
    destruct (Index_Some _ _ _ Ek) as [Hcut _].
    destruct (Index_Some _ _ _ Em) as [Hcut2 _].
    repeat split; [exact (first_cut_avoids _ _ _ _ Hcut)|].
    left. destruct Hcut as [Hr _]. change (k + String.length ":") with (k + 1) in Hr.
    rewrite <- Hr. exact Hcut2.
  - destruct (Index t ":") as [k|] eqn:Ek; [|discriminate].
    intros H. injection H as <-. cbn [clientaccess.CACerts clientaccess.BaseURL
      clientaccess.Username clientaccess.Password clientaccess.caHash].
    destruct (Index_Some _ _ _ Ek) as [Hcut _].
    repeat split; [exact (first_cut_avoids _ _ _ _ Hcut)|].
    right. split; [exact (Index_None _ _ Em)|]. split; [reflexivity|].
    destruct Hcut as [Hr _]. exact Hr.
Qed.

(** X1. Formatting then parsing: for every hash segment and user name
    without ":" and every password, the token
    [K10<hash>::<user>:<password>] decodes to exactly these three parts. *)
Theorem parseToken_inverts_tokenFormat (h u p : string) :
  ~ In ":"%char (list_ascii_of_string h) ->
  ~ In ":"%char (list_ascii_of_string u) ->
  clientaccess.parseToken (clientaccess.tokenFormat clientaccess.tokenPrefix h u p)
  = Ok (clientaccess.mkInfo [] "" u p h).
Proof.
  intros Hh Hu. unfold clientaccess.tokenFormat. rewrite codec.parseToken_tagged.
  rewrite (Index_skip h (u ++ ":" ++ p) ":" ":"%char Hh). cbv zeta iota beta.
  rewrite (sliceFrom_app h ("::" ++ u ++ ":" ++ p) 2).
  change (sliceFrom 2 ("::" ++ u ++ ":" ++ p)) with (sliceFrom 0 (u ++ ":" ++ p)).
  rewrite sliceFrom_0, (Index_skip u p "" ":"%char Hu), !sliceTo_app.
  rewrite (sliceFrom_app u (":" ++ p) 1).
  change (sliceFrom 1 (":" ++ p)) with (sliceFrom 0 p).
  rewrite sliceFrom_0. reflexivity.
Qed.

(** An operator's token that pins a CA hash, with a password full of
    separators. *)
Lemma parseToken_inverts_tokenFormat_witness :
  clientaccess.parseToken "K10deadbeef::alice:s3:cr::et"
  = Ok (clientaccess.mkInfo [] "" "alice" "s3:cr::et" "deadbeef").
Proof.
  apply (parseToken_inverts_tokenFormat "deadbeef" "alice" "s3:cr::et").
  - simpl. intros H. repeat (destruct H as [H|H]; [discriminate H|]). exact H.
  - simpl. intros H. repeat (destruct H as [H|H]; [discriminate H|]). exact H.
Defined.

(** X2. The string of an Info always decodes, whatever its user name
    and password hold: the decoded CA hash is the hash of the bundle, the
    decoded user name and password joined by ":" are the original ones
    joined by ":", the decoded user name holds no ":", and neither the
    bundle nor the base URL travel in the token. *)
Theorem String_always_decodes (info : clientaccess.Info) :
  exists d,
    clientaccess.parseToken (clientaccess.String info) = Ok d
    /\ clientaccess.caHash d = clientaccess.hashCA (clientaccess.CACerts info)
    /\ clientaccess.Username d ++ ":" ++ clientaccess.Password d
       = clientaccess.Username info ++ ":" ++ clientaccess.Password info
    /\ ~ In ":"%char (list_ascii_of_string (clientaccess.Username d))
    /\ clientaccess.CACerts d = [] /\ clientaccess.BaseURL d = "".
Proof.
  set (hash := clientaccess.hashCA (clientaccess.CACerts info)).
  set (rest := clientaccess.Username info ++ ":" ++ clientaccess.Password info).
  assert (Hs : clientaccess.String info = clientaccess.tokenPrefix ++ hash ++ "::" ++ rest)
    by reflexivity.
  assert (Hcut : first_cut "::" (hash ++ "::" ++ rest) hash rest).
  { pose proof (Index_skip hash rest ":" ":"%char (hex_no_colon _)) as Hi.
    destruct (Index_Some _ _ _ Hi) as [Hc _].
    rewrite sliceTo_app in Hc.
    rewrite (sliceFrom_app hash ("::" ++ rest) (String.length "::")) in Hc.
    exact Hc. }
  destruct (Index_occurs rest ":") as [k Hk];
    [exists (clientaccess.Username info), (clientaccess.Password info); reflexivity|].
  assert (Hp : clientaccess.parseToken (clientaccess.String info)
               = Ok (clientaccess.mkInfo [] "" (sliceTo k rest)
                       (sliceFrom (k + 1) rest) hash)).
  { rewrite Hs, codec.parseToken_tagged.
    rewrite (Index_skip hash rest ":" ":"%char (hex_no_colon _)). cbv zeta iota beta.
    rewrite (sliceFrom_app hash ("::" ++ rest) 2).
    change (sliceFrom 2 ("::" ++ rest)) with (sliceFrom 0 rest).
    rewrite sliceFrom_0, Hk, sliceTo_app. reflexivity. }
  eexists. split; [exact Hp|].
  destruct (Index_Some _ _ _ Hk) as [Hc _].
  cbn [clientaccess.CACerts clientaccess.BaseURL clientaccess.Username
         clientaccess.Password clientaccess.caHash].
  repeat split.
  - symmetry. exact (proj1 Hc).
  - exact (first_cut_avoids _ _ _ _ Hc).
Qed.

(** X3. Parsing then formatting: a token with the tag that decodes is
    the tag, the decoded hash and "::" when the token holds a "::", and
    then the decoded user name, ":" and the decoded password; the decoded
    user name never holds a ":".  A token without "::" decodes with an
    empty hash. *)
Theorem parsed_token_reassembles (t : string) (d : clientaccess.Info) :
  clientaccess.parseToken (clientaccess.tokenPrefix ++ t) = Ok d ->
  ~ In ":"%char (list_ascii_of_string (clientaccess.Username d))
  /\ (occurs "::" t ->
      clientaccess.tokenPrefix ++ t
      = clientaccess.tokenFormat clientaccess.tokenPrefix (clientaccess.caHash d)
          (clientaccess.Username d) (clientaccess.Password d))
  /\ (~ occurs "::" t ->
      clientaccess.caHash d = ""
      /\ t = clientaccess.Username d ++ ":" ++ clientaccess.Password d).
Proof.
  intros H. destruct (parseToken_tagged_inv t d H) as [_ [_ [Hu Hc]]].
  split; [exact Hu|]. split.
  - intros Ho. destruct Hc as [[Hc _]|[Hn _]]; [|contradiction].
    unfold clientaccess.tokenFormat. rewrite Hc at 1. reflexivity.
  - intros Hn. destruct Hc as [[Hc _]|[_ Hc]]; [|exact Hc].
    exfalso. apply Hn. eexists _, _. exact Hc.
Qed.

(** A hash segment with a single ":" in it is still cut at the first "::". *)
Lemma parsed_token_reassembles_witness :
  let d := clientaccess.mkInfo [] "" "user" "p:w" "ab:c" in
  clientaccess.parseToken (clientaccess.tokenPrefix ++ "ab:c::user:p:w") = Ok d
  /\ ~ In ":"%char (list_ascii_of_string (clientaccess.Username d))
  /\ (occurs "::" "ab:c::user:p:w" ->
      clientaccess.tokenPrefix ++ "ab:c::user:p:w"
      = clientaccess.tokenFormat clientaccess.tokenPrefix (clientaccess.caHash d)
          (clientaccess.Username d) (clientaccess.Password d)).
Proof.
  intros d. split; [reflexivity|].
  destruct (parsed_token_reassembles "ab:c::user:p:w" d eq_refl) as [Hu [Hf _]].
  split; [exact Hu | exact Hf].
Defined.

End CodecMore.

(* ------------------------------------------------------------------ *)
(** * The CA hash *)

Section HashFacts.
Local Open Scope string_scope.

Lemma round_length (st : list Z) (kw : Z * Z) :
  List.length (sha256.round st kw) = List.length st.
Proof.
  unfold sha256.round.
  destruct st as [|a [|b [|c [|d [|e [|f [|g [|h [|i st]]]]]]]]]; reflexivity.
Qed.

Lemma compress_length (st block : list Z) :
  List.length (sha256.compress st block) = List.length st.
Proof.
  unfold sha256.compress. rewrite length_map, length_combine.
  assert (H : forall l s, List.length (fold_left sha256.round l s) = List.length s).
  { induction l as [|kw l IH]; intros s; [reflexivity|].
    cbn [fold_left]. rewrite IH. apply round_length. }
  rewrite H. apply Nat.min_id.
Qed.

Lemma blocks_length (n : nat) (st msg : list Z) :
  List.length (sha256.blocks n st msg) = List.length st.
Proof.
  revert st msg. induction n as [|n IH]; intros st msg; [reflexivity|].
  cbn [sha256.blocks]. rewrite IH. apply compress_length.
Qed.

Lemma flat_map_unword_length (l : list Z) :
  List.length (flat_map sha256.unword l) = 4 * List.length l.
Proof. induction l as [|x l IH]; [reflexivity|]. cbn [flat_map List.length app sha256.unword]. lia. Qed.

Lemma Sum256_length (data : bytes) : List.length (sha256.Sum256 data) = 32.
Proof.
  unfold sha256.Sum256. rewrite length_map, flat_map_unword_length, blocks_length.
  reflexivity.
Qed.

Lemma EncodeToString_length (bs : bytes) :
  String.length (hex.EncodeToString bs) = 2 * List.length bs.
Proof. induction bs as [|b bs IH]; [reflexivity|]. cbn [hex.EncodeToString String.length List.length]. lia. Qed.

Lemma hex_digit_in_table (n : N) : In (hex.digit n) (list_ascii_of_string hex.hextable).
Proof.
  unfold hex.digit.
  destruct (N.to_nat n) as [|[|[|[|[|[|[|[|[|[|[|[|[|[|[|[|k]]]]]]]]]]]]]]]];
    simpl; tauto.
Qed.

Lemma EncodeToString_hex (bs : bytes) :
  Forall (fun c => In c (list_ascii_of_string hex.hextable))
    (list_ascii_of_string (hex.EncodeToString bs)).
Proof.
  induction bs as [|b bs IH]; [constructor|].
  cbn [hex.EncodeToString list_ascii_of_string].
  constructor; [apply hex_digit_in_table|].
  constructor; [apply hex_digit_in_table | exact IH].
Qed.

(** X4. The hash of a CA bundle is always 64 characters, each one of
    [0123456789abcdef]; for the empty bundle it is the digest of the
    empty input. *)
Theorem hashCA_is_64_hex_digits (cacerts : bytes) :
  String.length (clientaccess.hashCA cacerts) = 64
  /\ Forall (fun c => In c (list_ascii_of_string "0123456789abcdef"))
       (list_ascii_of_string (clientaccess.hashCA cacerts))
  /\ clientaccess.hashCA []
     = "e3b0c44298fc1c149afbf4c8996fb92427ae41e4649b934ca495991b7852b855".
Proof.
  unfold clientaccess.hashCA. split; [|split].
  - rewrite EncodeToString_length, Sum256_length. reflexivity.
  - apply EncodeToString_hex.
  - vm_compute. reflexivity.
Qed.

Lemma hashCA_not_empty (cacerts : bytes) : clientaccess.hashCA cacerts <> "".
Proof.
  intros H. pose proof (EncodeToString_length (sha256.Sum256 cacerts)) as L.
  unfold clientaccess.hashCA in H. rewrite H, Sum256_length in L. discriminate L.
Qed.

(** X5. [validateCACerts] accepts exactly two cases: an empty bundle
    with an empty hash, or a hash equal to the hash of the bundle; the
    hash it returns is the hash of the bundle, except in the first case
    where it is empty.  An empty hash never matches a bundle that is not
    empty, and an empty bundle matches a hash that is not empty only if
    that hash is the digest of the empty input. *)
Theorem validateCACerts_accepts (cacerts : bytes) (hash : string) :
  (fst (clientaccess.validateCACerts cacerts hash) = true
   <-> (cacerts = [] /\ hash = "") \/ hash = clientaccess.hashCA cacerts)
  /\ snd (clientaccess.validateCACerts cacerts hash)
     = (if (List.length cacerts =? 0)%nat && (hash =? "")%string then ""
        else clientaccess.hashCA cacerts)
  /\ (cacerts <> [] -> fst (clientaccess.validateCACerts cacerts "") = false)
  /\ (hash <> "" ->
      fst (clientaccess.validateCACerts [] hash) = true ->
      hash = "e3b0c44298fc1c149afbf4c8996fb92427ae41e4649b934ca495991b7852b855").
Proof.
  assert (Hacc : fst (clientaccess.validateCACerts cacerts hash) = true
                 <-> (cacerts = [] /\ hash = "") \/ hash = clientaccess.hashCA cacerts).
  { unfold clientaccess.validateCACerts.
    destruct ((List.length cacerts =? 0)%nat && (hash =? "")%string) eqn:E.
    - apply andb_true_iff in E. destruct E as [E1 E2].
      apply Nat.eqb_eq in E1. apply String.eqb_eq in E2.
      destruct cacerts; [|discriminate]. cbn [fst]. tauto.
    - cbn [fst]. rewrite String.eqb_eq. split; [tauto|].
      intros [[-> ->]|H]; [discriminate E | exact H]. }
  split; [exact Hacc|]. split; [|split].
  - unfold clientaccess.validateCACerts.
    destruct ((List.length cacerts =? 0)%nat && (hash =? "")%string); reflexivity.
  - intros Hne. unfold clientaccess.validateCACerts.
    destruct cacerts as [|b bs]; [congruence|]. cbn [List.length Nat.eqb andb fst].
    apply String.eqb_neq. intros H. symmetry in H. exact (hashCA_not_empty _ H).
  - intros Hne Hok. unfold clientaccess.validateCACerts in Hok.
    rewrite (proj2 (String.eqb_neq hash "") Hne), andb_false_r in Hok. cbn [fst] in Hok.
    apply String.eqb_eq in Hok. rewrite Hok. vm_compute. reflexivity.
Qed.

End HashFacts.

(* ------------------------------------------------------------------ *)
(** * Credentials of a token *)

Section CredentialFacts.
Import strings spec strings_facts.
Local Open Scope string_scope.

(** X13. [ParseUsernamePassword] on any string.  When it reports
    success, the user name holds no ":" and the token ends in the user
    name, ":" and the password: a token without the tag is the password
    as a whole, under the empty user name; a token with the tag is the
    tag, then nothing or a hash segment closed by "::", then
    [user:password].  When it reports failure, both strings are empty
    and the token carries the tag. *)
Theorem ParseUsernamePassword_splits_the_token (token u p : string) (ok : bool) :
  clientaccess.ParseUsernamePassword token = (u, p, ok) ->
  if ok
  then ~ In ":"%char (list_ascii_of_string u)
       /\ ((HasPrefix token clientaccess.tokenPrefix = false /\ u = "" /\ p = token)
           \/ (exists pre,
                  token = clientaccess.tokenPrefix ++ pre ++ u ++ ":" ++ p
                  /\ (pre = "" \/ exists h, pre = h ++ "::")))
  else u = "" /\ p = "" /\ exists t, token = clientaccess.tokenPrefix ++ t.
Proof.
  unfold clientaccess.ParseUsernamePassword.
  destruct (HasPrefix token clientaccess.tokenPrefix) eqn:E.
  - apply HasPrefix_iff in E. destruct E as [t ->].
    destruct (clientaccess.parseToken (clientaccess.tokenPrefix ++ t)) as [d|e] eqn:Ep.
    + intros H. injection H as <- <- <-.
      destruct (parseToken_tagged_inv t d Ep) as [_ [_ [Hu Hc]]].
      split; [exact Hu|]. right.
      destruct Hc as [[Hc _]|[_ [_ Hc]]].
      * exists (clientaccess.caHash d ++ "::"). split.
        -- rewrite Hc at 1. rewrite !app_assoc. reflexivity.
        -- right. eexists. reflexivity.
      * exists "". split; [rewrite Hc at 1; reflexivity | left; reflexivity].
    + intros H. injection H as <- <- <-. repeat split. exists t. reflexivity.
  - rewrite (codec.parseToken_untagged token E). intros H. injection H as <- <- <-.
    split; [simpl; tauto|]. left. repeat split.
Qed.

Lemma ParseUsernamePassword_splits_the_token_witness :
  clientaccess.ParseUsernamePassword "K10abc::alice:s3:cret" = ("alice", "s3:cret", true)
  /\ ~ In ":"%char (list_ascii_of_string "alice")
  /\ ((HasPrefix "K10abc::alice:s3:cret" clientaccess.tokenPrefix = false
       /\ "alice" = "" /\ "s3:cret" = "K10abc::alice:s3:cret")
      \/ (exists pre,
             "K10abc::alice:s3:cret"
             = clientaccess.tokenPrefix ++ pre ++ "alice" ++ ":" ++ "s3:cret"
             /\ (pre = "" \/ exists h, pre = h ++ "::"))).
Proof.
  split; [reflexivity|].
  exact (ParseUsernamePassword_splits_the_token
           "K10abc::alice:s3:cret" "alice" "s3:cret" true eq_refl).
Defined.

End CredentialFacts.

(* ------------------------------------------------------------------ *)
(** * Trailing slashes *)

Section SlashFacts.
Import strings strings_facts.
Local Open Scope string_scope.

Lemma list_ascii_app (a b : string) :
  list_ascii_of_string (a ++ b) = (list_ascii_of_string a ++ list_ascii_of_string b)%list.
Proof. induction a as [|c a IH]; cbn; [reflexivity | rewrite IH; reflexivity]. Qed.

Lemma string_of_list_app (a b : list ascii) :
  string_of_list_ascii (a ++ b)%list = string_of_list_ascii a ++ string_of_list_ascii b.
Proof. induction a as [|c a IH]; cbn; [reflexivity | rewrite IH; reflexivity]. Qed.

Lemma length_append (a b : string) :
  String.length (a ++ b) = String.length a + String.length b.
Proof. induction a as [|c a IH]; cbn; [reflexivity | rewrite IH; reflexivity]. Qed.

Lemma HasSuffix_slash (p : string) :
  HasSuffix p "/" = true <-> exists q, p = q ++ "/".
Proof.
  unfold HasSuffix. cbn [list_ascii_of_string rev app]. split.
  - destruct (rev (list_ascii_of_string p)) as [|d rs] eqn:E; cbn [HasSuffix_rev];
      [discriminate|].
    intros H. apply andb_true_iff in H. destruct H as [H _].
    apply Ascii.eqb_eq in H. subst d.
    exists (string_of_list_ascii (rev rs)).
    rewrite <- (string_of_list_ascii_of_string p), <- (rev_involutive (list_ascii_of_string p)),
      E.
    cbn [rev]. rewrite string_of_list_app. reflexivity.
  - intros [q ->]. rewrite list_ascii_app, rev_app_distr.
    cbn [list_ascii_of_string rev app HasSuffix_rev]. rewrite Ascii.eqb_refl.
    destruct (rev (list_ascii_of_string q)); reflexivity.
Qed.

Lemma slashes_snoc (k : nat) : slashes k ++ "/" = slashes (S k).
Proof. induction k as [|k IH]; cbn; [reflexivity | cbn in IH; rewrite IH; reflexivity]. Qed.

Lemma trimSlashes_spec (n : nat) :
  forall p, String.length p <= n ->
  exists q k, p = q ++ slashes k
              /\ clientaccess.trimSlashes n p = q
              /\ HasSuffix q "/" = false.
Proof.
  induction n as [|n IH]; intros p Hlen.
  - destruct p; [|cbn in Hlen; lia]. exists "", 0. repeat split.
  - cbn [clientaccess.trimSlashes]. destruct (HasSuffix p "/") eqn:E.
    + apply HasSuffix_slash in E. destruct E as [q0 ->].
      rewrite length_append in Hlen |- *. cbn [String.length] in Hlen |- *.
      replace (String.length q0 + 1 - 1) with (String.length q0) by lia.
      rewrite sliceTo_app.
      destruct (IH q0 ltac:(lia)) as [q [k [-> [Ht Hs]]]].
      exists q, (S k). rewrite <- slashes_snoc, app_assoc. auto.
    + exists p, 0. cbn [slashes]. rewrite app_empty_r. auto.
Qed.

End SlashFacts.

(* ------------------------------------------------------------------ *)
(** * Requests and trust establishment *)

Section NetworkFacts.
Context {World : Type} {P : Platform World}.

(** [get], by cases: the URL is refused and nothing is sent, or one
    request is sent and answered. *)
Lemma get_cases (u : string) (client : Client) (user pw : string)
      (s s' : Sys World) (r : result bytes) :
  clientaccess.get u client user pw s = Done (r, s') ->
  let req := mkRequest "GET" u (if (user =? "")%string then None else Some (user, pw)) in
  (exists e, http_NewRequest u = Some e /\ r = Err e /\ s' = s)
  \/ (http_NewRequest u = None
      /\ trace s' = trace s ++ [EvRequest client req]
      /\ exists a, Client_Do client req (world s) = (a, world s')
                   /\ match a with
                      | Err e => r = Err e
                      | Ok resp =>
                          if (StatusCode resp =? 503)%Z then r = Err ErrServiceUnavailable
                          else if (StatusCode resp =? 200)%Z then r = Body resp
                               else r = Err (errorString (u ++ ": " ++ Status resp)%string)
                      end).
Proof.
  intros H req. revert H. unfold clientaccess.get, bind, call, ret. fold req.
  destruct (http_NewRequest u) as [e|].
  - intros H. injection H as <- <-. left. exists e. repeat split.
  - right. split; [reflexivity|]. revert H.
    destruct (Client_Do client req (world s)) as [a w] eqn:E.
    destruct a as [resp|e].
    + destruct (StatusCode resp =? 503)%Z eqn:E5.
      * intros H. injection H as <- <-. split; [reflexivity|].
        eexists. split; [reflexivity|]. cbv beta iota. rewrite E5. reflexivity.
      * destruct (StatusCode resp =? 200)%Z eqn:E2; cbn [negb]; intros H;
          injection H as <- <-; (split; [reflexivity|]); eexists;
          (split; [reflexivity|]); cbv beta iota; rewrite E5, E2; reflexivity.
    + intros H. injection H as <- <-. split; [reflexivity|].
      eexists. split; reflexivity.
Qed.

Lemma get_Ok_inv (u : string) (client : Client) (user pw : string)
      (s s' : Sys World) (body : bytes) :
  clientaccess.get u client user pw s = Done (Ok body, s') ->
  let req := mkRequest "GET" u (if (user =? "")%string then None else Some (user, pw)) in
  trace s' = trace s ++ [EvRequest client req]
  /\ exists resp, Client_Do client req (world s) = (Ok resp, world s')
                  /\ StatusCode resp = 200%Z /\ Body resp = Ok body.
Proof.
  intros H req. destruct (get_cases _ _ _ _ _ _ _ H) as [[e [_ [He _]]]|[_ [Ht [a [Ha Hr]]]]];
    [discriminate|].
  split; [exact Ht|]. destruct a as [resp|e]; [|discriminate].
  exists resp. split; [exact Ha|].
  destruct (StatusCode resp =? 503)%Z; [discriminate|].
  destruct (StatusCode resp =? 200)%Z eqn:E2; [|discriminate].
  split; [apply Z.eqb_eq; exact E2 | symmetry; exact Hr].
Qed.



(** X11. The bundle that trust establishment returns has just been
    used: the last request of a successful run was sent through the
    client built from the returned bundle, [GetHTTPClient ca], and was
    answered 200.  For a bundle that is not empty this is the client
    that trusts this bundle only; the empty bundle stands for the
    default client and its own trust roots. *)
Theorem getCACerts_bundle_is_validated (u : URL) (s s' : Sys World) (ca : bytes) :
  clientaccess.getCACerts u s = Done (Ok ca, s') ->
  let req := mkRequest "GET" (URL_String (URL_withPath u "/cacerts")) None in
  exists s0 resp,
    trace s' = trace s0 ++ [EvRequest (clientaccess.GetHTTPClient ca) req]
    /\ Client_Do (clientaccess.GetHTTPClient ca) req (world s0) = (Ok resp, world s')
    /\ StatusCode resp = 200%Z
    /\ (ca <> [] -> clientaccess.GetHTTPClient ca = CAClient ca)
    /\ (ca = [] -> clientaccess.GetHTTPClient ca = DefaultClient).
Proof.
  intros H req.
  assert (Hc : (ca <> [] -> clientaccess.GetHTTPClient ca = CAClient ca)
               /\ (ca = [] -> clientaccess.GetHTTPClient ca = DefaultClient)).
  { unfold clientaccess.GetHTTPClient. destruct ca; cbn; split; intros; congruence. }
  revert H. unfold clientaccess.getCACerts, bind, ret.
  fold req. set (url := URL_String (URL_withPath u "/cacerts")).
  destruct (clientaccess.get url DefaultClient "" "" s) as [[r1 s1]|] eqn:E1; [|discriminate].
  destruct r1 as [b1|e1].
  - intros H. injection H as <- <-.
    destruct (get_Ok_inv _ _ _ _ _ _ _ E1) as [T [resp [Hdo [H200 _]]]].
    exists s, resp. split; [exact T|]. split; [exact Hdo|]. split; [exact H200 | exact Hc].
  - destruct (clientaccess.get url insecureClient "" "" s1) as [[r2 s2]|]; [|discriminate].
    destruct r2 as [ca2|e2]; [|discriminate].
    destruct (clientaccess.get url (clientaccess.GetHTTPClient ca2) "" "" s2)
      as [[r3 s3]|] eqn:E3; [|discriminate].
    destruct r3 as [b3|e3]; [|discriminate].
    intros H. injection H as -> ->.
    destruct (get_Ok_inv _ _ _ _ _ _ _ E3) as [T [resp [Hdo [H200 _]]]].
    exists s2, resp. split; [exact T|]. split; [exact Hdo|]. split; [exact H200 | exact Hc].
Qed.

(** ** The server of a token *)

Lemma setServer_cases (info info' : clientaccess.Info) (server : string)
      (s s' : Sys World) (e : option error) :
  clientaccess.setServer info server s = Done ((e, info'), s') ->
  match url_Parse server with
  | Err err =>
      e = Some (errors.Wrap err ("Invalid server url, failed to parse: " ++ server)%string)
      /\ info' = info /\ s' = s
  | Ok u =>
      if (Scheme u =? "https")%string
      then
        let url := URL_withPath u
                     (clientaccess.trimSlashes (String.length (Path u)) (Path u)) in
        exists r, clientaccess.getCACerts url s = Done (r, s')
                  /\ match r with
                     | Err err => e = Some err /\ info' = info
                     | Ok ca => e = None
                                /\ info' = clientaccess.with_server info (URL_String url) ca
                     end
      else
        e = Some (errorString
                    ("only https:// URLs are supported, invalid scheme: " ++ server)%string)
        /\ info' = info /\ s' = s
  end.
Proof.
  unfold clientaccess.setServer, bind, ret.
  destruct (url_Parse server) as [u|err].
  - destruct (Scheme u =? "https")%string; cbn [negb].
    + destruct (clientaccess.getCACerts _ s) as [[r s1]|] eqn:E; [|discriminate].
      destruct r as [ca|err]; intros H; injection H as <- <- <-;
        eexists; (split; [reflexivity|]); split; reflexivity.
    + intros H. injection H as <- <- <-. repeat split.
  - intros H. injection H as <- <- <-. repeat split.
Qed.

(** Both entry points, by the steps they share. *)
Lemma validate_cases (info0 : clientaccess.Info) (server : string)
      (s s' : Sys World) (r : result clientaccess.Info) :
  (x <- clientaccess.setServer info0 server ;;
   let '(err, info) := x in
   match err with
   | Some err => ret (Err err)
   | None =>
       if negb (clientaccess.caHash info =? "")%string
       then match clientaccess.validateCAHash info with
            | Some err => ret (Err err)
            | None => ret (Ok info)
            end
       else ret (Ok info)
   end) s = Done (r, s') ->
  exists e info,
    clientaccess.setServer info0 server s = Done ((e, info), s')
    /\ match e with
       | Some err => r = Err err
       | None =>
           if (clientaccess.caHash info =? "")%string then r = Ok info
           else match clientaccess.validateCAHash info with
                | Some err => r = Err err
                | None => r = Ok info
                end
       end.
Proof.
  unfold bind, ret.
  destruct (clientaccess.setServer info0 server s) as [[[e info] s1]|]; [|discriminate].
  destruct e as [err|].
  - intros H. injection H as <- <-. eexists _, _. split; reflexivity.
  - destruct (clientaccess.caHash info =? "")%string eqn:Eh; cbn [negb].
    + intros H. injection H as <- <-. exists None, info. split; [reflexivity|].
      rewrite Eh. reflexivity.
    + destruct (clientaccess.validateCAHash info) eqn:V; intros H; injection H as <- <-;
        exists None, info; (split; [reflexivity|]); rewrite Eh, V; reflexivity.
Qed.

Lemma validateCAHash_None (info : clientaccess.Info) :
  clientaccess.validateCAHash info = None ->
  clientaccess.caHash info <> ""%string ->
  clientaccess.caHash info = clientaccess.hashCA (clientaccess.CACerts info).
Proof.
  unfold clientaccess.validateCAHash, clientaccess.validateCACerts. intros H Hne.
  apply String.eqb_neq in Hne. rewrite Hne, andb_false_r in H.
  destruct (clientaccess.caHash info
            =? clientaccess.hashCA (clientaccess.CACerts info))%string eqn:E;
    [apply String.eqb_eq; exact E | discriminate].
Qed.

(** X9. [setServer] fills in the server of an [Info] or leaves it
    alone.  On an error the receiver is unchanged.  On success the
    server URL parsed with scheme https, every trailing slash of its
    path is gone from the base URL (the path is [q] followed by slashes
    only, and [q] does not end in a slash), the bundle is the one that
    trust establishment returned for that URL, and the username, the
    password and the declared hash are untouched. *)
Theorem setServer_strips_every_trailing_slash
        (info info' : clientaccess.Info) (server : string) (s s' : Sys World)
        (e : option error) :
  clientaccess.setServer info server s = Done ((e, info'), s') ->
  match e with
  | Some _ => info' = info
  | None =>
      exists u q k,
        url_Parse server = Ok u /\ Scheme u = "https"%string
        /\ Path u = (q ++ slashes k)%string
        /\ (forall q', q <> (q' ++ "/")%string)
        /\ clientaccess.BaseURL info' = URL_String (URL_withPath u q)
        /\ clientaccess.getCACerts (URL_withPath u q) s
           = Done (Ok (clientaccess.CACerts info'), s')
        /\ clientaccess.Username info' = clientaccess.Username info
        /\ clientaccess.Password info' = clientaccess.Password info
        /\ clientaccess.caHash info' = clientaccess.caHash info
  end.
Proof.
  intros H. pose proof (setServer_cases _ _ _ _ _ _ H) as C.
  destruct (url_Parse server) as [u|perr].
  - destruct (Scheme u =? "https")%string eqn:Sch.
    + destruct C as [r [HG C]]. destruct r as [ca|gerr].
      * destruct C as [-> ->].
        destruct (trimSlashes_spec (String.length (Path u)) (Path u) (le_n _))
          as [q [k [Hp [Ht Hs]]]].
        rewrite Ht in HG |- *.
        exists u, q, k. split; [reflexivity|].
        split; [apply String.eqb_eq; exact Sch|]. split; [exact Hp|].
        split.
        { intros q' Hq. assert (Hx : strings.HasSuffix q "/" = true)
            by (apply HasSuffix_slash; exists q'; exact Hq).
          congruence. }
        split; [reflexivity|]. split; [exact HG|]. repeat split.
      * destruct C as [-> ->]. reflexivity.
    + destruct C as [-> [-> _]]. reflexivity.
  - destruct C as [-> [-> _]]. reflexivity.
Qed.

(** X6. What a validated token guarantees.  When either entry point
    returns an [Info], the token parsed, the server URL parsed and has
    scheme https, the password and the declared hash are those of the
    token, and a declared hash that is not empty is the SHA-256 of the
    bundle that the [Info] carries: a pinned token never comes back with
    a bundle other than the pinned one. *)
Theorem validated_token_is_pinned (server token user : string) (s s' : Sys World)
        (info : clientaccess.Info) :
  clientaccess.ParseAndValidateToken server token s = Done (Ok info, s')
  \/ clientaccess.ParseAndValidateTokenForUser server token user s = Done (Ok info, s') ->
  exists parsed u,
    clientaccess.parseToken token = Ok parsed
    /\ url_Parse server = Ok u /\ Scheme u = "https"%string
    /\ clientaccess.Password info = clientaccess.Password parsed
    /\ clientaccess.caHash info = clientaccess.caHash parsed
    /\ (clientaccess.caHash info = ""%string
        \/ clientaccess.caHash info = clientaccess.hashCA (clientaccess.CACerts info)).
Proof.
  assert (K : forall info0,
             (exists e i, clientaccess.setServer info0 server s = Done ((e, i), s')
                          /\ match e with
                             | Some err => Ok info = Err err
                             | None =>
                                 if (clientaccess.caHash i =? "")%string then Ok info = Ok i
                                 else match clientaccess.validateCAHash i with
                                      | Some err => Ok info = Err err
                                      | None => Ok info = Ok i
                                      end
                             end) ->
             exists u, url_Parse server = Ok u /\ Scheme u = "https"%string
                       /\ clientaccess.Password info = clientaccess.Password info0
                       /\ clientaccess.caHash info = clientaccess.caHash info0
                       /\ (clientaccess.caHash info = ""%string
                           \/ clientaccess.caHash info
                              = clientaccess.hashCA (clientaccess.CACerts info))).
  { intros info0 [e [i [HS Hr]]].
    destruct e as [err|]; [discriminate|].
    pose proof (setServer_cases _ _ _ _ _ _ HS) as C.
    destruct (url_Parse server) as [u|err]; [|destruct C as [C _]; discriminate].
    destruct (Scheme u =? "https")%string eqn:Sch; [|destruct C as [C _]; discriminate].
    exists u. split; [reflexivity|]. split; [apply String.eqb_eq; exact Sch|].
    destruct C as [r [_ C]]. destruct r as [ca|err]; [|destruct C as [C _]; discriminate].
    destruct C as [_ ->] in Hr |- *.
    destruct (clientaccess.caHash (clientaccess.with_server info0 _ ca) =? "")%string eqn:Eh.
    - injection Hr as ->. repeat split. left. apply String.eqb_eq. exact Eh.
    - destruct (clientaccess.validateCAHash _) eqn:V; [discriminate|].
      injection Hr as ->. repeat split. right.
      apply validateCAHash_None; [exact V | apply String.eqb_neq; exact Eh]. }
  intros [H|H]; revert H.
  - unfold clientaccess.ParseAndValidateToken.
    destruct (clientaccess.parseToken token) as [parsed|e]; [|discriminate].
    intros H. apply validate_cases in H. destruct (K _ H) as [u Hu].
    exists parsed, u. split; [reflexivity | exact Hu].
  - unfold clientaccess.ParseAndValidateTokenForUser.
    destruct (clientaccess.parseToken token) as [parsed|e]; [|discriminate].
    intros H. apply validate_cases in H. destruct (K _ H) as [u Hu].
    exists parsed, u. split; [reflexivity | exact Hu].
Qed.

Lemma setServer_with_Username (info : clientaccess.Info) (server user : string)
      (s : Sys World) :
  clientaccess.setServer (clientaccess.with_Username info user) server s
  = match clientaccess.setServer info server s with
    | Done ((e, i), s') => Done ((e, clientaccess.with_Username i user), s')
    | Panicked msg => Panicked msg
    end.
Proof.
  unfold clientaccess.setServer, bind, ret.
  destruct (url_Parse server) as [u|err]; [|reflexivity].
  destruct (negb (Scheme u =? "https")%string); [reflexivity|].
  destruct (clientaccess.getCACerts _ s) as [[[ca|err] s1]|]; reflexivity.
Qed.

(** X7. The user override changes the username and nothing else: on
    every token, server and state of the world,
    [ParseAndValidateTokenForUser] panics, fails (with the same error)
    or succeeds exactly as [ParseAndValidateToken] does, leaves the same
    state and trace behind, and the [Info] it returns is the one of
    [ParseAndValidateToken] with the username replaced. *)
Theorem user_override_changes_only_username (server token user : string) (s : Sys World) :
  clientaccess.ParseAndValidateTokenForUser server token user s
  = match clientaccess.ParseAndValidateToken server token s with
    | Done (Ok info, s') => Done (Ok (clientaccess.with_Username info user), s')
    | other => other
    end.
Proof.
  unfold clientaccess.ParseAndValidateTokenForUser, clientaccess.ParseAndValidateToken.
  destruct (clientaccess.parseToken token) as [parsed|e]; [|reflexivity].
  unfold bind. rewrite setServer_with_Username.
  destruct (clientaccess.setServer parsed server s) as [[[e i] s1]|]; [|reflexivity].
  destruct e as [err|]; [reflexivity|].
  unfold ret.
  change (clientaccess.caHash (clientaccess.with_Username i user))
    with (clientaccess.caHash i).
  destruct (negb (clientaccess.caHash i =? "")%string); [|reflexivity].
  unfold clientaccess.validateCAHash.
  change (clientaccess.CACerts (clientaccess.with_Username i user))
    with (clientaccess.CACerts i).
  change (clientaccess.caHash (clientaccess.with_Username i user))
    with (clientaccess.caHash i).
  destruct (clientaccess.validateCACerts _ _) as [ok h].
  destruct (negb ok); reflexivity.
Qed.

(** The checks that need no network, in the order of the code. *)
Lemma local_checks_come_first (server token user : string) (s : Sys World) :
  (forall e, clientaccess.parseToken token = Err e ->
             clientaccess.ParseAndValidateTokenForUser server token user s
             = Done (Err e, s))
  /\ (forall info e,
         clientaccess.parseToken token = Ok info ->
         url_Parse server = Err e ->
         clientaccess.ParseAndValidateTokenForUser server token user s
         = Done (Err (errors.Wrap e ("Invalid server url, failed to parse: " ++ server)%string),
                 s))
  /\ (forall info u,
         clientaccess.parseToken token = Ok info ->
         url_Parse server = Ok u ->
         Scheme u <> "https"%string ->
         clientaccess.ParseAndValidateTokenForUser server token user s
         = Done (Err (errorString
                        ("only https:// URLs are supported, invalid scheme: "
                           ++ server)%string), s)).
Proof.
  unfold clientaccess.ParseAndValidateTokenForUser, clientaccess.setServer, bind, ret.
  split; [|split].
  - intros e ->. reflexivity.
  - intros info e -> ->. reflexivity.
  - intros info u -> -> Hs. apply String.eqb_neq in Hs. rewrite Hs. reflexivity.
Qed.

(** X8. No request before the local checks have passed.  When token
    validation leaves the world or the trace other than it found them
    (a request was sent), the token had parsed and the server URL had
    parsed with scheme https: a malformed token, an unparsable URL and a
    scheme other than https are reported without any network traffic. *)
Theorem requests_only_after_local_checks
        (server token user : string) (s s' : Sys World) (r : result clientaccess.Info) :
  clientaccess.ParseAndValidateTokenForUser server token user s = Done (r, s') ->
  s' <> s ->
  exists parsed u,
    clientaccess.parseToken token = Ok parsed
    /\ url_Parse server = Ok u
    /\ Scheme u = "https"%string.
Proof.
  intros H Hne.
  destruct (local_checks_come_first server token user s) as [L1 [L2 L3]].
  destruct (clientaccess.parseToken token) as [parsed|e] eqn:EP.
  - destruct (url_Parse server) as [u|e] eqn:EU.
    + destruct (String.eqb_spec (Scheme u) "https") as [Sch|Sch].
      * exists parsed, u. auto.
      * rewrite (L3 parsed u eq_refl eq_refl Sch) in H. injection H as _ <-.
        contradiction Hne. reflexivity.
    + rewrite (L2 parsed e eq_refl eq_refl) in H. injection H as _ <-.
      contradiction Hne. reflexivity.
  - rewrite (L1 e eq_refl) in H. injection H as _ <-. contradiction Hne. reflexivity.
Qed.



(** X20. A token without the tag is a bare password, and a bare
    password is never sent.  When such a token has been validated by
    [ParseAndValidateToken], the access info has an empty user name, the
    token as password and no pinned hash, and a [Get] with this info
    sends its request without credentials: [get] attaches them only
    when the user name is not empty. *)
Theorem password_only_token_is_never_sent
        (server token path : string) (s s1 s2 : Sys World)
        (info : clientaccess.Info) (r : result bytes) :
  strings.HasPrefix token clientaccess.tokenPrefix = false ->
  clientaccess.ParseAndValidateToken server token s = Done (Ok info, s1) ->
  clientaccess.Get path (Some info) s1 = Done (r, s2) ->
  clientaccess.Username info = ""%string
  /\ clientaccess.Password info = token
  /\ clientaccess.caHash info = ""%string
  /\ grows (fun ev => exists client req,
                ev = EvRequest client req /\ BasicAuth req = None) s1 s2.
Proof.
  intros Hp Hv Hg. revert Hv. unfold clientaccess.ParseAndValidateToken.
  rewrite (codec.parseToken_untagged token Hp). intros Hv.
  apply validate_cases in Hv. destruct Hv as [e [i [HS Hr]]].
  destruct (setServer_keeps_token _ _ _ _ _ _ HS) as [Hh [Hu Hpw]].
  cbn in Hh, Hu, Hpw.
  destruct e as [err|]; [discriminate|].
  rewrite Hh in Hr. cbn in Hr. injection Hr as ->.
  split; [exact Hu|]. split; [exact Hpw|]. split; [exact Hh|].
  revert Hg. unfold clientaccess.Get.
  destruct (url_Parse (clientaccess.BaseURL i)) as [u|perr].
  - intros Hg. pose proof (get_emits _ _ _ _ _ _ _ Hg) as G.
    rewrite Hu in G. cbn in G.
    eapply grows_weaken; [|exact G]. intros ev ->. eexists _, _. split; reflexivity.
  - intros Hg. injection Hg as _ <-. apply grows_refl.
Qed.

End NetworkFacts.

(* ------------------------------------------------------------------ *)
(** ** Concrete runs of trust establishment *)


(** The same run: the last request went through the client that trusts
    the returned bundle only. *)
Lemma getCACerts_bundle_is_validated_witness :
  let w := sim.mkWorld [] (sim.selfSigned "CA" "data") [] None in
  let u := mkURL "https" "peer:6443" "" "" in
  let ca := list_byte_of_string "CA" in
  let req := mkRequest "GET" "https://peer:6443/cacerts" None in
  exists s' s0 resp,
    trace s' = trace s0 ++ [EvRequest (clientaccess.GetHTTPClient ca) req]
    /\ @Client_Do sim.World sim.platform (clientaccess.GetHTTPClient ca) req (world s0)
       = (Ok resp, world s')
    /\ StatusCode resp = 200%Z
    /\ (ca <> [] -> clientaccess.GetHTTPClient ca = CAClient ca)
    /\ (ca = [] -> clientaccess.GetHTTPClient ca = DefaultClient).
Proof.
  intros w u ca req. eexists.
  eapply (@getCACerts_bundle_is_validated sim.World sim.platform u (mkSys w []) _ ca).
  vm_compute. reflexivity.
Defined.

(** A server given with three trailing slashes. *)
Lemma setServer_strips_every_trailing_slash_witness :
  let w := sim.mkWorld [] (sim.selfSigned "CA" "data") [] None in
  let info := clientaccess.mkInfo [] "" "node" "pw" "" in
  exists info' s',
    @clientaccess.setServer sim.World sim.platform info "https://peer:6443///" (mkSys w [])
    = Done ((None, info'), s')
    /\ clientaccess.BaseURL info' = "https://peer:6443"%string
    /\ exists u q k,
        sim.parse "https://peer:6443///" = Ok u /\ Scheme u = "https"%string
        /\ Path u = (q ++ slashes k)%string
        /\ (forall q', q <> (q' ++ "/")%string)
        /\ clientaccess.BaseURL info' = sim.render (URL_withPath u q)
        /\ @clientaccess.getCACerts sim.World sim.platform (URL_withPath u q) (mkSys w [])
           = Done (Ok (clientaccess.CACerts info'), s')
        /\ clientaccess.Username info' = "node"%string
        /\ clientaccess.Password info' = "pw"%string
        /\ clientaccess.caHash info' = ""%string.
Proof.
  intros w info. eexists _, _. split; [vm_compute; reflexivity|].
  split; [vm_compute; reflexivity|].
  eapply (@setServer_strips_every_trailing_slash sim.World sim.platform
            info _ "https://peer:6443///" (mkSys w []) _ None).
  vm_compute. reflexivity.
Defined.

(** A token that pins the bundle of the peer. *)
Lemma validated_token_is_pinned_witness :
  let w := sim.mkWorld [] (sim.selfSigned "CA" "data") [] None in
  let token :=
    "K104b650e5c4785025dee7bd65e3c5c527356717d7a1c0bfef5b4ada8ca1e9cbe17::server:pw"%string in
  exists info s',
    @clientaccess.ParseAndValidateTokenForUser sim.World sim.platform
      "https://peer:6443" token "node" (mkSys w []) = Done (Ok info, s')
    /\ exists parsed u,
        clientaccess.parseToken token = Ok parsed
        /\ sim.parse "https://peer:6443" = Ok u /\ Scheme u = "https"%string
        /\ clientaccess.Password info = clientaccess.Password parsed
        /\ clientaccess.caHash info = clientaccess.caHash parsed
        /\ (clientaccess.caHash info = ""%string
            \/ clientaccess.caHash info = clientaccess.hashCA (clientaccess.CACerts info)).
Proof.
  intros w token. eexists _, _. split; [vm_compute; reflexivity|].
  eapply (@validated_token_is_pinned sim.World sim.platform "https://peer:6443" token "node"
            (mkSys w [])).
  right. vm_compute. reflexivity.
Defined.

(** A peer that fails: requests were sent, so the local checks had
    passed. *)
Lemma requests_only_after_local_checks_witness :
  exists parsed u,
    clientaccess.parseToken "K10abc::server:pw" = Ok parsed
    /\ sim.parse "https://peer:6443" = Ok u
    /\ Scheme u = "https"%string.
Proof.
  cbv zeta.
  eapply (@requests_only_after_local_checks sim.World sim.platform "https://peer:6443"
            "K10abc::server:pw" "node"
            (mkSys (sim.mkWorld [] sim.failing [] None) [])).
  - vm_compute. reflexivity.
  - discriminate.
Defined.


(** A bare password against a self-signed peer. *)
Lemma password_only_token_is_never_sent_witness :
  let w := sim.mkWorld [] (sim.selfSigned "CA" "data") [] None in
  exists info s1 r s2,
    @clientaccess.ParseAndValidateToken sim.World sim.platform
      "https://peer:6443" "secret" (mkSys w []) = Done (Ok info, s1)
    /\ @clientaccess.Get sim.World sim.platform "/v1-k3s/server-bootstrap" (Some info) s1
       = Done (r, s2)
    /\ clientaccess.Username info = ""%string
    /\ clientaccess.Password info = "secret"%string
    /\ clientaccess.caHash info = ""%string
    /\ grows (fun ev => exists client req,
                  ev = EvRequest client req /\ BasicAuth req = None) s1 s2.
Proof.
  intros w.
  eassert (Hv : @clientaccess.ParseAndValidateToken sim.World sim.platform
                  "https://peer:6443" "secret" (mkSys w []) = Done (Ok _, _))
    by (vm_compute; reflexivity).
  match type of Hv with
  | _ = Done (Ok ?i, ?s1) =>
      eassert (Hg : @clientaccess.Get sim.World sim.platform "/v1-k3s/server-bootstrap"
                      (Some i) s1 = Done (_, _))
        by (vm_compute; reflexivity)
  end.
  eexists _, _, _, _. split; [exact Hv|]. split; [exact Hg|].
  exact (@password_only_token_is_never_sent sim.World sim.platform
           "https://peer:6443" "secret" "/v1-k3s/server-bootstrap" _ _ _ _ _
           eq_refl Hv Hg).
Defined.

(* ------------------------------------------------------------------ *)
(** * The orchestration as a whole *)

Section BootstrapFacts.
Context {World : Type} {P : Platform World} {Co : cluster.Collaborators World}.
Import cluster.

Lemma evolves_refl (c : Cluster World) : evolves c c.
Proof. unfold evolves. repeat split; auto. Qed.

Lemma evolves_trans (c1 c2 c3 : Cluster World) :
  evolves c1 c2 -> evolves c2 c3 -> evolves c1 c3.
Proof.
  unfold evolves. intros [A1 [A2 [A3 [A4 [A5 A6]]]]] [B1 [B2 [B3 [B4 [B5 B6]]]]].
  split; [congruence|]. split.
  { intros d Hd. destruct (B2 d Hd) as [H|H]; [exact (A2 d H) | right; exact H]. }
  split; [auto|]. split; [auto|]. split; [auto|].
  intros i Hi. destruct (B6 i Hi) as [H|H]; [exact (A6 i H) | right; exact H].
Qed.

(** ** The steps of [Bootstrap], by what they leave behind *)

Lemma firstInitialized_In (cfg : Config) (ds : list (Driver World))
      (c c' : Cluster World) (s s' : Sys World) (d : Driver World) :
  firstInitialized cfg ds (c, s) = Done (Ok (Some d), (c', s')) -> In d ds.
Proof.
  revert s. induction ds as [|x ds IH]; intros s; cbn [firstInitialized].
  - discriminate.
  - unfold bind, isInitialized, sys, call. cbn [fst snd].
    destruct (IsInitialized x cfg (world s)) as [[[|]|e] w].
    + intros H. injection H as <- _ _. left. reflexivity.
    + intros H. right. exact (IH _ H).
    + discriminate.
Qed.

Lemma firstInitialized_same (cfg : Config) (ds : list (Driver World))
      (c c' : Cluster World) (s s' : Sys World) (r : result (option (Driver World))) :
  firstInitialized cfg ds (c, s) = Done (r, (c', s')) -> c' = c.
Proof.
  revert s. induction ds as [|x ds IH]; intros s; cbn [firstInitialized].
  - intros H. injection H as _ <- _. reflexivity.
  - unfold bind, isInitialized, sys, call. cbn [fst snd].
    destruct (IsInitialized x cfg (world s)) as [[[|]|e] w].
    + intros H. injection H as _ <- _. reflexivity.
    + apply IH.
    + intros H. injection H as _ <- _. reflexivity.
Qed.

(** [assignManagedDriver] writes [managedDB] only, with a registered
    driver, and only when it returns no error. *)
Lemma assignManagedDriver_assigns (c c1 : Cluster World) (s s1 : Sys World)
      (r : option error) :
  assignManagedDriver (c, s) = Done (r, (c1, s1)) ->
  c1 = c
  \/ (r = None /\ exists d, In d managed_Registered /\ c1 = set_managedDB (Some d) c).
Proof.
  unfold assignManagedDriver. unfold bind at 1. unfold this at 1. cbn [fst].
  unfold bind at 1.
  destruct (firstInitialized (config c) managed_Registered (c, s))
    as [[r0 [c0 s0]]|] eqn:E; [|discriminate].
  pose proof (firstInitialized_same _ _ _ _ _ _ _ E) as ->.
  destruct r0 as [[d|]|e].
  - pose proof (firstInitialized_In _ _ _ _ _ _ _ E) as Hin.
    intros H. injection H as <- <- _. right. split; [reflexivity|].
    exists d. split; [exact Hin | reflexivity].
  - destruct (strings.SplitN (DatastoreEndpoint (config c)) ":" 2) as [|ty tl];
      [discriminate|].
    destruct (find (fun driver => (ty =? EndpointName driver)%string) managed_Registered)
      as [d|] eqn:F.
    + intros H. injection H as <- <- _. right. split; [reflexivity|].
      exists d. split; [exact (proj1 (find_some _ _ F)) | reflexivity].
    + destruct (_ && _).
      * destruct (find (fun driver => (EndpointName driver =? managed_Default)%string)
                    managed_Registered) as [d|] eqn:F2.
        -- intros H. injection H as <- <- _. right. split; [reflexivity|].
           exists d. split; [exact (proj1 (find_some _ _ F2)) | reflexivity].
        -- intros H. injection H as _ <- _. left. reflexivity.
      * intros H. injection H as _ <- _. left. reflexivity.
  - intros H. injection H as _ <- _. left. reflexivity.
Qed.

Lemma checkStamp_same (c c' : Cluster World) (s s' : Sys World) (r : bool * option error) :
  checkStamp (c, s) = Done (r, (c', s')) -> c' = c.
Proof.
  destruct (os_Stat (bootstrapStamp c) (world s)) as [[e|] w] eqn:E.
  - rewrite (checkStamp_absent _ _ _ _ E). intros H. injection H as _ <- _. reflexivity.
  - rewrite (checkStamp_present _ _ _ E). intros H. injection H as _ <- _. reflexivity.
Qed.

(** [shouldBootstrapLoad]: without a driver the cluster is as it was;
    with one the HTTP flag is up, and the access info is written
    exactly when the token was validated, for the user "server"; the
    decision to load is taken only then, or without driver. *)
Lemma shouldBootstrapLoad_leaves (c c2 : Cluster World) (s s2 : Sys World)
      (b : bool) (e : option error) :
  shouldBootstrapLoad (c, s) = Done ((b, e), (c2, s2)) ->
  (managedDB c = None /\ c2 = c)
  \/ (managedDB c <> None
      /\ ((b = false /\ c2 = set_HTTPBootstrap true c)
          \/ (exists info,
                 clientaccess.Username info = "server"%string
                 /\ JoinURL (config c) <> ""%string
                 /\ c2 = set_clientAccessInfo (Some info) (set_HTTPBootstrap true c)))).
Proof.
  destruct (managedDB c) as [db|] eqn:Edb.
  - intros H. right. split; [discriminate|].
    destruct (JoinURL (config c) =? "")%string eqn:Eu.
    + revert H. unfold shouldBootstrapLoad. unfold bind at 1. unfold this at 1. cbn [fst].
      rewrite Edb. unfold bind, update. cbn [fst snd].
      change (config (set_HTTPBootstrap true c)) with (config c). rewrite Eu.
      intros H. injection H as <- _ <- _. left. split; reflexivity.
    + apply String.eqb_neq in Eu.
      destruct (clientaccess.ParseAndValidateTokenForUser
                  (JoinURL (config c)) (Token (config c)) "server" s)
        as [[r sv]|] eqn:Hv.
      * rewrite (shouldBootstrapLoad_validates c s sv db r Edb Eu Hv) in H.
        destruct r as [info|err].
        -- apply checkStamp_same in H. right. exists info.
           split; [exact (ParseAndValidateTokenForUser_username _ _ _ _ _ _ Hv)|].
           split; [exact Eu | exact H].
        -- left. destruct (errors.Is err ErrServiceUnavailable).
           ++ revert H. unfold bind, isInitialized, sys, call, logrus. cbn [fst snd].
              destruct (IsInitialized db _ (world sv)) as [[[|]|e2] w];
                intros H; injection H as <- _ <- _; split; reflexivity.
           ++ injection H as <- _ <- _. split; reflexivity.
      * exfalso. revert H. unfold shouldBootstrapLoad. unfold bind at 1.
        unfold this at 1. cbn [fst]. rewrite Edb. unfold bind at 1.
        unfold update at 1. cbn [fst snd].
        change (config (set_HTTPBootstrap true c)) with (config c).
        rewrite (eqb_empty_false _ Eu).
        unfold bind at 1. unfold sys at 1. cbn [fst snd]. rewrite Hv. discriminate.
  - rewrite (shouldBootstrapLoad_unmanaged c s Edb). intros H.
    left. split; [reflexivity | exact (checkStamp_same _ _ _ _ _ H)].
Qed.

Lemma bootstrap_leaves (c c' : Cluster World) (s s' : Sys World) (r : option error) :
  bootstrap (c, s) = Done (r, (c', s')) -> c' = set_joining true c.
Proof.
  unfold bootstrap, bind, update, this, ret. cbn [fst snd].
  destruct (HTTPBootstrap (set_joining true c)).
  - unfold httpBootstrap, bind, this, sys, ret. cbn [fst snd].
    destruct (clientaccess.Get _ _ s) as [[[content|e] s1]|]; try discriminate.
    + unfold call. cbn [fst snd]. destruct (bootstrap_Read content (world s1)).
      intros H. injection H as _ <- _. reflexivity.
    + intros H. injection H as _ <- _. reflexivity.
  - unfold sys, call. cbn [fst snd].
    destruct (storageBootstrap _ _) as [[e|] w]; intros H; injection H as _ <- _;
      reflexivity.
Qed.

(** [Bootstrap], by its three steps. *)
Lemma Bootstrap_steps (c c' : Cluster World) (s s' : Sys World) (r : option error) :
  Bootstrap (c, s) = Done (r, (c', s')) ->
  exists r1 c1 s1,
    assignManagedDriver (c, s) = Done (r1, (c1, s1))
    /\ match r1 with
       | Some e => r = Some e /\ c' = c1 /\ s' = s1
       | None =>
           exists b e2 c2 s2,
             shouldBootstrapLoad (c1, s1) = Done ((b, e2), (c2, s2))
             /\ match e2, b with
                | Some e, _ => r = Some e /\ c' = c2 /\ s' = s2
                | None, false => r = None /\ c' = set_shouldBootstrap false c2 /\ s' = s2
                | None, true =>
                    bootstrap (set_shouldBootstrap true c2, s2) = Done (r, (c', s'))
                end
       end.
Proof.
  unfold Bootstrap. unfold bind at 1.
  destruct (assignManagedDriver (c, s)) as [[r1 [c1 s1]]|]; [|discriminate].
  intros H. exists r1, c1, s1. split; [reflexivity|].
  destruct r1 as [e|].
  - injection H as <- <- <-. repeat split.
  - revert H. unfold bind at 1.
    destruct (shouldBootstrapLoad (c1, s1)) as [[[b e2] [c2 s2]]|]; [|discriminate].
    intros H. exists b, e2, c2, s2. split; [reflexivity|].
    destruct e2 as [e|].
    + injection H as <- <- <-. repeat split.
    + revert H. unfold bind at 1. unfold update at 1. cbn [fst snd].
      destruct b.
      * unfold bind.
        destruct (bootstrap (set_shouldBootstrap true c2, s2)) as [[[e|] st]|];
          try discriminate; intros H; injection H as <- <-; reflexivity.
      * intros H. injection H as <- <- <-. repeat split.
Qed.

(** ** Credentials *)

Lemma decision_protects (ev : Event) : decisionEvent ev -> credentialsProtected ev.
Proof.
  destruct ev as [client req| | | | | | | |]; simpl; try tauto.
  intros [cl [u H]]. injection H as _ ->. destruct client; simpl; auto.
Qed.

Lemma local_protects (ev : Event) : localEvent ev -> credentialsProtected ev.
Proof. intros H. apply decision_protects, localEvent_decision, H. Qed.

Lemma Get_protects (path : string) (info : option clientaccess.Info) :
  emits credentialsProtected (clientaccess.Get path info).
Proof.
  unfold clientaccess.Get. destruct info as [info|]; [|apply emits_panic].
  destruct (url_Parse (clientaccess.BaseURL info)) as [u|e]; [|apply emits_ret].
  eapply emits_weaken; [|apply get_emits].
  intros ev ->. unfold clientaccess.GetHTTPClient.
  destruct (List.length (clientaccess.CACerts info) =? 0)%nat; exact I.
Qed.

Lemma bootstrap_protects : emitsP credentialsProtected bootstrap.
Proof.
  unfold bootstrap, httpBootstrap.
  repeat (first [apply Get_protects | trace_step]); exact I.
Qed.

(** X14. The join credentials never travel unverified.  In every run
    of [Bootstrap], from whatever state of the cluster, a request sent
    through the client that skips certificate verification carries no
    credentials: the user name and password of the token go out only
    through the default client or the client pinned to the CA bundle of
    the access info. *)
Theorem credentials_never_sent_unverified
        (c c' : Cluster World) (s s' : Sys World) (r : option error) :
  Bootstrap (c, s) = Done (r, (c', s')) ->
  grows credentialsProtected s s'.
Proof.
  assert (E : emitsP credentialsProtected Bootstrap).
  { unfold Bootstrap.
    repeat (first
              [ apply (emitsP_weaken _ _ _ local_protects), assignManagedDriver_emits
              | apply (emitsP_weaken _ _ _ decision_protects), shouldBootstrapLoad_emits
              | apply bootstrap_protects
              | trace_step ]). }
  exact (E c s r c' s').
Qed.

(** ** The transport of the fetch *)

Lemma bootstrap_from_storage (c c' : Cluster World) (s s' : Sys World) (r : option error) :
  HTTPBootstrap c = false ->
  bootstrap (c, s) = Done (r, (c', s')) ->
  grows (fun ev => localEvent ev \/ ev = EvStorageBootstrap) s s'.
Proof.
  intros Hh. unfold bootstrap, bind, update, this, ret. cbn [fst snd].
  change (HTTPBootstrap (set_joining true c)) with (HTTPBootstrap c). rewrite Hh.
  unfold sys, call. cbn [fst snd].
  destruct (storageBootstrap _ _) as [[e|] w]; intros H; injection H as _ _ <-;
    exists [EvStorageBootstrap]; (split; [reflexivity|]); repeat constructor; right;
    reflexivity.
Qed.

Lemma httpBootstrap_emits : emitsP (fun ev => ev <> EvStorageBootstrap) httpBootstrap.
Proof.
  unfold httpBootstrap, clientaccess.Get.
  repeat (first
            [ eapply emits_weaken; [|apply get_emits]; intros ev ->; discriminate
            | trace_step ]); discriminate.
Qed.

Lemma bootstrap_over_http (c c' : Cluster World) (s s' : Sys World) (r : option error) :
  HTTPBootstrap c = true ->
  bootstrap (c, s) = Done (r, (c', s')) ->
  grows (fun ev => ev <> EvStorageBootstrap) s s'.
Proof.
  intros Hh. unfold bootstrap. unfold bind at 1. unfold update at 1. cbn [fst snd].
  unfold bind at 1. unfold this at 1. cbn [fst snd].
  change (HTTPBootstrap (set_joining true c)) with (HTTPBootstrap c). rewrite Hh.
  apply httpBootstrap_emits.
Qed.

Lemma decision_not_storage (ev : Event) : decisionEvent ev -> ev <> EvStorageBootstrap.
Proof. destruct ev; simpl; try tauto; discriminate. Qed.

(** X15. The transport follows the driver.  A run of [Bootstrap] that
    ends without managed driver (on a cluster whose HTTP flag was down,
    as the process builds it) never talks to a peer: it checks drivers,
    looks at the stamp, logs, and at most loads from the datastore.  A
    run that ends with a managed driver never loads from the datastore. *)
Theorem transport_follows_the_driver
        (c c' : Cluster World) (s s' : Sys World) (r : option error) :
  Bootstrap (c, s) = Done (r, (c', s')) ->
  (managedDB c' = None -> HTTPBootstrap c = false ->
   grows (fun ev => localEvent ev \/ ev = EvStorageBootstrap) s s')
  /\ (managedDB c' <> None -> grows (fun ev => ev <> EvStorageBootstrap) s s').
Proof.
  intros H. destruct (Bootstrap_steps _ _ _ _ _ H) as [r1 [c1 [s1 [H1 K]]]].
  pose proof (assignManagedDriver_emits _ _ _ _ _ H1) as G1.
  pose proof (assignManagedDriver_assigns _ _ _ _ _ H1) as A1.
  assert (Gl : grows (fun ev => localEvent ev \/ ev = EvStorageBootstrap) s s1)
    by (eapply grows_weaken; [|exact G1]; intros ev Hev; left; exact Hev).
  assert (Gn : grows (fun ev => ev <> EvStorageBootstrap) s s1).
  { eapply grows_weaken; [|exact G1]. intros ev Hev.
    apply decision_not_storage, localEvent_decision, Hev. }
  destruct r1 as [e1|].
  { destruct K as [_ [-> ->]]. split; intros; assumption. }
  destruct K as [b [e2 [c2 [s2 [H2 K]]]]].
  pose proof (shouldBootstrapLoad_emits _ _ _ _ _ H2) as G2.
  pose proof (shouldBootstrapLoad_leaves _ _ _ _ _ _ H2) as L2.
  assert (Hdb : managedDB c2 = managedDB c1).
  { destruct L2 as [[_ ->]|[_ [[_ ->]|[info [_ [_ ->]]]]]]; reflexivity. }
  assert (Hdb' : managedDB c' = managedDB c1).
  { destruct e2 as [e|]; [destruct K as [_ [-> _]]; exact Hdb|].
    destruct b; [|destruct K as [_ [-> _]]; exact Hdb].
    apply bootstrap_leaves in K. subst c'. exact Hdb. }
  split.
  - intros Hnone Hflag. rewrite Hdb' in Hnone.
    assert (Hc1 : c1 = c).
    { destruct A1 as [A1|[_ [d [_ A1]]]]; [exact A1|]. subst c1. discriminate Hnone. }
    subst c1.
    assert (Hc2 : c2 = c).
    { destruct L2 as [[_ L2]|[L2 _]]; [exact L2 | contradiction]. }
    subst c2.
    rewrite (shouldBootstrapLoad_unmanaged c s1 Hnone) in H2.
    pose proof (checkStamp_emits _ _ _ _ _ H2) as G3.
    assert (Gs : grows (fun ev => localEvent ev \/ ev = EvStorageBootstrap) s s2).
    { eapply grows_trans; [exact Gl|]. eapply grows_weaken; [|exact G3].
      intros ev Hev. left. exact Hev. }
    destruct e2 as [e|]; [destruct K as [_ [_ ->]]; exact Gs|].
    destruct b; [|destruct K as [_ [_ ->]]; exact Gs].
    eapply grows_trans; [exact Gs|].
    exact (bootstrap_from_storage (set_shouldBootstrap true c) _ _ _ _ Hflag K).
  - intros Hsome. rewrite Hdb' in Hsome.
    assert (Gs : grows (fun ev => ev <> EvStorageBootstrap) s s2).
    { eapply grows_trans; [exact Gn|]. eapply grows_weaken; [|exact G2].
      exact decision_not_storage. }
    destruct e2 as [e|]; [destruct K as [_ [_ ->]]; exact Gs|].
    destruct b; [|destruct K as [_ [_ ->]]; exact Gs].
    eapply grows_trans; [exact Gs|].
    refine (bootstrap_over_http (set_shouldBootstrap true c2) _ _ _ _ _ K).
    change (HTTPBootstrap c2 = true).
    destruct L2 as [[L2 _]|[_ [[_ ->]|[info [_ [_ ->]]]]]];
      [contradiction | reflexivity | reflexivity].
Qed.

(** ** The first member of a cluster *)

Lemma isInitialized_checks (d : Driver World) (cfg : Config) :
  emitsP driverCheck (isInitialized d cfg).
Proof. unfold isInitialized. repeat trace_step. eexists. reflexivity. Qed.

Lemma firstInitialized_checks (cfg : Config) (ds : list (Driver World)) :
  emitsP driverCheck (firstInitialized cfg ds).
Proof.
  induction ds as [|d ds IH]; simpl.
  - apply emitsP_ret.
  - repeat (first [apply isInitialized_checks | exact IH | trace_step]).
Qed.

Lemma assignManagedDriver_checks : emitsP driverCheck assignManagedDriver.
Proof.
  unfold assignManagedDriver.
  repeat (first [apply firstInitialized_checks | trace_step]).
Qed.

(** X16. A node with a managed driver and no join URL starts or
    restarts its own cluster: once the driver is assigned, [Bootstrap]
    returns no error, with the HTTP flag up and the decision "do not
    load", and the driver checks are all it did: no token is validated,
    no request sent, the stamp is not looked at, nothing is fetched. *)
Theorem no_join_url_no_bootstrap
        (c c1 : Cluster World) (s s1 : Sys World) :
  assignManagedDriver (c, s) = Done (None, (c1, s1)) ->
  managedDB c1 <> None ->
  JoinURL (config c) = ""%string ->
  Bootstrap (c, s)
  = Done (None, (set_shouldBootstrap false (set_HTTPBootstrap true c1), s1))
  /\ grows driverCheck s s1.
Proof.
  intros H1 Hdb Hurl. split; [|exact (assignManagedDriver_checks _ _ _ _ _ H1)].
  assert (Hcfg : config c1 = config c).
  { destruct (assignManagedDriver_assigns _ _ _ _ _ H1) as [->|[_ [d [_ ->]]]];
      reflexivity. }
  unfold Bootstrap. unfold bind at 1. rewrite H1.
  unfold bind at 1. unfold shouldBootstrapLoad. unfold bind at 1. unfold this at 1.
  cbn [fst]. destruct (managedDB c1) as [db|]; [|contradiction Hdb; reflexivity].
  unfold bind at 1. unfold update at 1. cbn [fst snd].
  change (config (set_HTTPBootstrap true c1)) with (config c1).
  rewrite Hcfg, Hurl. reflexivity.
Qed.

(** ** What [Bootstrap] leaves behind *)

(** X17. The marks a run of [Bootstrap] leaves on the cluster.  The
    configuration is untouched; the driver it ends with was there
    before or is a registered one, and a driver is never taken away;
    the HTTP and joining flags are never taken down; an access info it
    ends with was there before or is for the user "server".  When the
    run returns no error: a decision to load means the joining flag is
    up, and a managed driver means the HTTP flag is up. *)
Theorem Bootstrap_evolves
        (c c' : Cluster World) (s s' : Sys World) (r : option error) :
  Bootstrap (c, s) = Done (r, (c', s')) ->
  evolves c c'
  /\ (r = None -> shouldBootstrap c' = true -> joining c' = true)
  /\ (r = None -> managedDB c' <> None -> HTTPBootstrap c' = true).
Proof.
  intros H. destruct (Bootstrap_steps _ _ _ _ _ H) as [r1 [c1 [s1 [H1 K]]]].
  assert (E1 : evolves c c1).
  { destruct (assignManagedDriver_assigns _ _ _ _ _ H1) as [->|[_ [d [Hin ->]]]];
      [apply evolves_refl|].
    unfold evolves. cbn. repeat split; auto; try discriminate.
    intros d' Hd. injection Hd as <-. right. exact Hin. }
  destruct r1 as [e1|].
  { destruct K as [-> [-> _]]. split; [exact E1|]. split; discriminate. }
  destruct K as [b [e2 [c2 [s2 [H2 K]]]]].
  pose proof (shouldBootstrapLoad_leaves _ _ _ _ _ _ H2) as L2.
  assert (E2 : evolves c1 c2).
  { destruct L2 as [[_ ->]|[_ [[_ ->]|[info [Hu [_ ->]]]]]].
    - apply evolves_refl.
    - unfold evolves. cbn. repeat split; auto.
    - unfold evolves. cbn. repeat split; auto.
      intros i Hi. injection Hi as <-. right. exact Hu. }
  assert (Hh : managedDB c2 <> None -> HTTPBootstrap c2 = true).
  { destruct L2 as [[L2 ->]|[_ [[_ ->]|[info [_ [_ ->]]]]]]; cbn; auto. }
  assert (E3 : forall x, evolves c2 (set_shouldBootstrap x c2)).
  { intros x. unfold evolves. cbn. repeat split; auto. }
  destruct e2 as [e|].
  { destruct K as [-> [-> _]]. split; [|split; discriminate].
    exact (evolves_trans _ _ _ E1 E2). }
  destruct b.
  - apply bootstrap_leaves in K. subst c'. split; [|split].
    + eapply evolves_trans; [exact (evolves_trans _ _ _ E1 E2)|].
      eapply evolves_trans; [exact (E3 true)|].
      unfold evolves. cbn. repeat split; auto.
    + intros _ _. reflexivity.
    + intros _. exact Hh.
  - destruct K as [_ [-> _]]. split; [|split].
    + exact (evolves_trans _ _ _ (evolves_trans _ _ _ E1 E2) (E3 false)).
    + intros _ Hs. discriminate Hs.
    + intros _. exact Hh.
Qed.

(** ** Nil access info *)

(** X18. [clientaccess.Get] dereferences the access info it is given,
    and [httpBootstrap] passes the cluster's, which is nil until a token
    has been validated.  On a cluster whose HTTP flag is down, as the
    process builds it, [Bootstrap] never gets there: it returns, with or
    without error.  The flag matters: with the flag up and no access
    info, [bootstrap] panics on the nil pointer. *)
Theorem Bootstrap_never_dereferences_nil (c : Cluster World) (s : Sys World) :
  (HTTPBootstrap c = false -> exists r st, Bootstrap (c, s) = Done (r, st))
  /\ (HTTPBootstrap c = true -> clientAccessInfo c = None ->
      bootstrap (c, s) = Panicked "invalid memory address or nil pointer dereference")
  /\ (forall path, clientaccess.Get path None s
                   = Panicked "invalid memory address or nil pointer dereference").
Proof.
  split; [exact (Bootstrap_returns c s)|]. split; [|reflexivity].
  intros Hh Hn. unfold bootstrap, bind, update, this. cbn [fst snd].
  change (HTTPBootstrap (set_joining true c)) with (HTTPBootstrap c). rewrite Hh.
  unfold httpBootstrap, bind, this, sys. cbn [fst snd].
  change (clientAccessInfo (set_joining true c)) with (clientAccessInfo c).
  rewrite Hn. reflexivity.
Qed.

End BootstrapFacts.

(* ------------------------------------------------------------------ *)
(** ** Concrete runs of the orchestration *)

(** A node joins a cluster through a self-signed peer: three requests
    of trust establishment, then the authenticated fetch. *)
Lemma credentials_never_sent_unverified_witness :
  let cfg := cluster.mkConfig "https://peer:6443" "secret" "/var/lib/k3s" "" false in
  let w := sim.mkWorld [] (sim.selfSigned "CA" "data") [] None in
  exists c' s',
    sim.run sim.etcd cfg w = Done (None, (c', s'))
    /\ sim.requested (sim.run sim.etcd cfg w)
       = ["https://peer:6443/cacerts"; "https://peer:6443/cacerts";
          "https://peer:6443/cacerts"; "https://peer:6443/v1-k3s/server-bootstrap"]%string
    /\ grows credentialsProtected (mkSys w []) s'.
Proof.
  intros cfg w.
  eassert (H : sim.run sim.etcd cfg w = Done (None, (_, _)))
    by (vm_compute; reflexivity).
  eexists _, _. split; [exact H|]. split; [vm_compute; reflexivity|].
  exact (@credentials_never_sent_unverified sim.World sim.platform sim.etcd
           _ _ _ _ _ H).
Defined.

(** A node on an external datastore, no managed driver registered. *)
Lemma transport_follows_the_driver_witness :
  let cfg := cluster.mkConfig "" "secret" "/var/lib/k3s"
               "mysql://k3s@tcp(db:3306)/k3s" false in
  let w := sim.mkWorld [] sim.failing [] None in
  exists r c' s',
    sim.run sim.unmanaged cfg w = Done (r, (c', s'))
    /\ grows (fun ev => localEvent ev \/ ev = EvStorageBootstrap) (mkSys w []) s'.
Proof.
  intros cfg w.
  eassert (H : sim.run sim.unmanaged cfg w = Done (_, (_, _)))
    by (vm_compute; reflexivity).
  eexists _, _, _. split; [exact H|].
  apply (proj1 (@transport_follows_the_driver sim.World sim.platform sim.unmanaged
                  _ _ _ _ _ H)); reflexivity.
Defined.

(** The first server of a new cluster: cluster-init, no join URL. *)
Lemma no_join_url_no_bootstrap_witness :
  let cfg := cluster.mkConfig "" "" "/var/lib/k3s" "" true in
  let w := sim.mkWorld [] sim.failing [] None in
  exists c1 s1,
    sim.run sim.etcd cfg w
    = Done (None, (cluster.set_shouldBootstrap false (cluster.set_HTTPBootstrap true c1),
                   s1))
    /\ cluster.managedDB c1 = Some (sim.driver "etcd")
    /\ grows driverCheck (mkSys w []) s1.
Proof.
  intros cfg w.
  eassert (H1 : @cluster.assignManagedDriver sim.World sim.etcd
                  (sim.newCluster cfg, mkSys w []) = Done (None, (_, _)))
    by (vm_compute; reflexivity).
  eexists _, _.
  refine ((fun X => conj (proj1 X) (conj _ (proj2 X)))
            (@no_join_url_no_bootstrap sim.World sim.platform sim.etcd _ _ _ _ H1 _ _)).
  - reflexivity.
  - discriminate.
  - reflexivity.
Defined.

(** The joining node again: what the run left on the cluster. *)
Lemma Bootstrap_evolves_witness :
  let cfg := cluster.mkConfig "https://peer:6443" "secret" "/var/lib/k3s" "" false in
  let w := sim.mkWorld [] (sim.selfSigned "CA" "data") [] None in
  exists c' s',
    sim.run sim.etcd cfg w = Done (None, (c', s'))
    /\ @evolves sim.World sim.etcd (sim.newCluster cfg) c'
    /\ (@None error = None -> cluster.shouldBootstrap c' = true -> cluster.joining c' = true)
    /\ (@None error = None -> cluster.managedDB c' <> None ->
        cluster.HTTPBootstrap c' = true).
Proof.
  intros cfg w.
  eassert (H : sim.run sim.etcd cfg w = Done (None, (_, _)))
    by (vm_compute; reflexivity).
  eexists _, _. split; [exact H|].
  exact (@Bootstrap_evolves sim.World sim.platform sim.etcd _ _ _ _ _ H).
Defined.

(** A cluster whose HTTP flag is up although no token was validated:
    the stamp is absent, [Bootstrap] goes to the HTTP fetch and panics. *)
Example Bootstrap_panics_on_stale_flag :
  let cfg := cluster.mkConfig "" "secret" "/var/lib/k3s" "" false in
  let w := sim.mkWorld [] sim.failing [] None in
  @cluster.Bootstrap sim.World sim.platform sim.unmanaged
    (cluster.mkCluster cfg true None false false None, mkSys w [])
  = Panicked "invalid memory address or nil pointer dereference".
Proof. vm_compute. reflexivity. Qed.

(* ------------------------------------------------------------------ *)
(** * Registering the managed database *)

Section ManagedFacts.
Context {World Listener Handler : Type}.
Variable Register :
  cluster.Driver World -> cluster.Config -> Listener -> Handler -> World ->
  (Listener * Handler * option error) * World.
Import cluster strings strings_facts spec.
Local Open Scope string_scope.

Lemma no_colon_no_cut (name : string) :
  ~ In ":"%char (list_ascii_of_string name) -> Index name ":" = None.
Proof.
  intros Hn. destruct (Index name ":") as [m|] eqn:E; [|reflexivity].
  exfalso. apply Hn. destruct (Index_Some _ _ _ E) as [[Hc _] _].
  rewrite Hc, list_ascii_app. apply in_or_app. right. left. reflexivity.
Qed.

(** X19. [initClusterDB] without a managed driver hands back the
    listener and the handler it was given and touches nothing.  With a
    driver it calls the driver's [Register] once, with the configuration
    it leaves behind; of the cluster it changes the datastore endpoint
    at most: an endpoint that starts with the driver's name and "://"
    is kept, any other is replaced by the driver's name.  Either way,
    when the name holds no ":", the endpoint type that driver selection
    reads off the endpoint (what precedes its first ":") is now the
    driver's name. *)
Theorem initClusterDB_names_the_driver
        (l l' : Listener) (h h' : Handler) (e : option error)
        (c c' : Cluster World) (s s' : Sys World) :
  cluster_managed.initClusterDB Register l h (c, s) = Done ((l', h', e), (c', s')) ->
  match managedDB c with
  | None => c' = c /\ s' = s /\ l' = l /\ h' = h /\ e = None
  | Some db =>
      Register db (config c') l h (world s) = ((l', h', e), world s')
      /\ trace s' = trace s
      /\ c' = cluster_managed.set_Datastore (DatastoreEndpoint (config c')) c
      /\ ((DatastoreEndpoint (config c') = DatastoreEndpoint (config c)
           /\ exists rest,
               DatastoreEndpoint (config c) = EndpointName db ++ "://" ++ rest)
          \/ (DatastoreEndpoint (config c') = EndpointName db
              /\ HasPrefix (DatastoreEndpoint (config c)) (EndpointName db ++ "://")
                 = false))
      /\ (~ In ":"%char (list_ascii_of_string (EndpointName db)) ->
          exists tl,
            SplitN (DatastoreEndpoint (config c')) ":" 2 = EndpointName db :: tl)
  end.
Proof.
  unfold cluster_managed.initClusterDB. unfold bind at 1. unfold this at 1. cbn [fst].
  destruct (managedDB c) as [db|] eqn:Edb.
  - destruct (HasPrefix (DatastoreEndpoint (config c)) (EndpointName db ++ "://")) eqn:Ep;
      cbn [negb]; unfold bind, update, this, ret, sys; cbn [fst snd].
    + destruct (Register db (config c) l h (world s)) as [r w] eqn:ER.
      intros H. injection H as -> <- <-. cbn [world trace].
      split; [exact ER|]. split; [reflexivity|].
      split; [destruct c as [[] ? ? ? ? ?]; reflexivity|].
      apply HasPrefix_iff in Ep. destruct Ep as [rest Hrest].
      rewrite app_assoc in Hrest.
      split; [left; split; [reflexivity | exists rest; exact Hrest]|].
      intros Hn.
      assert (Hi : Index (DatastoreEndpoint (config c)) ":"
                   = Some (String.length (EndpointName db)))
        by (rewrite Hrest; exact (Index_skip _ ("//" ++ rest) "" ":"%char Hn)).
      rewrite SplitN_2, Hi. eexists. f_equal.
      rewrite Hrest. apply sliceTo_app.
    + destruct (Register db _ l h (world s)) as [r w] eqn:ER.
      intros H. injection H as -> <- <-. cbn [world trace].
      split; [exact ER|]. split; [reflexivity|].
      split; [reflexivity|].
      split; [right; split; reflexivity|].
      intros Hn. cbn [cluster_managed.set_Datastore config DatastoreEndpoint].
      rewrite SplitN_2, (no_colon_no_cut _ Hn). eexists. reflexivity.
  - unfold ret. intros H. injection H as <- <- <- <- <-. repeat split.
Qed.

End ManagedFacts.

(** An etcd node with an empty endpoint: the endpoint becomes "etcd". *)
Lemma initClusterDB_names_the_driver_witness :
  let register := fun (_ : cluster.Driver sim.World) (_ : cluster.Config)
                      (l : nat) (h : nat) (w : sim.World) => ((l, h, @None error), w) in
  let cfg := cluster.mkConfig "" "" "/var/lib/k3s" "" true in
  let c := cluster.set_managedDB (Some (sim.driver "etcd")) (sim.newCluster cfg) in
  let w := sim.mkWorld [] sim.failing [] None in
  exists c' s',
    cluster_managed.initClusterDB register 443 1 (c, mkSys w []) = Done ((443, 1, None), (c', s'))
    /\ cluster.DatastoreEndpoint (cluster.config c') = "etcd"%string
    /\ register (sim.driver "etcd") (cluster.config c') 443 1 w = ((443, 1, None), world s')
    /\ trace s' = []
    /\ c' = cluster_managed.set_Datastore (cluster.DatastoreEndpoint (cluster.config c')) c
    /\ ((cluster.DatastoreEndpoint (cluster.config c') = ""%string
         /\ exists rest, ""%string = ("etcd" ++ "://" ++ rest)%string)
        \/ (cluster.DatastoreEndpoint (cluster.config c') = "etcd"%string
            /\ strings.HasPrefix "" ("etcd" ++ "://") = false))
    /\ (~ In ":"%char (list_ascii_of_string "etcd") ->
        exists tl,
          strings.SplitN (cluster.DatastoreEndpoint (cluster.config c')) ":" 2
          = "etcd"%string :: tl).
Proof.
  intros register cfg c w.
  eassert (H : cluster_managed.initClusterDB register 443 1 (c, mkSys w [])
               = Done ((443, 1, None), (_, _))) by (vm_compute; reflexivity).
  eexists _, _. split; [exact H|]. split; [reflexivity|].
  exact (initClusterDB_names_the_driver register _ _ _ _ _ _ _ _ _ H).
Defined.

(* ------------------------------------------------------------------ *)
(** * Quorum loss, seen from the joining node *)

Section ServiceUnavailable.
Context {World : Type} {P : Platform World}.

(** X21. How the service-unavailable condition arises.  The token
    parses and the server is a valid https URL; the first request of
    trust establishment fails, whatever the reason; the peer answers the
    second one, sent without certificate verification, with status 503.
    Then token validation fails with the 503 sentinel wrapped as "failed
    to get CA certs", which [errors.Is] the sentinel, and no third
    request is sent. *)
Theorem peer_503_is_service_unavailable
        (server token user : string) (s s1 : Sys World) (parsed : clientaccess.Info)
        (u : URL) (e1 : error) (resp : Response) (w2 : World) :
  let url := URL_String
               (URL_withPath
                  (URL_withPath u (clientaccess.trimSlashes (String.length (Path u)) (Path u)))
                  "/cacerts") in
  let req := mkRequest "GET" url None in
  let err := errors.Wrap ErrServiceUnavailable "failed to get CA certs" in
  clientaccess.parseToken token = Ok parsed ->
  url_Parse server = Ok u ->
  Scheme u = "https"%string ->
  clientaccess.get url DefaultClient "" "" s = Done (Err e1, s1) ->
  http_NewRequest url = None ->
  Client_Do insecureClient req (world s1) = (Ok resp, w2) ->
  StatusCode resp = 503%Z ->
  clientaccess.ParseAndValidateTokenForUser server token user s
  = Done (Err err, mkSys w2 (trace s1 ++ [EvRequest insecureClient req]))
  /\ errors.Is err ErrServiceUnavailable = true.
Proof.
  intros url req err Hp Hu Hs H1 Hn Hdo H503. split; [|reflexivity].
  unfold clientaccess.ParseAndValidateTokenForUser. rewrite Hp.
  unfold bind at 1. unfold clientaccess.setServer. rewrite Hu, Hs.
  cbn [String.eqb Ascii.eqb Bool.eqb negb].
  unfold bind at 1. unfold clientaccess.getCACerts. fold url.
  unfold bind at 1. rewrite H1.
  unfold bind at 1. unfold clientaccess.get at 1. rewrite Hn.
  unfold bind at 1. unfold call. cbn [String.eqb]. fold req. rewrite Hdo, H503.
  reflexivity.
Qed.

End ServiceUnavailable.

(** A peer that has lost quorum answers 503 to the first request too. *)
Lemma peer_503_is_service_unavailable_witness :
  let w := sim.mkWorld [] sim.unavailable [] None in
  let req := mkRequest "GET" "https://peer:6443/cacerts" None in
  let err := errors.Wrap ErrServiceUnavailable "failed to get CA certs" in
  @clientaccess.ParseAndValidateTokenForUser sim.World sim.platform
    "https://peer:6443/" "K10abc::server:pw" "server" (mkSys w [])
  = Done (Err err,
          mkSys w ([EvRequest DefaultClient req] ++ [EvRequest insecureClient req]))
  /\ errors.Is err ErrServiceUnavailable = true.
Proof.
  intros w req err.
  refine (@peer_503_is_service_unavailable sim.World sim.platform
            "https://peer:6443/" "K10abc::server:pw" "server"
            (mkSys w []) (mkSys w [EvRequest DefaultClient req])
            (clientaccess.mkInfo [] "" "server" "pw" "abc")
            (mkURL "https" "peer:6443" "/" "") ErrServiceUnavailable
            (mkResponse 503 "503 Service Unavailable" (Ok [])) w
            _ _ _ _ _ _ _); vm_compute; reflexivity.
Defined.

(* ------------------------------------------------------------------ *)
(** * The decision to load *)

Section LoadDecision.
Context {World : Type} {P : Platform World} {Co : cluster.Collaborators World}.
Import cluster.

(** X22. What holds when [shouldBootstrapLoad] decides to load.  It
    returns no error with the decision; the last thing it did was to
    look for the stamp, which was not found; and with a managed driver
    the join URL and the token are not empty and the token has just
    been validated for the user "server": the access info the cluster
    now holds is the one validation returned. *)
Theorem load_is_decided_last
        (c c' : Cluster World) (s s' : Sys World) (e : option error) :
  shouldBootstrapLoad (c, s) = Done ((true, e), (c', s')) ->
  e = None
  /\ (exists s0 err,
         os_Stat (bootstrapStamp c) (world s0) = (Some err, world s')
         /\ trace s' = trace s0 ++ [EvStat (bootstrapStamp c)]
         /\ (managedDB c = None -> s0 = s /\ c' = c)
         /\ (managedDB c <> None ->
             JoinURL (config c) <> ""%string
             /\ Token (config c) <> ""%string
             /\ exists info,
                 clientaccess.ParseAndValidateTokenForUser
                   (JoinURL (config c)) (Token (config c)) "server" s
                 = Done (Ok info, s0)
                 /\ clientAccessInfo c' = Some info
                 /\ HTTPBootstrap c' = true)).
Proof.
  assert (K : forall (c0 : Cluster World) (s0 : Sys World),
             bootstrapStamp c0 = bootstrapStamp c ->
             checkStamp (c0, s0) = Done ((true, e), (c', s')) ->
             e = None /\ c' = c0
             /\ (exists err, os_Stat (bootstrapStamp c) (world s0) = (Some err, world s'))
             /\ trace s' = trace s0 ++ [EvStat (bootstrapStamp c)]
             /\ (managedDB c0 <> None -> Token (config c0) <> ""%string)).
  { intros c0 s0 Hst. rewrite <- Hst.
    destruct (os_Stat (bootstrapStamp c0) (world s0)) as [[err|] w] eqn:E.
    - rewrite (checkStamp_absent _ _ _ _ E).
      destruct (managedDB c0) as [db|].
      + destruct (Token (config c0) =? "")%string eqn:Et; [discriminate|].
        intros H. injection H as <- <- <-.
        split; [reflexivity|]. split; [reflexivity|].
        split; [exists err; reflexivity|]. split; [reflexivity|].
        intros _. apply String.eqb_neq. exact Et.
      + intros H. injection H as <- <- <-.
        split; [reflexivity|]. split; [reflexivity|].
        split; [exists err; reflexivity|]. split; [reflexivity|].
        intros Hn. contradiction Hn. reflexivity.
    - rewrite (checkStamp_present _ _ _ E). discriminate. }
  destruct (managedDB c) as [db|] eqn:Edb.
  - intros H.
    destruct (JoinURL (config c) =? "")%string eqn:Eu.
    + exfalso. revert H. unfold shouldBootstrapLoad. unfold bind at 1.
      unfold this at 1. cbn [fst]. rewrite Edb. unfold bind, update. cbn [fst snd].
      change (config (set_HTTPBootstrap true c)) with (config c). rewrite Eu.
      discriminate.
    + apply String.eqb_neq in Eu.
      destruct (clientaccess.ParseAndValidateTokenForUser
                  (JoinURL (config c)) (Token (config c)) "server" s)
        as [[r sv]|] eqn:Hv.
      * rewrite (shouldBootstrapLoad_validates c s sv db r Edb Eu Hv) in H.
        destruct r as [info|verr].
        -- destruct (K (set_clientAccessInfo (Some info) (set_HTTPBootstrap true c))
                       sv eq_refl H) as [He [Hc [[err Hs] [Ht Htok]]]].
           split; [exact He|]. exists sv, err.
           split; [exact Hs|]. split; [exact Ht|].
           split; [discriminate|]. intros _.
           split; [exact Eu|]. split; [apply Htok; cbn; rewrite Edb; discriminate|].
           exists info. subst c'. repeat split.
        -- exfalso. destruct (errors.Is verr ErrServiceUnavailable).
           ++ revert H. unfold bind, isInitialized, sys, call, logrus. cbn [fst snd].
              destruct (IsInitialized db _ (world sv)) as [[[|]|e2] w]; discriminate.
           ++ discriminate H.
      * exfalso. revert H. unfold shouldBootstrapLoad. unfold bind at 1.
        unfold this at 1. cbn [fst]. rewrite Edb. unfold bind at 1.
        unfold update at 1. cbn [fst snd].
        change (config (set_HTTPBootstrap true c)) with (config c).
        rewrite (eqb_empty_false _ Eu).
        unfold bind at 1. unfold sys at 1. cbn [fst snd]. rewrite Hv. discriminate.
  - rewrite (shouldBootstrapLoad_unmanaged c s Edb). intros H.
    destruct (K c s eq_refl H) as [He [Hc [[err Hs] [Ht _]]]].
    split; [exact He|]. exists s, err.
    split; [exact Hs|]. split; [exact Ht|].
    split; [intros _; split; [reflexivity | exact Hc]|].
    intros Hn. contradiction Hn. reflexivity.
Qed.

End LoadDecision.

(** A node joins through a self-signed peer and has no stamp yet. *)
Lemma load_is_decided_last_witness :
  let cfg := cluster.mkConfig "https://peer:6443" "secret" "/var/lib/k3s" "" false in
  let w := sim.mkWorld [] (sim.selfSigned "CA" "data") [] None in
  let c := cluster.set_managedDB (Some (sim.driver "etcd")) (sim.newCluster cfg) in
  exists c' s',
    @cluster.shouldBootstrapLoad sim.World sim.platform sim.etcd (c, mkSys w [])
    = Done ((true, None), (c', s'))
    /\ exists s0 err,
        @os_Stat sim.World sim.platform (@cluster.bootstrapStamp sim.World sim.platform sim.etcd c)
          (world s0) = (Some err, world s')
        /\ trace s'
           = trace s0 ++ [EvStat (@cluster.bootstrapStamp sim.World sim.platform sim.etcd c)]
        /\ (cluster.managedDB c = None -> s0 = mkSys w [] /\ c' = c)
        /\ (cluster.managedDB c <> None ->
            cluster.JoinURL (cluster.config c) <> ""%string
            /\ cluster.Token (cluster.config c) <> ""%string
            /\ exists info,
                @clientaccess.ParseAndValidateTokenForUser sim.World sim.platform
                  (cluster.JoinURL (cluster.config c)) (cluster.Token (cluster.config c))
                  "server" (mkSys w [])
                = Done (Ok info, s0)
                /\ cluster.clientAccessInfo c' = Some info
                /\ cluster.HTTPBootstrap c' = true).
Proof.
  intros cfg w c.
  eassert (H : @cluster.shouldBootstrapLoad sim.World sim.platform sim.etcd (c, mkSys w [])
               = Done ((true, None), (_, _))) by (vm_compute; reflexivity).
  eexists _, _. split; [exact H|].
  exact (proj2 (@load_is_decided_last sim.World sim.platform sim.etcd _ _ _ _ _ H)).
Defined.
